(** * modem-kick: a shallow embedding of [src/modem-kick.c]

    The daemon watches the cellular modems exported by ModemManager, records
    since when each of them has been idle or denied, and "kicks" the ones that
    stay so for too long (disable, low power, enable).

    The program is a set of callbacks run one at a time by a GLib main loop.
    Each callback is embedded as a function of a small state-and-fault monad
    over a [World] that holds what the callbacks share: the [MMObject]s with
    their reference counts and attached [ModemContext], the [modems] hash
    table, the main loop's pending timeout sources, the cancellables and the
    asynchronous calls in flight.  Log output ([g_message], [g_warning]) is
    not part of the model. *)

From stdpp Require Import gmap strings list fin_maps.
From Stdlib Require Import ZArith NArith Lia.

Local Open Scope Z_scope.

(** ** Data model *)

(** Addresses of [MMObject]s and of [GCancellable]s. *)
Abbreviation ObjId := positive (only parsing).
Abbreviation CancId := positive (only parsing).

(** [OpState], lines 109-115. *)
Inductive OpState : Type :=
| MODEM_OP_STATE_NONE
| MODEM_OP_STATE_DISABLE
| MODEM_OP_STATE_LOW_POWER
| MODEM_OP_STATE_ENABLE
| MODEM_OP_STATE_FINISH.

#[global] Instance OpState_eq_dec : EqDecision OpState.
Proof. solve_decision. Defined.

(** [MMModem3gppRegistrationState] of libmm-glib; the program only compares it
    with [IDLE] and [DENIED]. *)
Inductive MMModem3gppRegistrationState : Type :=
| MM_MODEM_3GPP_REGISTRATION_STATE_IDLE
| MM_MODEM_3GPP_REGISTRATION_STATE_HOME
| MM_MODEM_3GPP_REGISTRATION_STATE_SEARCHING
| MM_MODEM_3GPP_REGISTRATION_STATE_DENIED
| MM_MODEM_3GPP_REGISTRATION_STATE_UNKNOWN
| MM_MODEM_3GPP_REGISTRATION_STATE_ROAMING
| MM_MODEM_3GPP_REGISTRATION_STATE_HOME_SMS_ONLY
| MM_MODEM_3GPP_REGISTRATION_STATE_ROAMING_SMS_ONLY
| MM_MODEM_3GPP_REGISTRATION_STATE_EMERGENCY_ONLY
| MM_MODEM_3GPP_REGISTRATION_STATE_HOME_CSFB_NOT_PREFERRED
| MM_MODEM_3GPP_REGISTRATION_STATE_ROAMING_CSFB_NOT_PREFERRED
| MM_MODEM_3GPP_REGISTRATION_STATE_ATTACHED_RLOS.

#[global] Instance RegistrationState_eq_dec :
  EqDecision MMModem3gppRegistrationState.
Proof. solve_decision. Defined.

(** The test of line 183. *)
Definition idle_or_denied (reg_state : MMModem3gppRegistrationState) : bool :=
  bool_decide (reg_state = MM_MODEM_3GPP_REGISTRATION_STATE_IDLE)
  || bool_decide (reg_state = MM_MODEM_3GPP_REGISTRATION_STATE_DENIED).

(** [struct ModemContext], lines 117-135.  The [modem] and [modem_3gpp]
    fields are borrowed pointers to the interfaces of the object the context
    is attached to; they are read through the object. *)
Record ModemContext : Type := mkModemContext {
  path : string;
  reg_state_changed_id : N;
  timestamp : Z;                  (* gint64; 0 = not idle/denied *)
  cancellable : option CancId;    (* NULL or the current kick's token *)
  op_state : OpState;
  next_id : N;                    (* guint source id; 0 = no timer *)
  tries : N                       (* guint *)
}.

Definition set_timestamp (v : Z) (c : ModemContext) : ModemContext :=
  mkModemContext (path c) (reg_state_changed_id c) v (cancellable c)
                 (op_state c) (next_id c) (tries c).
Definition set_reg_state_changed_id (v : N) (c : ModemContext) : ModemContext :=
  mkModemContext (path c) v (timestamp c) (cancellable c)
                 (op_state c) (next_id c) (tries c).
Definition set_cancellable (v : option CancId) (c : ModemContext) : ModemContext :=
  mkModemContext (path c) (reg_state_changed_id c) (timestamp c) v
                 (op_state c) (next_id c) (tries c).
Definition set_op_state (v : OpState) (c : ModemContext) : ModemContext :=
  mkModemContext (path c) (reg_state_changed_id c) (timestamp c) (cancellable c)
                 v (next_id c) (tries c).
Definition set_next_id (v : N) (c : ModemContext) : ModemContext :=
  mkModemContext (path c) (reg_state_changed_id c) (timestamp c) (cancellable c)
                 (op_state c) v (tries c).
Definition set_tries (v : N) (c : ModemContext) : ModemContext :=
  mkModemContext (path c) (reg_state_changed_id c) (timestamp c) (cancellable c)
                 (op_state c) (next_id c) v.

(** The two interfaces of an [MMObject] the program looks at. *)
Record MMModem : Type := mkMMModem {
  primary_port : option string          (* mm_modem_get_primary_port *)
}.

Record MMModem3gpp : Type := mkMMModem3gpp {
  registration_state : MMModem3gppRegistrationState;
  notify_handlers : list N   (* handlers connected to notify::registration-state *)
}.

(** An [MMObject]: a reference-counted GObject with the data attached under
    the key "modem-context" (destroyed with [modem_context_free]). *)
Record MMObject : Type := mkMMObject {
  object_path : string;                  (* mm_object_get_path *)
  modem_iface : option MMModem;          (* mm_object_peek_modem *)
  modem_3gpp_iface : option MMModem3gpp; (* mm_object_peek_modem_3gpp *)
  ref_count : positive;
  modem_context : option ModemContext    (* get_modem_context *)
}.

Definition set_modem_3gpp_iface (v : option MMModem3gpp) (o : MMObject) : MMObject :=
  mkMMObject (object_path o) (modem_iface o) v (ref_count o) (modem_context o).
Definition set_ref_count (v : positive) (o : MMObject) : MMObject :=
  mkMMObject (object_path o) (modem_iface o) (modem_3gpp_iface o) v (modem_context o).
Definition set_modem_context (v : option ModemContext) (o : MMObject) : MMObject :=
  mkMMObject (object_path o) (modem_iface o) (modem_3gpp_iface o) (ref_count o) v.

(** The three asynchronous requests sent to ModemManager. *)
Inductive CallKind : Type :=
| CALL_DISABLE            (* mm_modem_disable,         modem_disable_ready *)
| CALL_SET_POWER_STATE_LOW (* mm_modem_set_power_state, set_power_state_low_ready *)
| CALL_ENABLE.            (* mm_modem_enable,          modem_enable_ready *)

#[global] Instance CallKind_eq_dec : EqDecision CallKind.
Proof. solve_decision. Defined.

(** A request in flight: its kind, the [modem_object] passed as user data
    (with a reference of its own) and the cancellable it was given. *)
Record Call : Type := mkCall {
  call_kind : CallKind;
  call_object : ObjId;
  call_cancellable : option CancId
}.

(** What the callbacks share. *)
Record World : Type := mkWorld {
  monotonic_time : Z;              (* g_get_monotonic_time, microseconds *)
  objects : gmap positive MMObject; (* live MMObjects *)
  modems : gmap string positive;   (* ctx->modems: path -> referenced object *)
  sources : gmap N positive;       (* pending timeouts of modem_op_state_run *)
  next_source : positive;          (* id the next source gets *)
  cancelled : gset positive;       (* cancellables that were cancelled *)
  next_cancellable : positive;     (* address the next g_cancellable_new gets *)
  pending_calls : list Call;       (* requests in flight *)
  next_handler : positive          (* id the next signal handler gets *)
}.

Definition set_objects (v : gmap positive MMObject) (w : World) : World :=
  mkWorld (monotonic_time w) v (modems w) (sources w) (next_source w)
          (cancelled w) (next_cancellable w) (pending_calls w) (next_handler w).
Definition set_modems (v : gmap string positive) (w : World) : World :=
  mkWorld (monotonic_time w) (objects w) v (sources w) (next_source w)
          (cancelled w) (next_cancellable w) (pending_calls w) (next_handler w).
Definition set_sources (v : gmap N positive) (w : World) : World :=
  mkWorld (monotonic_time w) (objects w) (modems w) v (next_source w)
          (cancelled w) (next_cancellable w) (pending_calls w) (next_handler w).
Definition set_next_source (v : positive) (w : World) : World :=
  mkWorld (monotonic_time w) (objects w) (modems w) (sources w) v
          (cancelled w) (next_cancellable w) (pending_calls w) (next_handler w).
Definition set_cancelled (v : gset positive) (w : World) : World :=
  mkWorld (monotonic_time w) (objects w) (modems w) (sources w) (next_source w)
          v (next_cancellable w) (pending_calls w) (next_handler w).
Definition set_next_cancellable (v : positive) (w : World) : World :=
  mkWorld (monotonic_time w) (objects w) (modems w) (sources w) (next_source w)
          (cancelled w) v (pending_calls w) (next_handler w).
Definition set_pending_calls (v : list Call) (w : World) : World :=
  mkWorld (monotonic_time w) (objects w) (modems w) (sources w) (next_source w)
          (cancelled w) (next_cancellable w) v (next_handler w).
Definition set_next_handler (v : positive) (w : World) : World :=
  mkWorld (monotonic_time w) (objects w) (modems w) (sources w) (next_source w)
          (cancelled w) (next_cancellable w) (pending_calls w) v.
Definition set_monotonic_time (v : Z) (w : World) : World :=
  mkWorld v (objects w) (modems w) (sources w) (next_source w)
          (cancelled w) (next_cancellable w) (pending_calls w) (next_handler w).

(** ** The monad of the callbacks *)

(** A callback either returns or takes the process down: a failed [g_assert]
    aborts, and a dereference of a pointer to nothing is a fault. *)
Inductive Fault : Type :=
| ASSERTION_FAILED
| BAD_POINTER.

Inductive Result (A : Type) : Type :=
| Done (a : A) (w : World)
| Crash (f : Fault).
Arguments Done {A} a w.
Arguments Crash {A} f.

Definition M (A : Type) : Type := World -> Result A.

Definition ret {A} (a : A) : M A := fun w => Done a w.

Definition bind {A B} (m : M A) (k : A -> M B) : M B :=
  fun w => match m w with
           | Done a w' => k a w'
           | Crash f => Crash f
           end.

Notation "'let*' x ':=' m 'in' k" := (bind m (fun x => k))
  (at level 10, x name, m at level 100, k at level 200).
Notation "m ';;;' k" := (bind m (fun _ => k))
  (at level 100, k at level 200, right associativity).

Definition crash {A} (f : Fault) : M A := fun _ => Crash f.
Definition get : M World := fun w => Done w w.
Definition modify (f : World -> World) : M unit := fun w => Done tt (f w).

(** [g_assert]. *)
Definition g_assert (b : bool) : M unit :=
  if b then ret tt else crash ASSERTION_FAILED.

(** ** Integers of the program *)

(** [guint] increments wrap at 2^32. *)
Definition guint_incr (n : N) : N := ((n + 1) mod 2 ^ 32)%N.

(** [gint64] subtraction (two's complement). *)
Definition gint64_wrap (z : Z) : Z := (z + 2 ^ 63) mod 2 ^ 64 - 2 ^ 63.
Definition gint64_sub (a b : Z) : Z := gint64_wrap (a - b).

Definition G_USEC_PER_SEC : Z := 1000000.

(** ** GLib and GObject primitives *)

(** [g_get_monotonic_time]. *)
Definition g_get_monotonic_time : M Z :=
  fun w => Done (monotonic_time w) w.

(** [g_cancellable_new]. *)
Definition g_cancellable_new : M CancId :=
  fun w => Done (next_cancellable w)
                (set_next_cancellable (Pos.succ (next_cancellable w)) w).

(** [g_cancellable_cancel]: nothing happens on [NULL]. *)
Definition g_cancellable_cancel (c : option CancId) : M unit :=
  match c with
  | None => ret tt
  | Some c => modify (fun w => set_cancelled ({[ c ]} ∪ cancelled w) w)
  end.

(** [g_timeout_add_seconds (10, modem_op_state_run, modem_object)]: a new
    source with a non-zero id. *)
Definition g_timeout_add_seconds (modem_object : ObjId) : M N :=
  fun w => Done (Npos (next_source w))
                (set_next_source (Pos.succ (next_source w))
                   (set_sources (<[Npos (next_source w) := modem_object]> (sources w)) w)).

(** [g_source_remove]. *)
Definition g_source_remove (id : N) : M unit :=
  modify (fun w => set_sources (delete id (sources w)) w).

(** [g_signal_connect (modem_3gpp_iface, "notify::registration-state", ...)]
    on the 3GPP interface of [modem_object]. *)
Definition g_signal_connect (modem_object : ObjId) : M N :=
  fun w =>
    match objects w !! modem_object with
    | Some o =>
        match modem_3gpp_iface o with
        | Some i =>
            let id := Npos (next_handler w) in
            let i' := mkMMModem3gpp (registration_state i) (id :: notify_handlers i) in
            Done id (set_next_handler (Pos.succ (next_handler w))
                       (set_objects (<[modem_object := set_modem_3gpp_iface (Some i') o]>
                                       (objects w)) w))
        | None => Crash BAD_POINTER
        end
    | None => Crash BAD_POINTER
    end.

(** Reading an [MMObject] through a pointer. *)
Definition deref (modem_object : ObjId) : M MMObject :=
  fun w => match objects w !! modem_object with
           | Some o => Done o w
           | None => Crash BAD_POINTER
           end.

(** [get_modem_context], lines 137-141, followed by the dereference every
    caller makes. *)
Definition get_modem_context (modem_object : ObjId) : M ModemContext :=
  let* o := deref modem_object in
  match modem_context o with
  | Some modem_ctx => ret modem_ctx
  | None => crash BAD_POINTER
  end.

(** Writing the fields of the [ModemContext] of [modem_object] back. *)
Definition put_modem_context (modem_object : ObjId) (modem_ctx : ModemContext) : M unit :=
  let* o := deref modem_object in
  modify (fun w => set_objects
                     (<[modem_object := set_modem_context (Some modem_ctx) o]> (objects w)) w).

(** ** Per-modem context *)

(** [modem_context_new], lines 143-154: a zeroed context with the path. *)
Definition modem_context_new (o : MMObject) : ModemContext :=
  mkModemContext (object_path o) 0%N 0 None MODEM_OP_STATE_NONE 0%N 0%N.

(** [modem_context_cancel_op], lines 156-166, on the fields of [modem_ctx]. *)
Definition modem_context_cancel_op (modem_ctx : ModemContext) : M ModemContext :=
  let modem_ctx := set_op_state MODEM_OP_STATE_NONE modem_ctx in
  g_cancellable_cancel (cancellable modem_ctx) ;;;
  let modem_ctx := set_cancellable None modem_ctx in
  (if bool_decide (next_id modem_ctx ≠ 0%N)
   then g_source_remove (next_id modem_ctx)
   else ret tt) ;;;
  let modem_ctx := set_next_id 0%N modem_ctx in
  let modem_ctx := set_tries 0%N modem_ctx in
  ret modem_ctx.

(** [modem_context_free], lines 168-173. *)
Definition modem_context_free (modem_ctx : ModemContext) : M unit :=
  modem_context_cancel_op modem_ctx ;;;
  ret tt.

(** [g_object_ref]. *)
Definition g_object_ref (modem_object : ObjId) : M unit :=
  let* o := deref modem_object in
  modify (fun w => set_objects
                     (<[modem_object := set_ref_count (Pos.succ (ref_count o)) o]> (objects w)) w).

(** [g_object_unref]: dropping the last reference finalizes the object; its
    attached data is destroyed with the notify given at line 229,
    [modem_context_free], and the object with its interfaces (and the signal
    handlers connected to them) is gone. *)
Definition g_object_unref (modem_object : ObjId) : M unit :=
  let* o := deref modem_object in
  match ref_count o with
  | xH =>
      (match modem_context o with
       | Some modem_ctx => modem_context_free modem_ctx
       | None => ret tt
       end) ;;;
      modify (fun w => set_objects (delete modem_object (objects w)) w)
  | n =>
      modify (fun w => set_objects
                         (<[modem_object := set_ref_count (Pos.pred n) o]> (objects w)) w)
  end.

(** [g_object_set_data_full (modem_object, "modem-context", modem_ctx,
    modem_context_free)]: data already attached is destroyed. *)
Definition g_object_set_data_full (modem_object : ObjId) (modem_ctx : ModemContext) : M unit :=
  let* o := deref modem_object in
  modify (fun w => set_objects
                     (<[modem_object := set_modem_context (Some modem_ctx) o]> (objects w)) w) ;;;
  match modem_context o with
  | Some old => modem_context_free old
  | None => ret tt
  end.

(** ** Registration monitor *)

(** [modem_registration_changed], lines 175-192. *)
Definition modem_registration_changed (modem_3gpp : MMModem3gpp) (modem_object : ObjId) : M unit :=
  let* modem_ctx := get_modem_context modem_object in
  let reg_state := registration_state modem_3gpp in
  if idle_or_denied reg_state then
    if bool_decide (timestamp modem_ctx = 0) then
      let* now := g_get_monotonic_time in
      put_modem_context modem_object (set_timestamp now modem_ctx)
    else ret tt
  else
    put_modem_context modem_object (set_timestamp 0 modem_ctx).

(** ** Modem registry *)

(** [g_hash_table_insert (ctx->modems, key, value)]: the table was created
    with [g_object_unref] for its values (line 55), so a value it replaces is
    released. *)
Definition g_hash_table_insert (key : string) (value : ObjId) : M unit :=
  let* w := get in
  modify (fun w => set_modems (<[key := value]> (modems w)) w) ;;;
  match modems w !! key with
  | Some old => g_object_unref old
  | None => ret tt
  end.

(** [g_hash_table_remove (ctx->modems, key)]. *)
Definition g_hash_table_remove (key : string) : M unit :=
  let* w := get in
  match modems w !! key with
  | Some old =>
      modify (fun w => set_modems (delete key (modems w)) w) ;;;
      g_object_unref old
  | None => ret tt
  end.

(** [handle_object_added], lines 198-238. *)
Definition handle_object_added (modem_object : ObjId) : M unit :=
  let* o := deref modem_object in
  let path := object_path o in
  match modem_iface o with
  | None => ret tt
  | Some modem_iface =>
      match primary_port modem_iface with
      | None => ret tt
      | Some _ =>
          match modem_3gpp_iface o with
          | None => ret tt
          | Some modem_3gpp_iface =>
              let modem_ctx := modem_context_new o in
              g_object_set_data_full modem_object modem_ctx ;;;
              let* id := g_signal_connect modem_object in
              let modem_ctx := set_reg_state_changed_id id modem_ctx in
              put_modem_context modem_object modem_ctx ;;;
              modem_registration_changed modem_3gpp_iface modem_object ;;;
              g_object_ref modem_object ;;;
              g_hash_table_insert path modem_object
          end
      end
  end.

(** [handle_object_removed], lines 240-247. *)
Definition handle_object_removed (modem_object : ObjId) : M unit :=
  let* o := deref modem_object in
  let path := object_path o in
  g_hash_table_remove path.

(** ** Kick state machine *)

(** [modem_schedule_op_state], lines 373-381. *)
Definition modem_schedule_op_state (modem_object : ObjId) (new_state : OpState) : M unit :=
  let* modem_ctx := get_modem_context modem_object in
  let modem_ctx := set_op_state new_state modem_ctx in
  g_assert (bool_decide (next_id modem_ctx = 0%N)) ;;;
  let* id := g_timeout_add_seconds modem_object in
  put_modem_context modem_object (set_next_id id modem_ctx).

(** [modem_schedule_retry_op_state], lines 358-371. *)
Definition modem_schedule_retry_op_state (modem_object : ObjId) : M unit :=
  let* modem_ctx := get_modem_context modem_object in
  let modem_ctx := set_tries (guint_incr (tries modem_ctx)) modem_ctx in
  put_modem_context modem_object modem_ctx ;;;
  if bool_decide (3 < tries modem_ctx)%N
  then modem_schedule_op_state modem_object MODEM_OP_STATE_FINISH
  else modem_schedule_op_state modem_object (op_state modem_ctx).

(** [modem_enable_ready], lines 383-397; [finish_ok] is what
    [mm_modem_enable_finish] returns. *)
Definition modem_enable_ready (finish_ok : bool) (modem_object : ObjId) : M unit :=
  let* o := deref modem_object in
  (if negb finish_ok
   then modem_schedule_retry_op_state modem_object
   else modem_schedule_op_state modem_object MODEM_OP_STATE_FINISH) ;;;
  g_object_unref modem_object.

(** [set_power_state_low_ready], lines 399-413. *)
Definition set_power_state_low_ready (finish_ok : bool) (modem_object : ObjId) : M unit :=
  let* modem_ctx := get_modem_context modem_object in
  (if negb finish_ok
   then modem_schedule_retry_op_state modem_object
   else modem_schedule_op_state modem_object MODEM_OP_STATE_ENABLE) ;;;
  g_object_unref modem_object.

(** [modem_disable_ready], lines 415-430. *)
Definition modem_disable_ready (finish_ok : bool) (modem_object : ObjId) : M unit :=
  let* modem_ctx := get_modem_context modem_object in
  let next_state := MODEM_OP_STATE_LOW_POWER in
  (if negb finish_ok
   then modem_schedule_retry_op_state modem_object
   else modem_schedule_op_state modem_object next_state) ;;;
  g_object_unref modem_object.

(** Sending one of the three requests: [mm_modem_disable],
    [mm_modem_set_power_state (.., MM_MODEM_POWER_STATE_LOW, ..)] or
    [mm_modem_enable], with the cancellable and [g_object_ref (modem_object)]
    as user data.  The request is in flight until its callback runs. *)
Definition mm_modem_call (kind : CallKind) (c : option CancId) (modem_object : ObjId) : M unit :=
  g_object_ref modem_object ;;;
  modify (fun w => set_pending_calls (mkCall kind modem_object c :: pending_calls w) w).

Definition G_SOURCE_REMOVE : bool := false.
Definition G_SOURCE_CONTINUE : bool := true.

(** [modem_op_state_run], lines 432-475. *)
Definition modem_op_state_run (modem_object : ObjId) : M bool :=
  let* modem_ctx := get_modem_context modem_object in
  let modem_ctx := set_next_id 0%N modem_ctx in
  put_modem_context modem_object modem_ctx ;;;
  (match op_state modem_ctx with
   | MODEM_OP_STATE_NONE =>
       modem_schedule_op_state modem_object MODEM_OP_STATE_DISABLE
   | MODEM_OP_STATE_DISABLE =>
       mm_modem_call CALL_DISABLE (cancellable modem_ctx) modem_object
   | MODEM_OP_STATE_LOW_POWER =>
       mm_modem_call CALL_SET_POWER_STATE_LOW (cancellable modem_ctx) modem_object
   | MODEM_OP_STATE_ENABLE =>
       mm_modem_call CALL_ENABLE (cancellable modem_ctx) modem_object
   | MODEM_OP_STATE_FINISH =>
       let* modem_ctx := modem_context_cancel_op modem_ctx in
       put_modem_context modem_object modem_ctx
   end) ;;;
  ret G_SOURCE_REMOVE.

(** ** Idle detector *)

(** Running a loop body over the elements of a list. *)
Fixpoint for_each {A} (body : A -> M unit) (l : list A) : M unit :=
  match l with
  | [] => ret tt
  | x :: l => body x ;;; for_each body l
  end.

Section Build.

(** The compile-time switch of lines 22-28 and 491-493. *)
Variable DEBUG : bool.

Definition RESET_POLL_SECONDS : Z := if DEBUG then 15 else 300.
Definition KICK_INTERVAL_SECONDS : Z := if DEBUG then 60 else 605.

(** The body of the loop of [reset_poll_cb], lines 486-511. *)
Definition reset_poll_modem (modem_object : ObjId) : M unit :=
  let* modem_ctx := get_modem_context modem_object in
  let* now := g_get_monotonic_time in
  let modem_ctx :=
    if DEBUG
    then set_timestamp (gint64_sub now (700 * G_USEC_PER_SEC)) modem_ctx
    else modem_ctx in
  (if DEBUG then put_modem_context modem_object modem_ctx else ret tt) ;;;
  if bool_decide (timestamp modem_ctx = 0) then ret tt
  else
    let time_failed := gint64_sub now (timestamp modem_ctx) in
    if bool_decide (KICK_INTERVAL_SECONDS * G_USEC_PER_SEC < time_failed) then
      let* modem_ctx := modem_context_cancel_op modem_ctx in
      let* c := g_cancellable_new in
      let modem_ctx := set_cancellable (Some c) modem_ctx in
      put_modem_context modem_object modem_ctx ;;;
      modem_op_state_run modem_object ;;;
      ret tt
    else ret tt.

(** [reset_poll_cb], lines 477-515: the loop runs over the values of
    [ctx->modems]. *)
Definition reset_poll_cb : M bool :=
  let* w := get in
  for_each reset_poll_modem (snd <$> map_to_list (modems w)) ;;;
  ret G_SOURCE_CONTINUE.

End Build.

(** ** The main loop *)

(** What the main loop dispatches to the callbacks above.  The environment
    (the clock, ModemManager and its client-side object manager) decides which
    event comes next. *)
Inductive Event : Type :=
| EV_TIME (now : Z)
    (* the monotonic clock reaches [now] *)
| EV_OBJECT_ADDED (modem_object : ObjId)
    (* "object-added" *)
| EV_OBJECT_REMOVED (modem_object : ObjId)
    (* "object-removed"; the manager then drops its own reference *)
| EV_REGISTRATION_STATE (modem_object : ObjId) (reg_state : MMModem3gppRegistrationState)
    (* "notify::registration-state" after the property changed *)
| EV_TIMEOUT (id : N)
    (* the timeout source [id] is due *)
| EV_CALL_FINISHED (n : nat) (ok : bool)
    (* the [n]-th request in flight completes; [ok] is the service's answer *)
| EV_RESET_POLL.
    (* the periodic source of line 536 is due *)

(** Whether a cancellable has been cancelled ([NULL] never is). *)
Definition is_cancelled (c : option CancId) (w : World) : bool :=
  match c with
  | Some c => bool_decide (c ∈ cancelled w)
  | None => false
  end.

(** What [mm_modem_disable_finish] and its two siblings return: a request
    whose cancellable was cancelled finishes with the error
    [G_IO_ERROR_CANCELLED], whatever the service answered. *)
Definition finish_result (call : Call) (ok : bool) (w : World) : bool :=
  ok && negb (is_cancelled (call_cancellable call) w).

(** The callback given with each request. *)
Definition ready_callback (kind : CallKind) : bool -> ObjId -> M unit :=
  match kind with
  | CALL_DISABLE => modem_disable_ready
  | CALL_SET_POWER_STATE_LOW => set_power_state_low_ready
  | CALL_ENABLE => modem_enable_ready
  end.

Section MainLoop.

Variable DEBUG : bool.

Definition dispatch (ev : Event) : M unit :=
  let* w := get in
  match ev with
  | EV_TIME now => modify (set_monotonic_time now)
  | EV_OBJECT_ADDED modem_object =>
      match objects w !! modem_object with
      | Some _ => handle_object_added modem_object
      | None => ret tt
      end
  | EV_OBJECT_REMOVED modem_object =>
      match objects w !! modem_object with
      | Some _ =>
          handle_object_removed modem_object ;;;
          g_object_unref modem_object
      | None => ret tt
      end
  | EV_REGISTRATION_STATE modem_object reg_state =>
      match objects w !! modem_object with
      | Some o =>
          match modem_3gpp_iface o with
          | Some i =>
              let modem_3gpp := mkMMModem3gpp reg_state (notify_handlers i) in
              modify (set_objects
                        (<[modem_object := set_modem_3gpp_iface (Some modem_3gpp) o]>
                           (objects w))) ;;;
              for_each (fun _ => modem_registration_changed modem_3gpp modem_object)
                       (notify_handlers i)
          | None => ret tt
          end
      | None => ret tt
      end
  | EV_TIMEOUT id =>
      match sources w !! id with
      | Some modem_object =>
          let* continue := modem_op_state_run modem_object in
          if continue then ret tt else g_source_remove id
      | None => ret tt
      end
  | EV_CALL_FINISHED n ok =>
      match pending_calls w !! n with
      | Some call =>
          modify (set_pending_calls (delete n (pending_calls w))) ;;;
          ready_callback (call_kind call) (finish_result call ok w) (call_object call)
      | None => ret tt
      end
  | EV_RESET_POLL =>
      reset_poll_cb DEBUG ;;; ret tt
  end.

(** A run of the main loop over a sequence of events. *)
Definition run_events (evs : list Event) : M unit := for_each dispatch evs.

End MainLoop.

(** The world [context_new] and [main] leave before the first event, given
    the object proxies the manager holds (one reference each, nothing
    attached). *)
Definition initial_world (objs : gmap positive MMObject) : World :=
  mkWorld 1 objs ∅ ∅ 1%positive ∅ 1%positive [] 1%positive.


(** ** Service supervisor *)

(** [context_clear_modems], lines 59-64: [g_hash_table_remove_all] empties
    the table and releases every value it held. *)
Definition context_clear_modems : M unit :=
  let* w := get in
  modify (set_modems ∅) ;;;
  for_each g_object_unref (snd <$> map_to_list (modems w)).

(** What the program reads from an [MMManager], the client-side object
    manager of ModemManager: the owner of the service's bus name, the object
    proxies it currently holds, and the handlers connected to its signals. *)
Record MMManager : Type := mkMMManager {
  name_owner : option string;   (* g_dbus_object_manager_client_get_name_owner *)
  manager_objects : list positive; (* g_dbus_object_manager_get_objects *)
  manager_handlers : list N     (* connected signal handlers *)
}.

(** [Context], lines 32-45, beside the [modems] table and the main loop's
    sources, which are in the [World]. *)
Record Context : Type := mkContext {
  world : World;
  connection : bool;              (* ctx->connection is set *)
  mm : option MMManager;          (* ctx->mm *)
  name_owner_changed_id : N;
  object_added_id : N;
  object_removed_id : N;
  loop_running : bool;            (* g_main_loop_quit was not called *)
  manager_requests : nat          (* mm_manager_new calls made so far *)
}.

Definition set_world (v : World) (ctx : Context) : Context :=
  mkContext v (connection ctx) (mm ctx) (name_owner_changed_id ctx)
            (object_added_id ctx) (object_removed_id ctx) (loop_running ctx)
            (manager_requests ctx).
Definition set_connection (v : bool) (ctx : Context) : Context :=
  mkContext (world ctx) v (mm ctx) (name_owner_changed_id ctx)
            (object_added_id ctx) (object_removed_id ctx) (loop_running ctx)
            (manager_requests ctx).
Definition set_mm (v : option MMManager) (ctx : Context) : Context :=
  mkContext (world ctx) (connection ctx) v (name_owner_changed_id ctx)
            (object_added_id ctx) (object_removed_id ctx) (loop_running ctx)
            (manager_requests ctx).
Definition set_name_owner_changed_id (v : N) (ctx : Context) : Context :=
  mkContext (world ctx) (connection ctx) (mm ctx) v
            (object_added_id ctx) (object_removed_id ctx) (loop_running ctx)
            (manager_requests ctx).
Definition set_object_added_id (v : N) (ctx : Context) : Context :=
  mkContext (world ctx) (connection ctx) (mm ctx) (name_owner_changed_id ctx)
            v (object_removed_id ctx) (loop_running ctx) (manager_requests ctx).
Definition set_object_removed_id (v : N) (ctx : Context) : Context :=
  mkContext (world ctx) (connection ctx) (mm ctx) (name_owner_changed_id ctx)
            (object_added_id ctx) v (loop_running ctx) (manager_requests ctx).
Definition set_loop_running (v : bool) (ctx : Context) : Context :=
  mkContext (world ctx) (connection ctx) (mm ctx) (name_owner_changed_id ctx)
            (object_added_id ctx) (object_removed_id ctx) v (manager_requests ctx).
Definition set_manager_requests (v : nat) (ctx : Context) : Context :=
  mkContext (world ctx) (connection ctx) (mm ctx) (name_owner_changed_id ctx)
            (object_added_id ctx) (object_removed_id ctx) (loop_running ctx) v.

(** The callbacks of the supervisor run in the same monad, over a [Context]. *)
Inductive Outcome (A : Type) : Type :=
| Returned (a : A) (ctx : Context)
| Aborted (f : Fault).
Arguments Returned {A} a ctx.
Arguments Aborted {A} f.

Definition MC (A : Type) : Type := Context -> Outcome A.

Definition retC {A} (a : A) : MC A := fun ctx => Returned a ctx.

Definition bindC {A B} (m : MC A) (k : A -> MC B) : MC B :=
  fun ctx => match m ctx with
             | Returned a ctx' => k a ctx'
             | Aborted f => Aborted f
             end.

Notation "'let+' x ':=' m 'in' k" := (bindC m (fun x => k))
  (at level 10, x name, m at level 100, k at level 200).
Notation "m ';;+' k" := (bindC m (fun _ => k))
  (at level 100, k at level 200, right associativity).

Definition getC : MC Context := fun ctx => Returned ctx ctx.
Definition modifyC (f : Context -> Context) : MC unit := fun ctx => Returned tt (f ctx).

(** Running a callback of the modem part on the world of the context. *)
Definition lift {A} (m : M A) : MC A :=
  fun ctx => match m (world ctx) with
             | Done a w => Returned a (set_world w ctx)
             | Crash f => Aborted f
             end.

(** [g_signal_connect (ctx->mm, ...)]: a new handler on the manager. *)
Definition g_signal_connect_manager : MC N :=
  fun ctx =>
    match mm ctx with
    | Some m =>
        let id := Npos (next_handler (world ctx)) in
        Returned id
          (set_mm (Some (mkMMManager (name_owner m) (manager_objects m)
                                     (id :: manager_handlers m)))
             (set_world (set_next_handler (Pos.succ (next_handler (world ctx))) (world ctx))
                ctx))
    | None => Aborted BAD_POINTER
    end.

(** [g_signal_handler_disconnect (ctx->mm, id)]; on [NULL] it only warns. *)
Definition g_signal_handler_disconnect (id : N) : MC unit :=
  modifyC (fun ctx =>
             match mm ctx with
             | Some m =>
                 set_mm (Some (mkMMManager (name_owner m) (manager_objects m)
                                 (filter (fun h => h <> id) (manager_handlers m)))) ctx
             | None => ctx
             end).

(** [context_clear_manager], lines 66-85.  [g_clear_object (&ctx->mm)] gives
    up the context's reference to the manager; what becomes of the manager and
    of the proxies it holds is the manager's business. *)
Definition context_clear_manager : MC unit :=
  let+ ctx := getC in
  (if bool_decide (name_owner_changed_id ctx ≠ 0%N)
   then g_signal_handler_disconnect (name_owner_changed_id ctx) ;;+
        modifyC (set_name_owner_changed_id 0%N)
   else retC tt) ;;+
  let+ ctx := getC in
  (if bool_decide (object_added_id ctx ≠ 0%N)
   then g_signal_handler_disconnect (object_added_id ctx) ;;+
        modifyC (set_object_added_id 0%N)
   else retC tt) ;;+
  let+ ctx := getC in
  (if bool_decide (object_removed_id ctx ≠ 0%N)
   then g_signal_handler_disconnect (object_removed_id ctx) ;;+
        modifyC (set_object_removed_id 0%N)
   else retC tt) ;;+
  modifyC (set_mm None) ;;+
  lift context_clear_modems.

(** [mm_available], lines 249-260: the list [g_dbus_object_manager_get_objects]
    returns holds a reference to each proxy, released by [g_list_free_full]
    after the loop. *)
Definition mm_available : MC unit :=
  let+ ctx := getC in
  let modems := match mm ctx with
                | Some m => manager_objects m
                | None => []
                end in
  lift (for_each g_object_ref modems) ;;+
  lift (for_each handle_object_added modems) ;;+
  lift (for_each g_object_unref modems).

(** [check_name_owner], lines 262-274. *)
Definition check_name_owner : MC unit :=
  let+ ctx := getC in
  match mm ctx with
  | Some m =>
      match name_owner m with
      | Some _ => mm_available
      | None => retC tt
      end
  | None => retC tt
  end.

(** [ensure_manager], lines 327-335: an asynchronous [mm_manager_new]. *)
Definition ensure_manager : MC unit :=
  modifyC (fun ctx => set_manager_requests (S (manager_requests ctx)) ctx).

(** [handle_name_owner_changed], lines 276-295. *)
Definition handle_name_owner_changed : MC unit :=
  let+ ctx := getC in
  match mm ctx with
  | Some m =>
      match name_owner m with
      | None => lift context_clear_modems
      | Some _ => context_clear_manager ;;+ ensure_manager
      end
  | None => lift context_clear_modems
  end.

(** [modem_manager_new_cb], lines 297-325; [res] is what
    [mm_manager_new_finish] returns, [None] with an error. *)
Definition modem_manager_new_cb (res : option MMManager) : MC unit :=
  modifyC (set_mm res) ;;+
  match res with
  | None => retC tt
  | Some _ =>
      let+ id := g_signal_connect_manager in
      modifyC (set_name_owner_changed_id id) ;;+
      let+ id := g_signal_connect_manager in
      modifyC (set_object_added_id id) ;;+
      let+ id := g_signal_connect_manager in
      modifyC (set_object_removed_id id) ;;+
      check_name_owner
  end.

(** [bus_get_ready], lines 337-353; [ok] tells whether [g_bus_get_finish]
    returned a connection. *)
Definition bus_get_ready (ok : bool) : MC unit :=
  if negb ok
  then modifyC (set_loop_running false)
  else modifyC (set_connection true) ;;+ ensure_manager.

(** The context [context_new] and [main] leave before the first callback. *)
Definition context_new (objs : gmap positive MMObject) : Context :=
  mkContext (initial_world objs) false None 0%N 0%N 0%N true 0.
(** * Specification vocabulary *)

(** The context attached to an object, if the object is live and has one. *)
Definition ctx_of (w : World) (modem_object : ObjId) : option ModemContext :=
  match objects w !! modem_object with
  | Some o => modem_context o
  | None => None
  end.

(** A modem as [handle_object_added] leaves it: a live object with a 3GPP
    interface, a handler connected to its registration-state notification and
    the context [modem_ctx] attached. *)
Definition tracked (w : World) (modem_object : ObjId) (modem_ctx : ModemContext) : Prop :=
  exists o i,
    objects w !! modem_object = Some o /\
    modem_3gpp_iface o = Some i /\
    notify_handlers i <> [] /\
    modem_context o = Some modem_ctx.

(** What one run of [modem_registration_changed] makes of the timestamp. *)
Definition stamp (now : Z) (reg_state : MMModem3gppRegistrationState) (ts : Z) : Z :=
  if idle_or_denied reg_state then (if bool_decide (ts = 0) then now else ts) else 0.

(** The part of a run in which the clock reads [now] and the modem then
    reports the registration state [reg_state], one pair per notification. *)
Definition notifications (modem_object : ObjId)
    (l : list (Z * MMModem3gppRegistrationState)) : list Event :=
  flat_map (fun ev => [EV_TIME ev.1; EV_REGISTRATION_STATE modem_object ev.2]) l.

Definition stamps (l : list (Z * MMModem3gppRegistrationState)) (ts : Z) : Z :=
  fold_left (fun ts ev => stamp ev.1 ev.2 ts) l ts.

(** *** Vocabulary of the kick state machine *)

(** The step table of the recovery sequence as the specification gives it:
    the request each step sends, and the step that follows a success. *)
Definition step_request (st : OpState) : option CallKind :=
  match st with
  | MODEM_OP_STATE_DISABLE => Some CALL_DISABLE
  | MODEM_OP_STATE_LOW_POWER => Some CALL_SET_POWER_STATE_LOW
  | MODEM_OP_STATE_ENABLE => Some CALL_ENABLE
  | _ => None
  end.

Definition step_successor (st : OpState) : OpState :=
  match st with
  | MODEM_OP_STATE_NONE => MODEM_OP_STATE_DISABLE
  | MODEM_OP_STATE_DISABLE => MODEM_OP_STATE_LOW_POWER
  | MODEM_OP_STATE_LOW_POWER => MODEM_OP_STATE_ENABLE
  | _ => MODEM_OP_STATE_FINISH
  end.

(** The kick operation of [modem_object] waits behind its one timer [t] to
    run step [st], with [n] failures counted so far and a token nobody has
    cancelled. *)
Definition armed (w : World) (modem_object : ObjId) (st : OpState) (n : N) (t : N) : Prop :=
  exists o c,
    objects w !! modem_object = Some o /\
    modem_context o = Some c /\
    op_state c = st /\ tries c = n /\ next_id c = t /\
    t <> 0%N /\
    (forall id, sources w !! id = Some modem_object <-> id = t) /\
    is_cancelled (cancellable c) w = false.

(** The kick operation of [modem_object] has sent the request of step [st]
    and waits for its callback; no timer is pending for it. *)
Definition calling (w : World) (modem_object : ObjId) (st : OpState) (n : N)
    (kind : CallKind) : Prop :=
  exists o c rest,
    objects w !! modem_object = Some o /\
    modem_context o = Some c /\
    op_state c = st /\ tries c = n /\ next_id c = 0%N /\
    ref_count o <> 1%positive /\
    (forall id, sources w !! id <> Some modem_object) /\
    pending_calls w = mkCall kind modem_object (cancellable c) :: rest /\
    is_cancelled (cancellable c) w = false.

(** No kick operation is active for [modem_object]: the state is cleared, the
    counter is zero, the token is dropped and no timer is pending. *)
Definition released (w : World) (modem_object : ObjId) : Prop :=
  exists o c,
    objects w !! modem_object = Some o /\
    modem_context o = Some c /\
    op_state c = MODEM_OP_STATE_NONE /\ tries c = 0%N /\ next_id c = 0%N /\
    cancellable c = None /\
    (forall id, sources w !! id <> Some modem_object).

(** One step of a kick with its outcome: the operation's timer comes due, and
    the request it sends is answered with success ([true]) or failure. *)
Definition step_outcome (DEBUG : bool) (modem_object : ObjId) (ok : bool) : M unit :=
  let* modem_ctx := get_modem_context modem_object in
  dispatch DEBUG (EV_TIMEOUT (next_id modem_ctx)) ;;;
  dispatch DEBUG (EV_CALL_FINISHED 0 ok).

Definition run_outcomes (DEBUG : bool) (modem_object : ObjId) (outcomes : list bool) : M unit :=
  for_each (step_outcome DEBUG modem_object) outcomes.

Fixpoint failures (outcomes : list bool) : nat :=
  match outcomes with
  | [] => 0
  | ok :: outcomes => (if ok then 0 else 1) + failures outcomes
  end.

Fixpoint successes (outcomes : list bool) : nat :=
  match outcomes with
  | [] => 0
  | ok :: outcomes => (if ok then 1 else 0) + successes outcomes
  end.

(** The step reached after [k] successes. *)
Definition nth_step (k : nat) : OpState := Nat.iter k step_successor MODEM_OP_STATE_DISABLE.

(** What [modem_context_cancel_op] leaves of a context, and what it does to
    the main loop and to the token. *)
Definition cancelled_ctx (c : ModemContext) : ModemContext :=
  mkModemContext (path c) (reg_state_changed_id c) (timestamp c) None
                 MODEM_OP_STATE_NONE 0%N 0%N.

Definition cancel_effect (c : ModemContext) (w : World) : World :=
  set_sources
    (if bool_decide (next_id c ≠ 0%N) then delete (next_id c) (sources w) else sources w)
    (set_cancelled
       (match cancellable c with
        | Some k => {[ k ]} ∪ cancelled w
        | None => cancelled w
        end) w).

(** The world after [modem_schedule_op_state] armed a timer for the context
    [c] (with its new state) of [modem_object]. *)
Definition arm (modem_object : ObjId) (o : MMObject) (c : ModemContext) (w : World) : World :=
  set_objects
    (<[modem_object := set_modem_context
                         (Some (set_next_id (Npos (next_source w)) c)) o]> (objects w))
    (set_next_source (Pos.succ (next_source w))
       (set_sources (<[Npos (next_source w) := modem_object]> (sources w)) w)).

(** The context after [modem_schedule_retry_op_state] counted a failure and
    chose the state to schedule. *)
Definition retried_ctx (c : ModemContext) : ModemContext :=
  set_op_state
    (if bool_decide (3 < guint_incr (tries c))%N then MODEM_OP_STATE_FINISH else op_state c)
    (set_tries (guint_incr (tries c)) c).

(** The state each callback schedules on success. *)
Definition ready_next_state (kind : CallKind) : OpState :=
  match kind with
  | CALL_DISABLE => MODEM_OP_STATE_LOW_POWER
  | CALL_SET_POWER_STATE_LOW => MODEM_OP_STATE_ENABLE
  | CALL_ENABLE => MODEM_OP_STATE_FINISH
  end.

(** *** Vocabulary of the sweep *)

(** The context of a kick that was just started: everything of the operation
    is fresh, the path, the handler id and the timestamp are as before. *)
Definition started_ctx (c : ModemContext) (k : CancId) (t : N) : ModemContext :=
  mkModemContext (path c) (reg_state_changed_id c) (timestamp c) (Some k)
                 MODEM_OP_STATE_DISABLE t 0%N.

(** The world after the loop body of [reset_poll_cb] kicked [modem_object],
    whose context was [c]. *)
Definition kick_started (modem_object : ObjId) (o : MMObject) (c : ModemContext)
    (w : World) : World :=
  mkWorld (monotonic_time w)
          (<[modem_object :=
               set_modem_context
                 (Some (started_ctx c (next_cancellable w) (Npos (next_source w)))) o]>
             (objects w))
          (modems w)
          (<[Npos (next_source w) := modem_object]>
             (if bool_decide (next_id c ≠ 0%N)
              then delete (next_id c) (sources w) else sources w))
          (Pos.succ (next_source w))
          (match cancellable c with
           | Some k => {[ k ]} ∪ cancelled w
           | None => cancelled w
           end)
          (Pos.succ (next_cancellable w))
          (pending_calls w)
          (next_handler w).

(** Every entry of [ctx->modems] refers to a live object with a context. *)
Definition registry_live (w : World) : Prop :=
  forall p modem_object,
    modems w !! p = Some modem_object ->
    exists o c, objects w !! modem_object = Some o /\ modem_context o = Some c.

(** The test of lines 495-499 in the production build. *)
Definition kick_due (now : Z) (c : ModemContext) : Prop :=
  timestamp c <> 0 /\
  KICK_INTERVAL_SECONDS false * G_USEC_PER_SEC < gint64_sub now (timestamp c).

(** *** Vocabulary of the frame property *)

(** Between [w] and [w'] no object was created and every surviving object
    has the timestamp it had ([None] when it has no context). *)
Definition timestamps_kept (w w' : World) : Prop :=
  forall x o',
    objects w' !! x = Some o' ->
    exists o, objects w !! x = Some o /\
              timestamp <$> modem_context o' = timestamp <$> modem_context o.

(** The same for the non-zero timestamps only. *)
Definition onsets_kept (w w' : World) : Prop :=
  forall x o',
    objects w' !! x = Some o' ->
    exists o, objects w !! x = Some o /\
              forall c, modem_context o = Some c -> timestamp c <> 0 ->
                        exists c', modem_context o' = Some c' /\ timestamp c' = timestamp c.

(** The events of a run in which kicks go on while modems stay idle or
    denied: time passes, timers come due, requests are answered, sweeps run,
    and the registration states reported are idle or denied. *)
Definition stays_stuck_event (ev : Event) : Prop :=
  match ev with
  | EV_TIME _ | EV_TIMEOUT _ | EV_CALL_FINISHED _ _ | EV_RESET_POLL => True
  | EV_REGISTRATION_STATE _ reg_state => idle_or_denied reg_state = true
  | EV_OBJECT_ADDED _ | EV_OBJECT_REMOVED _ => False
  end.

(** *** Removal as the specification states it *)

(** The removal of a tracked modem with a kick under way cancels the kick at
    once: the entry is erased, the token is cancelled, no timer of the modem
    is left, and the context and the notification handler are released. *)
Definition removal_cancels_kick (DEBUG : bool) (w : World) (modem_object : ObjId) : Prop :=
  forall o c w',
    objects w !! modem_object = Some o ->
    modem_context o = Some c ->
    modems w !! object_path o = Some modem_object ->
    op_state c <> MODEM_OP_STATE_NONE ->
    dispatch DEBUG (EV_OBJECT_REMOVED modem_object) w = Done tt w' ->
    modems w' !! object_path o = None /\
    (forall k, cancellable c = Some k -> k ∈ cancelled w') /\
    (forall id, sources w' !! id <> Some modem_object) /\
    (forall o', objects w' !! modem_object = Some o' ->
                modem_context o' = None /\
                forall i, modem_3gpp_iface o' = Some i -> notify_handlers i = []).

(** *** Example runs *)

(** One idle 3GPP modem, as the manager holds it before it announces it. *)
Definition modem0 : MMObject :=
  mkMMObject "/org/freedesktop/ModemManager1/Modem/0"
             (Some (mkMMModem (Some "ttyUSB2")))
             (Some (mkMMModem3gpp MM_MODEM_3GPP_REGISTRATION_STATE_IDLE []))
             1%positive None.

(** A modem without a primary port. *)
Definition modem_no_port : MMObject :=
  mkMMObject "/org/freedesktop/ModemManager1/Modem/1"
             (Some (mkMMModem None))
             (Some (mkMMModem3gpp MM_MODEM_3GPP_REGISTRATION_STATE_IDLE []))
             1%positive None.

Definition w_plugged : World :=
  initial_world {[ 1%positive := modem0; 2%positive := modem_no_port ]}.

(** The world a run ends in (the initial one when the run crashed). *)
Definition world_after (r : Result unit) : World :=
  match r with
  | Done _ w => w
  | Crash _ => initial_world ∅
  end.

Definition seconds (s : Z) : Z := s * G_USEC_PER_SEC.

(** The modem is announced one second after the clock's origin. *)
Definition w_tracked : World :=
  world_after (run_events false [EV_TIME (seconds 1); EV_OBJECT_ADDED 1%positive] w_plugged).

(** The sweeps of the production build at 300 s and 600 s find it not yet due;
    at 900 s the clock is as the third sweep finds it. *)
Definition w_due : World :=
  world_after (run_events false [EV_TIME (seconds 300); EV_RESET_POLL;
                                 EV_TIME (seconds 600); EV_RESET_POLL;
                                 EV_TIME (seconds 900)] w_tracked).

(** The sweep at 900 s kicks it. *)
Definition w_armed : World :=
  world_after (run_events false [EV_RESET_POLL] w_due).

(** Ten seconds later the disable request is sent. *)
Definition w_request : World :=
  world_after (run_events false [EV_TIME (seconds 910); EV_TIMEOUT 1%N] w_armed).

(** A run in which a sweep restarts the kick while the disable request of the
    previous kick is in flight: in the production build at 900 s and 1200 s. *)
Definition restart_trace : list Event :=
  [EV_TIME (seconds 1); EV_OBJECT_ADDED 1%positive;
   EV_TIME (seconds 900); EV_RESET_POLL;
   EV_TIME (seconds 910); EV_TIMEOUT 1%N;
   EV_TIME (seconds 1200); EV_RESET_POLL].

(** The same in the debug build, where every sweep kicks every modem: at
    15 s and 30 s. *)
Definition restart_trace_debug : list Event :=
  [EV_TIME (seconds 1); EV_OBJECT_ADDED 1%positive;
   EV_TIME (seconds 15); EV_RESET_POLL;
   EV_TIME (seconds 25); EV_TIMEOUT 1%N;
   EV_TIME (seconds 30); EV_RESET_POLL].

Definition w_restarted : World :=
  world_after (run_events false restart_trace w_plugged).

(** The context and the object of [modem0] once it is tracked. *)
Definition ctx_tracked : ModemContext :=
  mkModemContext "/org/freedesktop/ModemManager1/Modem/0" 1%N (seconds 1) None
                 MODEM_OP_STATE_NONE 0%N 0%N.

Definition modem0_tracked : MMObject :=
  mkMMObject "/org/freedesktop/ModemManager1/Modem/0"
             (Some (mkMMModem (Some "ttyUSB2")))
             (Some (mkMMModem3gpp MM_MODEM_3GPP_REGISTRATION_STATE_IDLE [1%N]))
             2%positive (Some ctx_tracked).

(** The tracked modem when it has been idle for the threshold exactly, and
    one microsecond later. *)
Definition w_threshold : World := set_monotonic_time (seconds 606) w_tracked.
Definition w_past_threshold : World := set_monotonic_time (seconds 606 + 1) w_tracked.

(** The context and the object of [modem0] when its kick is armed, and when
    the disable request is in flight. *)
Definition ctx_armed : ModemContext := started_ctx ctx_tracked 1%positive 1%N.
Definition modem0_armed : MMObject := set_modem_context (Some ctx_armed) modem0_tracked.

Definition ctx_request : ModemContext := set_next_id 0%N ctx_armed.
Definition modem0_request : MMObject :=
  set_ref_count 3%positive (set_modem_context (Some ctx_request) modem0_tracked).

(** A kick that goes on while the modem stays denied: the disable request
    fails, the modem reports denied, and the sweep at 1200 s comes. *)
Definition stuck_trace : list Event :=
  [EV_TIME (seconds 910); EV_TIMEOUT 1%N;
   EV_TIME (seconds 912); EV_CALL_FINISHED 0 false;
   EV_REGISTRATION_STATE 1%positive MM_MODEM_3GPP_REGISTRATION_STATE_DENIED;
   EV_TIME (seconds 1200); EV_RESET_POLL].

Definition w_later : World := world_after (run_events false stuck_trace w_armed).

(** *** Vocabulary of the registry *)

(** The object of an eligible modem after [handle_object_added]: one more
    handler [id] on its 3GPP interface, a fresh context with the timestamp
    [ts], and [rc] references. *)
Definition added_object (o : MMObject) (i : MMModem3gpp) (id : N) (ts : Z)
    (rc : positive) : MMObject :=
  mkMMObject (object_path o) (modem_iface o)
             (Some (mkMMModem3gpp (registration_state i) (id :: notify_handlers i)))
             rc
             (Some (mkModemContext (object_path o) id ts None MODEM_OP_STATE_NONE 0%N 0%N)).

(** The world after [handle_object_added] tracked [modem_object], which had
    no entry under its path or was itself the entry: a context the object had
    before is cancelled and replaced, and the table holds one reference. *)
Definition added_world (modem_object : ObjId) (o : MMObject) (i : MMModem3gpp)
    (w : World) : World :=
  let base := match modem_context o with
              | Some old => cancel_effect old w
              | None => w
              end in
  mkWorld (monotonic_time w)
          (<[modem_object :=
               added_object o i (Npos (next_handler w))
                 (stamp (monotonic_time w) (registration_state i) 0)
                 (match modems w !! object_path o with
                  | Some _ => ref_count o
                  | None => Pos.succ (ref_count o)
                  end)]> (objects w))
          (<[object_path o := modem_object]> (modems w))
          (sources base) (next_source w) (cancelled base) (next_cancellable w)
          (pending_calls w) (Pos.succ (next_handler w)).

(** *** Vocabulary of the timers *)

(** Every pending timer belongs to a live modem whose context records it in
    [next_id]; source ids are never zero. *)
Definition timers_sound (w : World) : Prop :=
  forall id x,
    sources w !! id = Some x ->
    id <> 0%N /\
    exists o c, objects w !! x = Some o /\ modem_context o = Some c /\ next_id c = id.

(** The world in which [handle_object_added] inserts the entry of an eligible
    modem: a context the object had is cancelled and replaced by a fresh one,
    a handler is connected, and the table's reference is taken. *)
Definition tracked_world (modem_object : ObjId) (o : MMObject) (i : MMModem3gpp)
    (w : World) : World :=
  let base := match modem_context o with
              | Some old => cancel_effect old w
              | None => w
              end in
  mkWorld (monotonic_time w)
          (<[modem_object :=
               added_object o i (Npos (next_handler w))
                 (stamp (monotonic_time w) (registration_state i) 0)
                 (Pos.succ (ref_count o))]> (objects w))
          (<[object_path o := modem_object]> (modems w))
          (sources base) (next_source w) (cancelled base) (next_cancellable w)
          (pending_calls w) (Pos.succ (next_handler w)).

(** *** Vocabulary of the supervisor *)

(** The three checks of [handle_object_added], lines 208-225. *)
Definition eligible (o : MMObject) : bool :=
  match modem_iface o, modem_3gpp_iface o with
  | Some m, Some _ => bool_decide (primary_port m <> None)
  | _, _ => false
  end.

(** The table holds the last reference to an object. *)
Definition last_reference (o : MMObject) : bool := bool_decide (ref_count o = 1%positive).

(** What one pass of [handle_object_added] over new proxies leaves. *)
Definition inventoried (l : list positive) (w w' : World) : Prop :=
  monotonic_time w' = monotonic_time w /\
  sources w' = sources w /\ cancelled w' = cancelled w /\
  pending_calls w' = pending_calls w /\
  (forall y, y ∉ l -> objects w' !! y = objects w !! y) /\
  (forall x o, x ∈ l -> objects w !! x = Some o -> eligible o = true ->
               exists i id, modem_3gpp_iface o = Some i /\
                            objects w' !! x
                            = Some (added_object o i id
                                      (stamp (monotonic_time w) (registration_state i) 0)
                                      (Pos.succ (ref_count o)))) /\
  (forall x o, x ∈ l -> objects w !! x = Some o -> eligible o = false ->
               objects w' !! x = Some o) /\
  (forall p y, modems w' !! p = Some y <->
               modems w !! p = Some y \/
               (y ∈ l /\ exists o, objects w !! y = Some o /\ eligible o = true /\
                                   object_path o = p)).

(** The context after [modem_manager_new_cb] stored the manager [m] and
    connected its three handlers, lines 301-322. *)
Definition connected (m : MMManager) (ctx : Context) : Context :=
  let h := next_handler (world ctx) in
  mkContext (set_next_handler (Pos.succ (Pos.succ (Pos.succ h))) (world ctx))
            (connection ctx)
            (Some (mkMMManager (name_owner m) (manager_objects m)
                     (Npos (Pos.succ (Pos.succ h)) :: Npos (Pos.succ h) :: Npos h
                      :: manager_handlers m)))
            (Npos h) (Npos (Pos.succ h)) (Npos (Pos.succ (Pos.succ h)))
            (loop_running ctx) (manager_requests ctx).

(** The context after [context_clear_manager] when the registry was cleared
    into the world [w]. *)
Definition cleared (w : World) (ctx : Context) : Context :=
  mkContext w (connection ctx) None 0%N 0%N 0%N (loop_running ctx) (manager_requests ctx).

(** *** Example contexts *)

(** The tracked modem 900 s after the clock's origin. *)
Definition w_idle : World := set_monotonic_time (seconds 900) w_tracked.

(** A manager of the running service that holds both example modems, and one
    created while the service is down. *)
Definition manager_up : MMManager := mkMMManager (Some ":1.42") [1%positive; 2%positive] [].
Definition manager_down : MMManager := mkMMManager None [] [].

(** The supervisor when the manager request is answered at start-up, and
    later, with its handlers connected and one modem tracked. *)
Definition supervisor_plugged : Context :=
  mkContext w_plugged true None 0%N 0%N 0%N true 1.
Definition supervisor_tracked : Context :=
  mkContext w_idle true (Some manager_up) 7%N 8%N 9%N true 1.

(** * Properties *)

(** ** Reasoning about the monad *)

Lemma bind_Done_inv {A B} (m : M A) (k : A -> M B) w b w'' :
  bind m k w = Done b w'' ->
  exists a w', m w = Done a w' /\ k a w' = Done b w''.
Proof.
  unfold bind. destruct (m w) as [a w'|f]; [eauto | discriminate].
Qed.

Lemma bind_Done {A B} (m : M A) (k : A -> M B) w a w' :
  m w = Done a w' -> bind m k w = k a w'.
Proof. unfold bind. now intros ->. Qed.

Lemma bind_Crash {A B} (m : M A) (k : A -> M B) w f :
  m w = Crash f -> bind m k w = Crash f.
Proof. unfold bind. now intros ->. Qed.

Lemma for_each_app {A} (body : A -> M unit) l1 l2 w :
  for_each body (l1 ++ l2) w = (for_each body l1 ;;; for_each body l2) w.
Proof.
  revert w. induction l1 as [|x l1 IH]; intros w; simpl.
  - reflexivity.
  - unfold bind in *. destruct (body x w) as [[] w1|f]; [|reflexivity].
    apply IH.
Qed.

Lemma run_events_app DEBUG evs1 evs2 w w1 :
  run_events DEBUG evs1 w = Done tt w1 ->
  run_events DEBUG (evs1 ++ evs2) w = run_events DEBUG evs2 w1.
Proof.
  intros H. unfold run_events in *. rewrite for_each_app.
  now rewrite (bind_Done _ _ _ _ _ H).
Qed.

Lemma get_modem_context_Done w modem_object o modem_ctx :
  objects w !! modem_object = Some o ->
  modem_context o = Some modem_ctx ->
  get_modem_context modem_object w = Done modem_ctx w.
Proof.
  intros Ho Hc. unfold get_modem_context, deref, bind. now rewrite Ho, Hc.
Qed.

Lemma put_modem_context_Done w modem_object o modem_ctx :
  objects w !! modem_object = Some o ->
  put_modem_context modem_object modem_ctx w =
    Done tt (set_objects (<[modem_object := set_modem_context (Some modem_ctx) o]>
                            (objects w)) w).
Proof.
  intros Ho. unfold put_modem_context, deref, bind, modify. now rewrite Ho.
Qed.

(** ** Registration monitor *)

Lemma stamp_idem now s ts : stamp now s (stamp now s ts) = stamp now s ts.
Proof.
  unfold stamp. destruct (idle_or_denied s); [|reflexivity].
  repeat case_bool_decide; congruence.
Qed.

Lemma modem_registration_changed_Done i modem_object w o c :
  objects w !! modem_object = Some o ->
  modem_context o = Some c ->
  exists w',
    modem_registration_changed i modem_object w = Done tt w' /\
    monotonic_time w' = monotonic_time w /\
    modems w' = modems w /\ sources w' = sources w /\
    cancelled w' = cancelled w /\ pending_calls w' = pending_calls w /\
    (forall other, other <> modem_object ->
                   objects w' !! other = objects w !! other) /\
    objects w' !! modem_object =
      Some (set_modem_context
              (Some (set_timestamp
                       (stamp (monotonic_time w) (registration_state i) (timestamp c)) c))
              o).
Proof.
  intros Ho Hc. unfold modem_registration_changed.
  rewrite (bind_Done _ _ _ _ _ (get_modem_context_Done _ _ _ _ Ho Hc)).
  unfold stamp. destruct (idle_or_denied (registration_state i)).
  - case_bool_decide as Hts.
    + unfold bind, g_get_monotonic_time.
      rewrite (put_modem_context_Done _ _ _ _ Ho).
      eexists; split; [reflexivity|]. simpl.
      repeat split; try reflexivity.
      * intros other Hne. now rewrite lookup_insert_ne.
      * now rewrite lookup_insert_eq.
    + exists w. repeat split; try reflexivity.
      rewrite Ho. destruct o as [p mi gi rc mc], c as [cp ch cts cc cs cn ct].
      simpl in *. now subst mc.
  - rewrite (put_modem_context_Done _ _ _ _ Ho).
    eexists; split; [reflexivity|]. simpl.
    repeat split; try reflexivity.
    + intros other Hne. now rewrite lookup_insert_ne.
    + now rewrite lookup_insert_eq.
Qed.

(** The handlers of one notification: every one after the first finds the
    timestamp already as the first left it. *)
Lemma notify_handlers_Done i modem_object (handlers : list N) :
  forall w o c,
    objects w !! modem_object = Some o ->
    modem_context o = Some c ->
    exists w' c',
      for_each (fun _ => modem_registration_changed i modem_object) handlers w = Done tt w' /\
      objects w' !! modem_object = Some (set_modem_context (Some c') o) /\
      (timestamp c' = timestamp c \/
       timestamp c' = stamp (monotonic_time w) (registration_state i) (timestamp c)) /\
      (handlers <> [] ->
       timestamp c' = stamp (monotonic_time w) (registration_state i) (timestamp c)).
Proof.
  induction handlers as [|h handlers IH]; intros w o c Ho Hc.
  - exists w, c. split; [reflexivity|]. split; [|split; [now left | congruence]].
    rewrite Ho. destruct o; simpl in *; now subst.
  - destruct (modem_registration_changed_Done i _ _ _ _ Ho Hc)
      as (w1 & Hrun & Ht & _ & _ & _ & _ & _ & Ho1).
    destruct (IH w1 _ _ Ho1 eq_refl) as (w2 & c2 & Hrun2 & Ho2 & Hts & _).
    exists w2, c2. simpl for_each.
    rewrite (bind_Done _ _ _ _ _ Hrun). split; [exact Hrun2|].
    split; [exact Ho2|].
    assert (timestamp c2 = stamp (monotonic_time w) (registration_state i) (timestamp c)) as E.
    { destruct Hts as [E|E]; rewrite E; simpl; [reflexivity|].
      rewrite Ht. apply stamp_idem. }
    split; [now right | intros _; exact E].
Qed.

Lemma notification_Done DEBUG w modem_object c now s :
  tracked w modem_object c ->
  exists w' c',
    run_events DEBUG [EV_TIME now; EV_REGISTRATION_STATE modem_object s] w = Done tt w' /\
    tracked w' modem_object c' /\
    timestamp c' = stamp now s (timestamp c).
Proof.
  intros (o & i & Ho & Hi & Hh & Hc).
  set (i' := mkMMModem3gpp s (notify_handlers i)).
  set (o1 := set_modem_3gpp_iface (Some i') o).
  set (w1 := set_objects (<[modem_object := o1]> (objects (set_monotonic_time now w)))
                         (set_monotonic_time now w)).
  assert (objects w1 !! modem_object = Some o1) as Ho1
    by (subst w1; simpl; apply lookup_insert_eq).
  assert (modem_context o1 = Some c) as Hc1 by exact Hc.
  destruct (notify_handlers_Done i' modem_object (notify_handlers i) w1 o1 c Ho1 Hc1)
    as (w' & c' & Hrun & Ho' & _ & Hts).
  exists w', c'. split; [|split].
  - unfold run_events, for_each, dispatch, bind, get, modify, ret. simpl.
    rewrite Ho, Hi. unfold w1, o1, i' in Hrun. simpl in Hrun.
    now rewrite Hrun.
  - exists (set_modem_context (Some c') o1), i'. repeat split; assumption.
  - rewrite (Hts Hh). reflexivity.
Qed.

Lemma notifications_Done DEBUG modem_object l :
  forall w c,
    tracked w modem_object c ->
    exists w' c',
      run_events DEBUG (notifications modem_object l) w = Done tt w' /\
      tracked w' modem_object c' /\
      timestamp c' = stamps l (timestamp c).
Proof.
  induction l as [|[now s] l IH]; intros w c Htr.
  - exists w, c. repeat split; [assumption].
  - destruct (notification_Done DEBUG w modem_object c now s Htr)
      as (w1 & c1 & Hrun1 & Htr1 & Hts1).
    destruct (IH w1 c1 Htr1) as (w2 & c2 & Hrun2 & Htr2 & Hts2).
    exists w2, c2. split; [|split; [assumption|]].
    + change (notifications modem_object ((now, s) :: l))
        with ([EV_TIME now; EV_REGISTRATION_STATE modem_object s]
                ++ notifications modem_object l).
      now rewrite (run_events_app _ _ _ _ _ Hrun1).
    + simpl. unfold stamps in Hts2. now rewrite <- Hts1.
Qed.

Lemma notifications_snoc modem_object l ev :
  notifications modem_object (l ++ [ev]) =
    notifications modem_object l ++ [EV_TIME ev.1; EV_REGISTRATION_STATE modem_object ev.2].
Proof. unfold notifications. now rewrite flat_map_app. Qed.

(** C2.  For a tracked modem and any sequence of registration-state
    notifications, after the last one (the clock reading a non-zero time when
    it is handled) the timestamp is non-zero if and only if the state just
    reported is idle or denied; an idle/denied notification that finds a
    non-zero timestamp leaves it as it is, and any other state sets it to
    zero. *)
Theorem stuck_timestamp_iff_idle_or_denied DEBUG w modem_object c
    (l : list (Z * MMModem3gppRegistrationState)) now s :
  tracked w modem_object c ->
  now <> 0 ->
  exists w1 c1 w' c',
    run_events DEBUG (notifications modem_object l) w = Done tt w1 /\
    tracked w1 modem_object c1 /\
    run_events DEBUG (notifications modem_object (l ++ [(now, s)])) w = Done tt w' /\
    tracked w' modem_object c' /\
    (timestamp c' <> 0 <-> idle_or_denied s = true) /\
    (idle_or_denied s = true -> timestamp c1 <> 0 -> timestamp c' = timestamp c1) /\
    (idle_or_denied s = false -> timestamp c' = 0).
Proof.
  intros Htr Hnow.
  destruct (notifications_Done DEBUG modem_object l w c Htr) as (w1 & c1 & Hrun1 & Htr1 & _).
  destruct (notification_Done DEBUG w1 modem_object c1 now s Htr1)
    as (w' & c' & Hrun' & Htr' & Hts).
  exists w1, c1, w', c'. split; [assumption|]. split; [assumption|].
  split; [|split; [assumption|]].
  - rewrite notifications_snoc. now rewrite (run_events_app _ _ _ _ _ Hrun1).
  - rewrite Hts. unfold stamp. destruct (idle_or_denied s).
    + case_bool_decide as E; repeat split; intros; try congruence.
    + repeat split; intros; congruence.
Qed.


(** ** Kick state machine *)

Lemma modem_context_cancel_op_eq c w :
  modem_context_cancel_op c w = Done (cancelled_ctx c) (cancel_effect c w).
Proof.
  unfold modem_context_cancel_op, cancel_effect, cancelled_ctx, bind,
    g_cancellable_cancel, g_source_remove, modify, ret.
  destruct w, c as [p h ts [k|] st nid tr]; simpl;
    case_bool_decide; reflexivity.
Qed.

Lemma timer_fires_request DEBUG w modem_object st n t kind :
  step_request st = Some kind ->
  armed w modem_object st n t ->
  exists w',
    dispatch DEBUG (EV_TIMEOUT t) w = Done tt w' /\
    calling w' modem_object st n kind /\
    pending_calls w' = mkCall kind modem_object
                         (match ctx_of w modem_object with
                          | Some c => cancellable c | None => None end)
                       :: pending_calls w /\
    cancelled w' = cancelled w.
Proof.
  intros Hk (o & c & Ho & Hc & Hst & Hn & Ht & Ht0 & Hsrc & Hcan).
  assert (sources w !! t = Some modem_object) as Hs by now apply Hsrc.
  unfold dispatch, modem_op_state_run, get, bind.
  rewrite Hs.
  rewrite (get_modem_context_Done _ _ _ _ Ho Hc).
  rewrite (put_modem_context_Done _ _ _ _ Ho).
  unfold ctx_of. rewrite Ho, Hc. simpl. rewrite Hst.
  destruct st; try discriminate; simpl in Hk; injection Hk as <-;
    unfold mm_modem_call, g_object_ref, deref, bind, modify, ret, g_source_remove; simpl;
    rewrite lookup_insert_eq; simpl;
    (eexists; split; [reflexivity|]; split; [|split; reflexivity]).
 all:
    (eexists _, _, _; simpl; rewrite lookup_insert_eq;
     repeat split; simpl; try eassumption; try reflexivity; try lia).
  all: intros id Hid; destruct (decide (id = t)) as [->|Hne];
    [ now rewrite lookup_delete_eq in Hid
    | rewrite lookup_delete_ne in Hid by congruence; apply Hsrc in Hid; congruence ].
Qed.

Lemma modem_schedule_op_state_Done w modem_object o c st :
  objects w !! modem_object = Some o ->
  modem_context o = Some c ->
  next_id c = 0%N ->
  modem_schedule_op_state modem_object st w =
    Done tt (arm modem_object o (set_op_state st c) w).
Proof.
  intros Ho Hc Hn. unfold modem_schedule_op_state.
  rewrite (bind_Done _ _ _ _ _ (get_modem_context_Done _ _ _ _ Ho Hc)).
  simpl. rewrite Hn. simpl.
  unfold bind, ret, g_timeout_add_seconds, put_modem_context, deref, bind, modify.
  simpl. now rewrite Ho.
Qed.

Lemma modem_schedule_op_state_Crash w modem_object o c st :
  objects w !! modem_object = Some o ->
  modem_context o = Some c ->
  next_id c <> 0%N ->
  modem_schedule_op_state modem_object st w = Crash ASSERTION_FAILED.
Proof.
  intros Ho Hc Hn. unfold modem_schedule_op_state.
  rewrite (bind_Done _ _ _ _ _ (get_modem_context_Done _ _ _ _ Ho Hc)).
  simpl. rewrite bool_decide_eq_false_2 by exact Hn. reflexivity.
Qed.

Lemma modem_schedule_retry_op_state_Done w modem_object o c :
  objects w !! modem_object = Some o ->
  modem_context o = Some c ->
  next_id c = 0%N ->
  modem_schedule_retry_op_state modem_object w =
    Done tt (arm modem_object o (retried_ctx c) w).
Proof.
  intros Ho Hc Hn. unfold modem_schedule_retry_op_state.
  rewrite (bind_Done _ _ _ _ _ (get_modem_context_Done _ _ _ _ Ho Hc)).
  rewrite (bind_Done _ _ _ _ _ (put_modem_context_Done _ _ _ _ Ho)).
  set (c1 := set_tries (guint_incr (tries c)) c).
  set (o1 := set_modem_context (Some c1) o).
  set (w1 := set_objects (<[modem_object := o1]> (objects w)) w).
  assert (objects w1 !! modem_object = Some o1) as Ho1 by apply lookup_insert_eq.
  assert (modem_schedule_op_state modem_object
            (if bool_decide (3 < tries c1)%N then MODEM_OP_STATE_FINISH else op_state c1) w1
          = Done tt (arm modem_object o (retried_ctx c) w)) as E.
  { rewrite (modem_schedule_op_state_Done w1 modem_object o1 c1 _ Ho1 eq_refl Hn).
    unfold arm, w1, o1, retried_ctx. simpl. now rewrite insert_insert_eq. }
  destruct (bool_decide (3 < tries c1)%N); exact E.
Qed.

Lemma g_object_unref_shared w modem_object o :
  objects w !! modem_object = Some o ->
  ref_count o <> 1%positive ->
  g_object_unref modem_object w =
    Done tt (set_objects
               (<[modem_object := set_ref_count (Pos.pred (ref_count o)) o]> (objects w)) w).
Proof.
  intros Ho Hrc. unfold g_object_unref, deref, bind. rewrite Ho.
  destruct (ref_count o); [reflexivity | reflexivity | congruence].
Qed.

Lemma g_object_unref_last w modem_object o :
  objects w !! modem_object = Some o ->
  ref_count o = 1%positive ->
  g_object_unref modem_object w =
    Done tt (match modem_context o with
             | Some c => set_objects (delete modem_object (objects w)) (cancel_effect c w)
             | None => set_objects (delete modem_object (objects w)) w
             end).
Proof.
  intros Ho Hrc. unfold g_object_unref, deref, bind. rewrite Ho, Hrc.
  destruct (modem_context o) as [c|]; [|reflexivity].
  unfold modem_context_free, bind. rewrite modem_context_cancel_op_eq. reflexivity.
Qed.

Lemma ready_callback_eq kind finish_ok w modem_object o c :
  objects w !! modem_object = Some o ->
  modem_context o = Some c ->
  next_id c = 0%N ->
  ready_callback kind finish_ok modem_object w =
    g_object_unref modem_object
      (arm modem_object o
           (if finish_ok then set_op_state (ready_next_state kind) c else retried_ctx c) w).
Proof.
  intros Ho Hc Hn.
  assert (deref modem_object w = Done o w) as Hd by (unfold deref; now rewrite Ho).
  destruct kind; simpl;
    unfold modem_disable_ready, set_power_state_low_ready, modem_enable_ready;
    rewrite ?(bind_Done _ _ _ _ _ (get_modem_context_Done _ _ _ _ Ho Hc));
    rewrite ?(bind_Done _ _ _ _ _ Hd);
    destruct finish_ok; simpl;
    rewrite ?(bind_Done _ _ _ _ _ (modem_schedule_op_state_Done _ _ _ _ _ Ho Hc Hn));
    rewrite ?(bind_Done _ _ _ _ _ (modem_schedule_retry_op_state_Done _ _ _ _ Ho Hc Hn));
    reflexivity.
Qed.

Lemma request_answered DEBUG w modem_object st n kind ok :
  step_request st = Some kind ->
  calling w modem_object st n kind ->
  exists w' t',
    dispatch DEBUG (EV_CALL_FINISHED 0 ok) w = Done tt w' /\
    armed w' modem_object
          (if ok then step_successor st
           else if bool_decide (3 < guint_incr n)%N then MODEM_OP_STATE_FINISH else st)
          (if ok then n else guint_incr n) t' /\
    pending_calls w' = tail (pending_calls w) /\
    cancelled w' = cancelled w.
Proof.
  intros Hk (o & c & rest & Ho & Hc & Hst & Hn & Ht & Hrc & Hsrc & Hcalls & Hcan).
  set (w0 := set_pending_calls rest w).
  set (c2 := if ok then set_op_state (ready_next_state kind) c else retried_ctx c).
  set (w1 := arm modem_object o c2 w0).
  set (o1 := set_modem_context (Some (set_next_id (Npos (next_source w)) c2)) o).
  assert (objects w1 !! modem_object = Some o1) as Ho1 by apply lookup_insert_eq.
  assert (dispatch DEBUG (EV_CALL_FINISHED 0 ok) w
          = Done tt (set_objects
                       (<[modem_object := set_ref_count (Pos.pred (ref_count o1)) o1]>
                          (objects w1)) w1)) as Hrun.
  { unfold dispatch, get, bind at 1. rewrite Hcalls. simpl.
    unfold bind, modify. simpl. fold w0.
    unfold finish_result. simpl. rewrite Hcan, andb_true_r.
    rewrite (ready_callback_eq kind ok w0 modem_object o c Ho Hc Ht).
    fold c2. fold w1.
    apply (g_object_unref_shared w1 modem_object o1 Ho1 Hrc). }
  eexists _, (Npos (next_source w)). split; [exact Hrun|].
  split; [|split; [simpl; now rewrite Hcalls | reflexivity]].
  eexists _, _. simpl. rewrite lookup_insert_eq.
  split; [reflexivity|]. split; [reflexivity|].
  repeat split; simpl.
  - subst c2. destruct ok; simpl.
    + destruct st, kind; try discriminate; reflexivity.
    + now rewrite Hn, Hst.
  - subst c2. destruct ok; simpl; [assumption | now rewrite Hn].
  - discriminate.
  - intros Hid. destruct (decide (id = Npos (next_source w))) as [|Hne]; [assumption|].
    rewrite lookup_insert_ne in Hid by congruence. now apply Hsrc in Hid.
  - intros ->. apply lookup_insert_eq.
  - subst c2. destruct ok; simpl; exact Hcan.
Qed.

Lemma finish_releases DEBUG w modem_object n t :
  armed w modem_object MODEM_OP_STATE_FINISH n t ->
  exists w',
    dispatch DEBUG (EV_TIMEOUT t) w = Done tt w' /\
    released w' modem_object /\
    pending_calls w' = pending_calls w /\
    (forall c k, ctx_of w modem_object = Some c -> cancellable c = Some k ->
                 k ∈ cancelled w').
Proof.
  intros (o & c & Ho & Hc & Hst & Hn & Ht & Ht0 & Hsrc & Hcan).
  assert (sources w !! t = Some modem_object) as Hs by now apply Hsrc.
  unfold dispatch, modem_op_state_run, get, bind at 1.
  rewrite Hs.
  unfold bind at 1.
  rewrite (bind_Done _ _ _ _ _ (get_modem_context_Done _ _ _ _ Ho Hc)).
  rewrite (bind_Done _ _ _ _ _ (put_modem_context_Done _ _ _ _ Ho)).
  simpl. rewrite Hst.
  unfold bind. rewrite modem_context_cancel_op_eq.
  unfold put_modem_context, deref, bind, modify, ret, g_source_remove. simpl.
  rewrite lookup_insert_eq. simpl.
  eexists. split; [reflexivity|]. split; [|split].
  - eexists _, _. simpl. rewrite lookup_insert_eq.
    repeat split; try reflexivity.
    intros id Hid. destruct (decide (id = t)) as [->|Hne].
    + now rewrite lookup_delete_eq in Hid.
    + rewrite lookup_delete_ne in Hid by congruence. apply Hsrc in Hid. congruence.
  - reflexivity.
  - intros c' k Hc' Hk. unfold ctx_of in Hc'. rewrite Ho, Hc in Hc'.
    assert (c' = c) as -> by congruence. simpl. rewrite Hk.
    apply elem_of_union; left. now apply elem_of_singleton.
Qed.

(** C4.  From the disable step on, successes take a kick through
    disable, low power and enable in this order, each step sending its own
    request when its timer comes due; after the enable succeeded the timer of
    the finish step sends nothing and releases the operation. *)
Theorem kick_steps_in_order DEBUG w modem_object n t :
  armed w modem_object MODEM_OP_STATE_DISABLE n t ->
  exists w1 w2 t2 w3 w4 t4 w5 w6 t6 w7,
    dispatch DEBUG (EV_TIMEOUT t) w = Done tt w1 /\
    calling w1 modem_object MODEM_OP_STATE_DISABLE n CALL_DISABLE /\
    dispatch DEBUG (EV_CALL_FINISHED 0 true) w1 = Done tt w2 /\
    armed w2 modem_object MODEM_OP_STATE_LOW_POWER n t2 /\
    dispatch DEBUG (EV_TIMEOUT t2) w2 = Done tt w3 /\
    calling w3 modem_object MODEM_OP_STATE_LOW_POWER n CALL_SET_POWER_STATE_LOW /\
    dispatch DEBUG (EV_CALL_FINISHED 0 true) w3 = Done tt w4 /\
    armed w4 modem_object MODEM_OP_STATE_ENABLE n t4 /\
    dispatch DEBUG (EV_TIMEOUT t4) w4 = Done tt w5 /\
    calling w5 modem_object MODEM_OP_STATE_ENABLE n CALL_ENABLE /\
    dispatch DEBUG (EV_CALL_FINISHED 0 true) w5 = Done tt w6 /\
    armed w6 modem_object MODEM_OP_STATE_FINISH n t6 /\
    dispatch DEBUG (EV_TIMEOUT t6) w6 = Done tt w7 /\
    released w7 modem_object /\
    pending_calls w7 = pending_calls w6 /\
    pending_calls w7 = pending_calls w.
Proof.
  intros Ha.
  destruct (timer_fires_request DEBUG w modem_object MODEM_OP_STATE_DISABLE n t CALL_DISABLE eq_refl Ha)
    as (w1 & R1 & C1 & P1 & _).
  destruct (request_answered DEBUG w1 modem_object MODEM_OP_STATE_DISABLE n CALL_DISABLE true eq_refl C1)
    as (w2 & t2 & R2 & A2 & P2 & _).
  destruct (timer_fires_request DEBUG w2 modem_object MODEM_OP_STATE_LOW_POWER n t2 CALL_SET_POWER_STATE_LOW eq_refl A2)
    as (w3 & R3 & C3 & P3 & _).
  destruct (request_answered DEBUG w3 modem_object MODEM_OP_STATE_LOW_POWER n CALL_SET_POWER_STATE_LOW true eq_refl C3)
    as (w4 & t4 & R4 & A4 & P4 & _).
  destruct (timer_fires_request DEBUG w4 modem_object MODEM_OP_STATE_ENABLE n t4 CALL_ENABLE eq_refl A4)
    as (w5 & R5 & C5 & P5 & _).
  destruct (request_answered DEBUG w5 modem_object MODEM_OP_STATE_ENABLE n CALL_ENABLE true eq_refl C5)
    as (w6 & t6 & R6 & A6 & P6 & _).
  destruct (finish_releases DEBUG w6 modem_object n t6 A6) as (w7 & R7 & Rel & P7 & _).
  exists w1, w2, t2, w3, w4, t4, w5, w6, t6, w7.
  repeat (split; [assumption|]).
  rewrite P7, P6, P5. simpl. rewrite P4, P3. simpl. rewrite P2, P1. reflexivity.
Qed.

(** ** Retry budget *)

Lemma step_request_nth_step k :
  (k <= 2)%nat -> exists kind, step_request (nth_step k) = Some kind.
Proof.
  intros Hk. destruct k as [|[|[|k]]]; [eexists; reflexivity .. | lia].
Qed.

Lemma guint_incr_small (n : nat) :
  (n <= 3)%nat -> guint_incr (N.of_nat n) = N.of_nat (S n).
Proof.
  intros Hn. unfold guint_incr. rewrite N.mod_small; [lia|].
  change (2 ^ 32)%N with 4294967296%N. lia.
Qed.

Lemma step_outcome_armed DEBUG w modem_object st n t kind ok :
  step_request st = Some kind ->
  armed w modem_object st n t ->
  exists w' t',
    step_outcome DEBUG modem_object ok w = Done tt w' /\
    armed w' modem_object
          (if ok then step_successor st
           else if bool_decide (3 < guint_incr n)%N then MODEM_OP_STATE_FINISH else st)
          (if ok then n else guint_incr n) t'.
Proof.
  intros Hk Ha.
  destruct (timer_fires_request DEBUG w modem_object st n t kind Hk Ha) as (w1 & R1 & C1 & _).
  destruct (request_answered DEBUG w1 modem_object st n kind ok Hk C1) as (w2 & t2 & R2 & A2 & _).
  exists w2, t2. split; [|exact A2].
  destruct Ha as (o & c & Ho & Hc & _ & _ & Ht & _).
  unfold step_outcome.
  rewrite (bind_Done _ _ _ _ _ (get_modem_context_Done _ _ _ _ Ho Hc)).
  rewrite Ht. now rewrite (bind_Done _ _ _ _ _ R1).
Qed.

Lemma run_outcomes_armed DEBUG modem_object outcomes :
  forall w k n t,
    armed w modem_object (nth_step k) (N.of_nat n) t ->
    (n + failures outcomes <= 3)%nat ->
    (k + successes outcomes <= 2)%nat ->
    exists w' t',
      run_outcomes DEBUG modem_object outcomes w = Done tt w' /\
      armed w' modem_object (nth_step (k + successes outcomes))
            (N.of_nat (n + failures outcomes)) t'.
Proof.
  induction outcomes as [|ok outcomes IH]; intros w k n t Ha Hf Hs; simpl in *.
  - exists w, t. split; [reflexivity|]. now rewrite !Nat.add_0_r.
  - destruct (step_request_nth_step k ltac:(lia)) as [kind Hk].
    destruct (step_outcome_armed DEBUG w modem_object _ _ t kind ok Hk Ha)
      as (w1 & t1 & R1 & A1).
    unfold run_outcomes. simpl for_each. rewrite (bind_Done _ _ _ _ _ R1).
    destruct ok.
    + change (step_successor (nth_step k)) with (nth_step (S k)) in A1.
      destruct (IH w1 (S k) n t1 A1 ltac:(lia) ltac:(lia)) as (w2 & t2 & R2 & A2).
      exists w2, t2. split; [exact R2|].
      now replace (k + (1 + successes outcomes))%nat with (S k + successes outcomes)%nat by lia.
    + rewrite guint_incr_small in A1 by lia.
      rewrite bool_decide_eq_false_2 in A1 by lia.
      destruct (IH w1 k (S n) t1 A1 ltac:(lia) ltac:(lia)) as (w2 & t2 & R2 & A2).
      exists w2, t2. split; [exact R2|].
      now replace (n + (1 + failures outcomes))%nat with (S n + failures outcomes)%nat by lia.
Qed.

(** C1.  In a kick that starts at the disable step with its counter at zero,
    the counter equals the number of failed steps so far, whatever the steps
    they happened on and however many steps succeeded in between; the fourth
    failure sets it to 4, which exceeds 3, and schedules the finish step,
    whose timer releases the operation. *)
Theorem retry_budget_is_per_operation DEBUG w modem_object t :
  armed w modem_object MODEM_OP_STATE_DISABLE 0%N t ->
  (forall outcomes,
      (failures outcomes <= 3)%nat -> (successes outcomes <= 2)%nat ->
      exists w' t',
        run_outcomes DEBUG modem_object outcomes w = Done tt w' /\
        armed w' modem_object (nth_step (successes outcomes))
              (N.of_nat (failures outcomes)) t') /\
  (forall outcomes,
      failures outcomes = 3%nat -> (successes outcomes <= 2)%nat ->
      exists w' t' w'',
        run_outcomes DEBUG modem_object (outcomes ++ [false]) w = Done tt w' /\
        armed w' modem_object MODEM_OP_STATE_FINISH 4%N t' /\
        dispatch DEBUG (EV_TIMEOUT t') w' = Done tt w'' /\
        released w'' modem_object).
Proof.
  intros Ha.
  assert (forall outcomes,
             (failures outcomes <= 3)%nat -> (successes outcomes <= 2)%nat ->
             exists w' t',
               run_outcomes DEBUG modem_object outcomes w = Done tt w' /\
               armed w' modem_object (nth_step (successes outcomes))
                     (N.of_nat (failures outcomes)) t') as Hprefix.
  { intros outcomes Hf Hs.
    apply (run_outcomes_armed DEBUG modem_object outcomes w 0 0 t Ha); simpl; lia. }
  split; [exact Hprefix|].
  intros outcomes Hf Hs.
  destruct (Hprefix outcomes ltac:(lia) Hs) as (w1 & t1 & R1 & A1).
  destruct (step_request_nth_step (successes outcomes) Hs) as [kind Hk].
  destruct (step_outcome_armed DEBUG w1 modem_object _ _ t1 kind false Hk A1)
    as (w2 & t2 & R2 & A2).
  rewrite Hf in A2. change (guint_incr (N.of_nat 3)) with 4%N in A2.
  rewrite bool_decide_eq_true_2 in A2 by lia.
  destruct (finish_releases DEBUG w2 modem_object _ t2 A2) as (w3 & R3 & Rel & _).
  exists w2, t2, w3. split; [|repeat split; assumption].
  unfold run_outcomes in *. rewrite for_each_app.
  rewrite (bind_Done _ _ _ _ _ R1). simpl. now rewrite (bind_Done _ _ _ _ _ R2).
Qed.

(** ** Idle detector *)

Lemma modem_op_state_run_none w modem_object o c :
  objects w !! modem_object = Some o ->
  modem_context o = Some c ->
  op_state c = MODEM_OP_STATE_NONE ->
  modem_op_state_run modem_object w =
    Done G_SOURCE_REMOVE
         (arm modem_object o (set_op_state MODEM_OP_STATE_DISABLE (set_next_id 0%N c)) w).
Proof.
  intros Ho Hc Hst. unfold modem_op_state_run.
  rewrite (bind_Done _ _ _ _ _ (get_modem_context_Done _ _ _ _ Ho Hc)).
  rewrite (bind_Done _ _ _ _ _ (put_modem_context_Done _ _ _ _ Ho)).
  simpl. rewrite Hst.
  set (c1 := set_next_id 0%N c).
  set (o1 := set_modem_context (Some c1) o).
  set (w1 := set_objects (<[modem_object := o1]> (objects w)) w).
  assert (objects w1 !! modem_object = Some o1) as Ho1 by apply lookup_insert_eq.
  rewrite (bind_Done _ _ _ _ _
             (modem_schedule_op_state_Done w1 modem_object o1 c1 _ Ho1 eq_refl eq_refl)).
  unfold ret, arm, w1, o1. simpl. now rewrite insert_insert_eq.
Qed.

Lemma reset_poll_modem_kick w modem_object o c :
  objects w !! modem_object = Some o ->
  modem_context o = Some c ->
  timestamp c <> 0 ->
  KICK_INTERVAL_SECONDS false * G_USEC_PER_SEC
    < gint64_sub (monotonic_time w) (timestamp c) ->
  reset_poll_modem false modem_object w = Done tt (kick_started modem_object o c w).
Proof.
  intros Ho Hc Hts Hel. unfold reset_poll_modem.
  rewrite (bind_Done _ _ _ _ _ (get_modem_context_Done _ _ _ _ Ho Hc)).
  unfold g_get_monotonic_time. unfold bind at 1. unfold bind at 1. unfold ret at 1.
  rewrite bool_decide_eq_false_2 by exact Hts.
  rewrite bool_decide_eq_true_2 by exact Hel.
  unfold bind at 1. rewrite modem_context_cancel_op_eq.
  unfold bind at 1. unfold g_cancellable_new at 1.
  set (w2 := set_next_cancellable _ _).
  assert (objects w2 !! modem_object = Some o) as Ho2 by exact Ho.
  rewrite (bind_Done _ _ _ _ _ (put_modem_context_Done _ _ _ _ Ho2)).
  set (c3 := set_cancellable _ _).
  set (o3 := set_modem_context (Some c3) o).
  set (w3 := set_objects _ w2).
  assert (objects w3 !! modem_object = Some o3) as Ho3 by apply lookup_insert_eq.
  rewrite (bind_Done _ _ _ _ _
             (modem_op_state_run_none w3 modem_object o3 c3 Ho3 eq_refl eq_refl)).
  unfold ret, arm, kick_started, started_ctx, w3, o3, c3, w2, cancel_effect. simpl.
  now rewrite insert_insert_eq.
Qed.

Lemma reset_poll_modem_wait w modem_object o c :
  objects w !! modem_object = Some o ->
  modem_context o = Some c ->
  ~ (timestamp c <> 0 /\
     KICK_INTERVAL_SECONDS false * G_USEC_PER_SEC
       < gint64_sub (monotonic_time w) (timestamp c)) ->
  reset_poll_modem false modem_object w = Done tt w.
Proof.
  intros Ho Hc Hno. unfold reset_poll_modem.
  rewrite (bind_Done _ _ _ _ _ (get_modem_context_Done _ _ _ _ Ho Hc)).
  unfold g_get_monotonic_time. unfold bind at 1. unfold bind at 1. unfold ret at 1.
  case_bool_decide as Hts; [reflexivity|].
  rewrite bool_decide_eq_false_2; [reflexivity|]. intros Hel. apply Hno. now split.
Qed.

Lemma set_modem_context_id o c :
  modem_context o = Some c -> set_modem_context (Some c) o = o.
Proof. destruct o; simpl; now intros ->. Qed.

(** The loop of the sweep in the production build: it returns, sends no
    request, and leaves every context as it was except those of the listed
    modems that are due, which it restarts. *)
Lemma for_each_reset_poll (l : list positive) :
  forall w,
    (forall x, x ∈ l -> exists o c, objects w !! x = Some o /\ modem_context o = Some c) ->
    exists w',
      for_each (reset_poll_modem false) l w = Done tt w' /\
      monotonic_time w' = monotonic_time w /\
      pending_calls w' = pending_calls w /\
      modems w' = modems w /\
      forall x o c,
        objects w !! x = Some o -> modem_context o = Some c ->
        exists c',
          objects w' !! x = Some (set_modem_context (Some c') o) /\
          (kick_due (monotonic_time w) c -> x ∈ l ->
           exists k t, t <> 0%N /\ c' = started_ctx c k t) /\
          (~ kick_due (monotonic_time w) c \/ x ∉ l -> c' = c).
Proof.
  induction l as [|y l IH]; intros w Hlive.
  - exists w. repeat split; try reflexivity.
    intros x o c Ho Hc. exists c. rewrite (set_modem_context_id _ _ Hc).
    split; [assumption|]. split; [|reflexivity].
    intros _ Hin. now apply elem_of_nil in Hin.
  - destruct (Hlive y ltac:(left)) as (oy & cy & Hoy & Hcy).
    simpl for_each.
    destruct (decide (kick_due (monotonic_time w) cy)) as [Hdue|Hno].
    + (* y is kicked *)
      destruct Hdue as [Hts Hel].
      rewrite (bind_Done _ _ _ _ _ (reset_poll_modem_kick w y oy cy Hoy Hcy Hts Hel)).
      set (w1 := kick_started y oy cy w).
      assert (forall x, x <> y -> objects w1 !! x = objects w !! x) as Hframe
        by (intros x Hne; unfold w1, kick_started; simpl; now rewrite lookup_insert_ne).
      assert (objects w1 !! y =
                Some (set_modem_context
                        (Some (started_ctx cy (next_cancellable w) (Npos (next_source w)))) oy))
        as Hy1 by apply lookup_insert_eq.
      destruct (IH w1) as (w' & Hrun & Htime & Hcalls & Hmod & Hctx).
      { intros x Hx. destruct (decide (x = y)) as [->|Hne].
        - eexists _, _. split; [exact Hy1 | reflexivity].
        - rewrite Hframe by assumption. apply Hlive. now right. }
      exists w'. split; [exact Hrun|]. repeat split; try assumption.
      intros x o c Ho Hc. destruct (decide (x = y)) as [->|Hne].
      * assert (o = oy) as -> by congruence. assert (c = cy) as -> by congruence.
        destruct (Hctx y _ _ Hy1 eq_refl) as (c' & Ho' & Hk & Hn).
        exists c'. split; [exact Ho'|]. split.
        -- intros _ _. destruct (decide (y ∈ l)) as [Hin|Hnin].
           ++ destruct (Hk ltac:(split; assumption) Hin) as (k & t & Ht & ->).
              exists k, t. split; [assumption | reflexivity].
           ++ rewrite (Hn (or_intror Hnin)). eexists _, _. split; [|reflexivity]. discriminate.
        -- intros [Hnd|Hnin]; [exfalso; apply Hnd; now split |].
           exfalso. apply Hnin. now left.
      * rewrite <- Hframe in Ho by assumption.
        destruct (Hctx x o c Ho Hc) as (c' & Ho' & Hk & Hn).
        exists c'. split; [exact Ho'|]. split.
        -- intros Hd Hin. apply Hk; [exact Hd|].
           apply elem_of_cons in Hin as [?|?]; [congruence | assumption].
        -- intros [Hnd|Hnin]; apply Hn; [now left | right].
           intros Hin. apply Hnin. now right.
    + (* y waits *)
      rewrite (bind_Done _ _ _ _ _ (reset_poll_modem_wait w y oy cy Hoy Hcy Hno)).
      destruct (IH w) as (w' & Hrun & Htime & Hcalls & Hmod & Hctx).
      { intros x Hx. apply Hlive. now right. }
      exists w'. split; [exact Hrun|]. repeat split; try assumption.
      intros x o c Ho Hc.
      destruct (Hctx x o c Ho Hc) as (c' & Ho' & Hk & Hn).
      exists c'. split; [exact Ho'|]. split.
      * intros Hd Hin. apply Hk; [exact Hd|].
        apply elem_of_cons in Hin as [->|?]; [|assumption].
        exfalso. apply Hno. assert (c = cy) as <- by congruence. exact Hd.
      * intros [Hnd|Hnin]; apply Hn; [now left | right].
        intros Hin. apply Hnin. now right.
Qed.

Lemma reset_poll_cb_Done w :
  registry_live w ->
  exists w',
    reset_poll_cb false w = Done G_SOURCE_CONTINUE w' /\
    monotonic_time w' = monotonic_time w /\
    pending_calls w' = pending_calls w /\
    modems w' = modems w /\
    forall x o c,
      objects w !! x = Some o -> modem_context o = Some c ->
      exists c',
        objects w' !! x = Some (set_modem_context (Some c') o) /\
        (kick_due (monotonic_time w) c -> (exists p, modems w !! p = Some x) ->
         exists k t, t <> 0%N /\ c' = started_ctx c k t) /\
        (~ kick_due (monotonic_time w) c -> c' = c).
Proof.
  intros Hlive.
  assert (forall x, x ∈ (map_to_list (modems w)).*2 <-> exists p, modems w !! p = Some x)
    as Hin.
  { intros x. rewrite list_elem_of_fmap. split.
    - intros ([p y] & -> & Hp). exists p. now apply elem_of_map_to_list.
    - intros (p & Hp). exists (p, x). split; [reflexivity|]. now apply elem_of_map_to_list. }
  destruct (for_each_reset_poll ((map_to_list (modems w)).*2) w)
    as (w' & Hrun & Htime & Hcalls & Hmod & Hctx).
  { intros x Hx. apply Hin in Hx as (p & Hp). exact (Hlive p x Hp). }
  exists w'. split.
  - unfold reset_poll_cb, get. unfold bind at 1.
    now rewrite (bind_Done _ _ _ _ _ Hrun).
  - repeat split; try assumption.
    intros x o c Ho Hc. destruct (Hctx x o c Ho Hc) as (c' & Ho' & Hk & Hn).
    exists c'. split; [exact Ho'|]. split.
    + intros Hd Hp. apply Hk; [exact Hd | now apply Hin].
    + intros Hnd. apply Hn. now left.
Qed.

(** C5.  In the production build, a sweep that finds a tracked modem idle or
    denied for exactly [KICK_INTERVAL_SECONDS] leaves its context as it is
    (the loop body leaves the whole world as it is); one microsecond more
    and the sweep starts a kick for it. *)
Theorem kick_threshold_is_strict w p modem_object o c :
  registry_live w ->
  modems w !! p = Some modem_object ->
  objects w !! modem_object = Some o ->
  modem_context o = Some c ->
  timestamp c <> 0 ->
  (gint64_sub (monotonic_time w) (timestamp c)
     = KICK_INTERVAL_SECONDS false * G_USEC_PER_SEC ->
   reset_poll_modem false modem_object w = Done tt w /\
   exists w', reset_poll_cb false w = Done G_SOURCE_CONTINUE w' /\
              ctx_of w' modem_object = Some c) /\
  (gint64_sub (monotonic_time w) (timestamp c)
     = KICK_INTERVAL_SECONDS false * G_USEC_PER_SEC + 1 ->
   reset_poll_modem false modem_object w = Done tt (kick_started modem_object o c w) /\
   exists w' k t, reset_poll_cb false w = Done G_SOURCE_CONTINUE w' /\
                  t <> 0%N /\
                  ctx_of w' modem_object = Some (started_ctx c k t)).
Proof.
  intros Hlive Hp Ho Hc Hts.
  destruct (reset_poll_cb_Done w Hlive) as (w' & Hrun & _ & _ & _ & Hctx).
  destruct (Hctx modem_object o c Ho Hc) as (c' & Ho' & Hk & Hn).
  split; intros Hel.
  - assert (~ kick_due (monotonic_time w) c) as Hnd
      by (intros [_ Hlt]; rewrite Hel in Hlt; lia).
    split.
    + apply (reset_poll_modem_wait w modem_object o c Ho Hc).
      intros [_ Hlt]. rewrite Hel in Hlt. lia.
    + exists w'. split; [exact Hrun|]. unfold ctx_of. rewrite Ho'. simpl.
      now rewrite (Hn Hnd).
  - assert (kick_due (monotonic_time w) c) as Hd by (split; [assumption | rewrite Hel; lia]).
    split.
    + apply (reset_poll_modem_kick w modem_object o c Ho Hc Hts). rewrite Hel. lia.
    + destruct (Hk Hd (ex_intro _ p Hp)) as (k & t & Ht & ->).
      exists w', k, t. split; [exact Hrun|]. split; [exact Ht|].
      unfold ctx_of. now rewrite Ho'.
Qed.

(** The kick the sweep starts is armed at the disable step with a counter of
    zero, given that the only timer pending for the modem was the one its
    context knew and that the address of the new token was never cancelled. *)
Lemma kick_started_armed w modem_object o c :
  objects w !! modem_object = Some o ->
  (forall id, sources w !! id = Some modem_object -> id = next_id c /\ id <> 0%N) ->
  next_cancellable w ∉ cancelled w ->
  (forall k, cancellable c = Some k -> k <> next_cancellable w) ->
  armed (kick_started modem_object o c w) modem_object MODEM_OP_STATE_DISABLE 0%N
        (Npos (next_source w)).
Proof.
  intros Ho Hsrc Hfresh Hold.
  eexists _, _. unfold kick_started; simpl. rewrite lookup_insert_eq.
  split; [reflexivity|]. split; [reflexivity|].
  repeat split; simpl; try discriminate.
  - intros Hid. destruct (decide (id = Npos (next_source w))) as [|Hne]; [assumption|].
    rewrite lookup_insert_ne in Hid by congruence.
    case_bool_decide as Hn.
    + destruct (decide (id = next_id c)) as [->|Hne'].
      * now rewrite lookup_delete_eq in Hid.
      * rewrite lookup_delete_ne in Hid by congruence. now apply Hsrc in Hid as [? ?].
    + apply Hsrc in Hid as [-> Hid]. contradiction.
  - intros ->. apply lookup_insert_eq.
  - apply bool_decide_eq_false_2. destruct (cancellable c) as [k|]; [|assumption].
    intros Hin. apply elem_of_union in Hin as [Hin|Hin]; [|contradiction].
    apply elem_of_singleton in Hin. symmetry in Hin. now apply (Hold k).
Qed.

(** C6.  In the production build, the loop body of the sweep, run on a modem
    that is due, returns the world [kick_started]: the token of the previous
    operation is cancelled and its timer removed, then the context is that of
    a fresh operation at the disable step with a counter of zero, a new token
    and a new timer, the only thing armed; no request is sent, and the whole
    sweep returns with the requests in flight as they were. *)
Theorem sweep_restarts_kick w modem_object o c :
  objects w !! modem_object = Some o ->
  modem_context o = Some c ->
  kick_due (monotonic_time w) c ->
  reset_poll_modem false modem_object w = Done tt (kick_started modem_object o c w) /\
  ctx_of (kick_started modem_object o c w) modem_object
    = Some (started_ctx c (next_cancellable w) (Npos (next_source w))) /\
  (forall k, cancellable c = Some k -> k ∈ cancelled (kick_started modem_object o c w)) /\
  (next_id c <> 0%N -> next_id c <> Npos (next_source w) ->
   sources (kick_started modem_object o c w) !! next_id c = None) /\
  sources (kick_started modem_object o c w) !! Npos (next_source w) = Some modem_object /\
  (forall id, id <> Npos (next_source w) -> id <> next_id c ->
              sources (kick_started modem_object o c w) !! id = sources w !! id) /\
  pending_calls (kick_started modem_object o c w) = pending_calls w /\
  (registry_live w ->
   exists w'', reset_poll_cb false w = Done G_SOURCE_CONTINUE w'' /\
               pending_calls w'' = pending_calls w).
Proof.
  intros Ho Hc [Hts Hel].
  split; [exact (reset_poll_modem_kick w modem_object o c Ho Hc Hts Hel)|].
  unfold kick_started, ctx_of; simpl. rewrite !lookup_insert_eq. simpl.
  repeat split.
  - intros k ->. apply elem_of_union; left. now apply elem_of_singleton.
  - intros Hn Hne. rewrite lookup_insert_ne by congruence.
    rewrite bool_decide_eq_true_2 by assumption. apply lookup_delete_eq.
  - intros id Hne Hne'. rewrite lookup_insert_ne by congruence.
    case_bool_decide; [|reflexivity]. now rewrite lookup_delete_ne by congruence.
  - intros Hlive. destruct (reset_poll_cb_Done w Hlive) as (w'' & Hrun & _ & Hcalls & _).
    exists w''. now split.
Qed.

(** ** Modem registry *)

Lemma g_object_unref_Done w modem_object o :
  objects w !! modem_object = Some o ->
  exists w',
    g_object_unref modem_object w = Done tt w' /\
    modems w' = modems w /\
    monotonic_time w' = monotonic_time w /\
    pending_calls w' = pending_calls w /\
    (forall x, x <> modem_object -> objects w' !! x = objects w !! x) /\
    (ref_count o <> 1%positive ->
     objects w' !! modem_object = Some (set_ref_count (Pos.pred (ref_count o)) o)) /\
    (ref_count o = 1%positive -> objects w' !! modem_object = None).
Proof.
  intros Ho. destruct (decide (ref_count o = 1%positive)) as [Hrc|Hrc].
  - rewrite (g_object_unref_last w modem_object o Ho Hrc).
    eexists. split; [reflexivity|].
    destruct (modem_context o); simpl; repeat split; try congruence;
      try (intros x Hne; now rewrite lookup_delete_ne);
      intros _; apply lookup_delete_eq.
  - rewrite (g_object_unref_shared w modem_object o Ho Hrc).
    eexists. split; [reflexivity|]. simpl. repeat split; try congruence.
    + intros x Hne. now rewrite lookup_insert_ne.
    + intros _. apply lookup_insert_eq.
Qed.

Lemma handle_object_added_ignored w modem_object o :
  objects w !! modem_object = Some o ->
  modem_iface o = None \/
  (exists m, modem_iface o = Some m /\ primary_port m = None) \/
  modem_3gpp_iface o = None ->
  handle_object_added modem_object w = Done tt w.
Proof.
  intros Ho Hbad. unfold handle_object_added, deref. unfold bind at 1. rewrite Ho.
  destruct Hbad as [Hm | [(m & Hm & Hp) | Hg]].
  - now rewrite Hm.
  - now rewrite Hm, Hp.
  - rewrite Hg. destruct (modem_iface o) as [m|]; [|reflexivity].
    destruct (primary_port m); reflexivity.
Qed.

Lemma handle_object_added_tracked w modem_object o m port i :
  objects w !! modem_object = Some o ->
  modem_iface o = Some m ->
  primary_port m = Some port ->
  modem_3gpp_iface o = Some i ->
  (forall old, modems w !! object_path o = Some old -> is_Some (objects w !! old)) ->
  exists w' c',
    handle_object_added modem_object w = Done tt w' /\
    modems w' = <[object_path o := modem_object]> (modems w) /\
    tracked w' modem_object c' /\
    path c' = object_path o /\
    timestamp c' = stamp (monotonic_time w) (registration_state i) 0 /\
    op_state c' = MODEM_OP_STATE_NONE.
Proof.
  intros Ho Hm Hp Hi Hold.
  unfold handle_object_added, deref. unfold bind at 1. rewrite Ho, Hm, Hp, Hi.
  (* g_object_set_data_full *)
  set (c0 := modem_context_new o).
  set (oA := set_modem_context (Some c0) o).
  set (w1 := set_objects (<[modem_object := oA]> (objects w)) w).
  set (wA := match modem_context o with Some old => cancel_effect old w1 | None => w1 end).
  assert (g_object_set_data_full modem_object c0 w = Done tt wA) as RA.
  { unfold g_object_set_data_full, deref, bind, modify. rewrite Ho. fold oA. fold w1.
    unfold wA. destruct (modem_context o) as [old|]; [|reflexivity].
    unfold modem_context_free, bind. now rewrite modem_context_cancel_op_eq. }
  assert (objects wA = <[modem_object := oA]> (objects w)) as HoA
    by (unfold wA; destruct (modem_context o); reflexivity).
  assert (modems wA = modems w /\ monotonic_time wA = monotonic_time w) as [HmA HtA]
    by (unfold wA; destruct (modem_context o); split; reflexivity).
  rewrite (bind_Done _ _ _ _ _ RA).
  (* g_signal_connect *)
  set (id := Npos (next_handler wA)).
  set (i' := mkMMModem3gpp (registration_state i) (id :: notify_handlers i)).
  set (oB := set_modem_3gpp_iface (Some i') oA).
  set (wB := set_next_handler (Pos.succ (next_handler wA))
               (set_objects (<[modem_object := oB]> (objects wA)) wA)).
  assert (g_signal_connect modem_object wA = Done id wB) as RB.
  { unfold g_signal_connect. rewrite HoA, lookup_insert_eq. simpl. rewrite Hi.
    unfold wB, oB, i', id. now rewrite HoA. }
  rewrite (bind_Done _ _ _ _ _ RB).
  (* the handler id is stored *)
  set (c1 := set_reg_state_changed_id id c0).
  assert (objects wB !! modem_object = Some oB) as HoB by apply lookup_insert_eq.
  rewrite (bind_Done _ _ _ _ _ (put_modem_context_Done wB modem_object oB c1 HoB)).
  set (oC := set_modem_context (Some c1) oB).
  set (wC := set_objects (<[modem_object := oC]> (objects wB)) wB).
  assert (objects wC !! modem_object = Some oC) as HoC by apply lookup_insert_eq.
  (* the current registration state is evaluated once *)
  destruct (modem_registration_changed_Done i modem_object wC oC c1 HoC eq_refl)
    as (wD & RD & HtD & HmD & _ & _ & _ & HfD & HoD).
  rewrite (bind_Done _ _ _ _ _ RD).
  set (c2 := set_timestamp (stamp (monotonic_time wC) (registration_state i) (timestamp c1)) c1)
    in HoD.
  set (oD := set_modem_context (Some c2) oC) in HoD.
  (* g_object_ref and g_hash_table_insert *)
  set (oE := set_ref_count (Pos.succ (ref_count oD)) oD).
  set (wE := set_objects (<[modem_object := oE]> (objects wD)) wD).
  assert (g_object_ref modem_object wD = Done tt wE) as RE
    by (unfold g_object_ref, deref, bind, modify; now rewrite HoD).
  rewrite (bind_Done _ _ _ _ _ RE).
  assert (objects wE !! modem_object = Some oE) as HoE by apply lookup_insert_eq.
  assert (forall x, x <> modem_object -> objects wE !! x = objects w !! x) as HfE.
  { intros x Hne. unfold wE. simpl. rewrite lookup_insert_ne by congruence.
    rewrite HfD by assumption. unfold wC, wB. simpl.
    rewrite !lookup_insert_ne by congruence. rewrite HoA.
    now rewrite lookup_insert_ne by congruence. }
  assert (modems wE = modems w) as HmE by (unfold wE; simpl; rewrite HmD; exact HmA).
  set (wF := set_modems (<[object_path o := modem_object]> (modems wE)) wE).
  assert (modems wF = <[object_path o := modem_object]> (modems w)) as HmF
    by (change (modems wF) with (<[object_path o := modem_object]> (modems wE));
        now rewrite HmE).
  assert (tracked wF modem_object c2) as HtrF.
  { exists oE, i'. repeat split; try assumption. discriminate. }
  assert (timestamp c2 = stamp (monotonic_time w) (registration_state i) 0) as Hts
    by (unfold c2; simpl; unfold wC, wB; simpl; now rewrite HtA).
  unfold g_hash_table_insert, get. unfold bind at 1. unfold bind at 1.
  unfold modify at 1. fold wF. rewrite HmE.
  destruct (modems w !! object_path o) as [old|] eqn:Hold'.
  - destruct (decide (old = modem_object)) as [->|Hne].
    + destruct (g_object_unref_Done wF modem_object oE HoE)
        as (w' & R & Hm' & _ & _ & _ & Hshared & _).
      exists w', c2. split; [exact R|]. split; [now rewrite Hm'|].
      split; [|now repeat split].
      exists (set_ref_count (Pos.pred (ref_count oE)) oE), i'.
      split; [apply Hshared; unfold oE; simpl; lia|].
      repeat split. discriminate.
    + destruct (Hold old eq_refl) as [oo Hoo].
      assert (objects wF !! old = Some oo) as Hoo' by (unfold wF; simpl; now rewrite HfE).
      destruct (g_object_unref_Done wF old oo Hoo')
        as (w' & R & Hm' & _ & _ & Hframe & _).
      exists w', c2. split; [exact R|]. split; [now rewrite Hm'|].
      split; [|now repeat split].
      exists oE, i'. split; [rewrite Hframe by congruence; exact HoE|].
      repeat split. discriminate.
  - exists wF, c2. split; [reflexivity|].
    split; [exact HmF|]. now repeat split.
Qed.

(** C9.  A modem offered to [handle_object_added] without the Modem
    interface, without a primary port or without the 3GPP interface changes
    nothing: no entry is created.  A modem with all three is entered in
    [modems] under its path, with a context attached whose timestamp is seeded
    from its current registration state. *)
Theorem only_eligible_modems_are_tracked w modem_object o :
  objects w !! modem_object = Some o ->
  (modem_iface o = None \/
   (exists m, modem_iface o = Some m /\ primary_port m = None) \/
   modem_3gpp_iface o = None ->
   handle_object_added modem_object w = Done tt w) /\
  (forall m port i,
      modem_iface o = Some m ->
      primary_port m = Some port ->
      modem_3gpp_iface o = Some i ->
      (forall old, modems w !! object_path o = Some old -> is_Some (objects w !! old)) ->
      exists w' c',
        handle_object_added modem_object w = Done tt w' /\
        modems w' = <[object_path o := modem_object]> (modems w) /\
        tracked w' modem_object c' /\
        path c' = object_path o /\
        timestamp c' = stamp (monotonic_time w) (registration_state i) 0 /\
        op_state c' = MODEM_OP_STATE_NONE).
Proof.
  intros Ho. split.
  - apply handle_object_added_ignored; assumption.
  - intros m port i. now apply handle_object_added_tracked.
Qed.

(** ** Frame: who writes the timestamp *)

Lemma timestamps_kept_refl w : timestamps_kept w w.
Proof. intros x o' Ho'. eauto. Qed.

Lemma timestamps_kept_trans w1 w2 w3 :
  timestamps_kept w1 w2 -> timestamps_kept w2 w3 -> timestamps_kept w1 w3.
Proof.
  intros H12 H23 x o3 Ho3.
  destruct (H23 x o3 Ho3) as (o2 & Ho2 & E23).
  destruct (H12 x o2 Ho2) as (o1 & Ho1 & E12).
  exists o1. split; [assumption | congruence].
Qed.

Lemma timestamps_kept_objects w w' :
  objects w' = objects w -> timestamps_kept w w'.
Proof. intros E x o' Ho'. rewrite E in Ho'. eauto. Qed.

Lemma timestamps_kept_insert w w' x o o1 :
  objects w !! x = Some o ->
  timestamp <$> modem_context o1 = timestamp <$> modem_context o ->
  objects w' = <[x := o1]> (objects w) ->
  timestamps_kept w w'.
Proof.
  intros Ho E Hw y o' Ho'. rewrite Hw in Ho'.
  destruct (decide (x = y)) as [->|Hne].
  - rewrite lookup_insert_eq in Ho'. exists o. split; [assumption | congruence].
  - rewrite lookup_insert_ne in Ho' by assumption. eauto.
Qed.

Lemma timestamps_kept_delete w w' x :
  objects w' = delete x (objects w) -> timestamps_kept w w'.
Proof.
  intros Hw y o' Ho'. rewrite Hw in Ho'.
  destruct (decide (x = y)) as [->|Hne].
  - now rewrite lookup_delete_eq in Ho'.
  - rewrite lookup_delete_ne in Ho' by assumption. eauto.
Qed.

Lemma onsets_kept_refl w : onsets_kept w w.
Proof. intros x o' Ho'. eauto. Qed.

Lemma onsets_kept_trans w1 w2 w3 :
  onsets_kept w1 w2 -> onsets_kept w2 w3 -> onsets_kept w1 w3.
Proof.
  intros H12 H23 x o3 Ho3.
  destruct (H23 x o3 Ho3) as (o2 & Ho2 & E23).
  destruct (H12 x o2 Ho2) as (o1 & Ho1 & E12).
  exists o1. split; [assumption|]. intros c1 Hc1 Hts.
  destruct (E12 c1 Hc1 Hts) as (c2 & Hc2 & E2).
  destruct (E23 c2 Hc2 ltac:(congruence)) as (c3 & Hc3 & E3).
  exists c3. split; [assumption | congruence].
Qed.

Lemma timestamps_kept_onsets w w' : timestamps_kept w w' -> onsets_kept w w'.
Proof.
  intros H x o' Ho'. destruct (H x o' Ho') as (o & Ho & E).
  exists o. split; [assumption|]. intros c Hc _. rewrite Hc in E. simpl in E.
  destruct (modem_context o') as [c'|]; [|discriminate].
  exists c'. split; [reflexivity|]. simpl in E. congruence.
Qed.

Lemma get_modem_context_inv modem_object w c w' :
  get_modem_context modem_object w = Done c w' ->
  w' = w /\ exists o, objects w !! modem_object = Some o /\ modem_context o = Some c.
Proof.
  unfold get_modem_context, deref, bind. intros H.
  destruct (objects w !! modem_object) as [o|]; [|discriminate].
  destruct (modem_context o) as [c0|] eqn:Hc; [|discriminate].
  unfold ret in H. injection H as <- <-. eauto.
Qed.

Lemma modem_schedule_op_state_kept modem_object st w w' :
  modem_schedule_op_state modem_object st w = Done tt w' -> timestamps_kept w w'.
Proof.
  intros H. unfold modem_schedule_op_state in H.
  apply bind_Done_inv in H as (c & w0 & Hget & H).
  apply get_modem_context_inv in Hget as (-> & o & Ho & Hc).
  destruct (decide (next_id c = 0%N)) as [Hn|Hn].
  - pose proof (modem_schedule_op_state_Done w modem_object o c st Ho Hc Hn) as E.
    unfold modem_schedule_op_state in E.
    rewrite (bind_Done _ _ _ _ _ (get_modem_context_Done _ _ _ _ Ho Hc)) in E.
    rewrite E in H. injection H as <-.
    eapply (timestamps_kept_insert w _ modem_object o _ Ho); [|reflexivity].
    simpl. now rewrite Hc.
  - simpl in H. rewrite bool_decide_eq_false_2 in H by exact Hn. discriminate.
Qed.

Lemma modem_schedule_retry_op_state_kept modem_object w w' :
  modem_schedule_retry_op_state modem_object w = Done tt w' -> timestamps_kept w w'.
Proof.
  intros H.
  destruct (objects w !! modem_object) as [o|] eqn:Ho;
    [|unfold modem_schedule_retry_op_state, get_modem_context, deref, bind in H;
      rewrite Ho in H; discriminate].
  destruct (modem_context o) as [c|] eqn:Hc;
    [|unfold modem_schedule_retry_op_state, get_modem_context, deref, bind in H;
      rewrite Ho, Hc in H; discriminate].
  unfold modem_schedule_retry_op_state in H.
  rewrite (bind_Done _ _ _ _ _ (get_modem_context_Done _ _ _ _ Ho Hc)) in H.
  rewrite (bind_Done _ _ _ _ _ (put_modem_context_Done _ _ _ _ Ho)) in H.
  set (o1 := set_modem_context (Some (set_tries (guint_incr (tries c)) c)) o) in H.
  set (w1 := set_objects (<[modem_object := o1]> (objects w)) w) in H.
  apply (timestamps_kept_trans w w1 w').
  - apply (timestamps_kept_insert w w1 modem_object o o1 Ho); [|reflexivity].
    simpl. now rewrite Hc.
  - destruct (bool_decide _) in H; exact (modem_schedule_op_state_kept _ _ _ _ H).
Qed.

Lemma modem_context_cancel_op_kept c w c' w' :
  modem_context_cancel_op c w = Done c' w' ->
  timestamp c' = timestamp c /\ timestamps_kept w w'.
Proof.
  rewrite modem_context_cancel_op_eq. intros H. injection H as <- <-.
  split; [reflexivity|]. now apply timestamps_kept_objects.
Qed.

Lemma g_object_unref_kept modem_object w w' :
  g_object_unref modem_object w = Done tt w' -> timestamps_kept w w'.
Proof.
  intros H.
  destruct (objects w !! modem_object) as [o|] eqn:Ho;
    [|unfold g_object_unref, deref, bind in H; rewrite Ho in H; discriminate].
  destruct (decide (ref_count o = 1%positive)) as [Hrc|Hrc].
  - rewrite (g_object_unref_last w modem_object o Ho Hrc) in H. injection H as <-.
    apply (timestamps_kept_delete _ _ modem_object).
    destruct (modem_context o); reflexivity.
  - rewrite (g_object_unref_shared w modem_object o Ho Hrc) in H. injection H as <-.
    apply (timestamps_kept_insert w _ modem_object o
             (set_ref_count (Pos.pred (ref_count o)) o) Ho); reflexivity.
Qed.

Lemma ready_callback_kept kind finish_ok modem_object w w' :
  ready_callback kind finish_ok modem_object w = Done tt w' -> timestamps_kept w w'.
Proof.
  intros H.
  assert (exists w1,
             (if negb finish_ok
              then modem_schedule_retry_op_state modem_object
              else modem_schedule_op_state modem_object (ready_next_state kind)) w
             = Done tt w1 /\ g_object_unref modem_object w1 = Done tt w') as (w1 & H1 & H2).
  { destruct kind; simpl in H;
      unfold modem_disable_ready, set_power_state_low_ready, modem_enable_ready in H;
      apply bind_Done_inv in H as (x & w0 & Hget & H);
      [ apply get_modem_context_inv in Hget as (-> & _)
      | apply get_modem_context_inv in Hget as (-> & _)
      | unfold deref in Hget; destruct (objects w !! modem_object); [|discriminate];
        injection Hget as _ <- ];
      apply bind_Done_inv in H as ([] & w1 & H1 & H2); exists w1; now split. }
  eapply timestamps_kept_trans; [|exact (g_object_unref_kept _ _ _ H2)].
  destruct finish_ok; simpl in H1.
  - exact (modem_schedule_op_state_kept _ _ _ _ H1).
  - exact (modem_schedule_retry_op_state_kept _ _ _ H1).
Qed.

Lemma put_modem_context_inv modem_object c w w' :
  put_modem_context modem_object c w = Done tt w' ->
  exists o, objects w !! modem_object = Some o /\
            w' = set_objects (<[modem_object := set_modem_context (Some c) o]> (objects w)) w.
Proof.
  unfold put_modem_context, deref, bind, modify. intros H.
  destruct (objects w !! modem_object) as [o|]; [|discriminate].
  injection H as <-. eauto.
Qed.

Lemma mm_modem_call_kept kind k modem_object w w' :
  mm_modem_call kind k modem_object w = Done tt w' -> timestamps_kept w w'.
Proof.
  unfold mm_modem_call, g_object_ref, deref, bind, modify. intros H.
  destruct (objects w !! modem_object) as [o|] eqn:Ho; [|discriminate].
  injection H as <-.
  apply (timestamps_kept_insert w _ modem_object o
           (set_ref_count (Pos.succ (ref_count o)) o) Ho); reflexivity.
Qed.

Lemma modem_op_state_run_kept modem_object w r w' :
  modem_op_state_run modem_object w = Done r w' -> timestamps_kept w w'.
Proof.
  intros H. unfold modem_op_state_run in H.
  apply bind_Done_inv in H as (c & w0 & Hget & H).
  apply get_modem_context_inv in Hget as (-> & o & Ho & Hc).
  rewrite (bind_Done _ _ _ _ _ (put_modem_context_Done _ _ _ _ Ho)) in H.
  set (o1 := set_modem_context (Some (set_next_id 0%N c)) o) in H.
  set (w1 := set_objects (<[modem_object := o1]> (objects w)) w) in H.
  assert (timestamps_kept w w1) as K1.
  { apply (timestamps_kept_insert w w1 modem_object o o1 Ho); [|reflexivity].
    simpl. now rewrite Hc. }
  assert (objects w1 !! modem_object = Some o1) as Ho1 by apply lookup_insert_eq.
  apply bind_Done_inv in H as ([] & w2 & H & Hret).
  unfold ret in Hret. injection Hret as _ <-.
  apply (timestamps_kept_trans w w1 w2 K1).
  simpl in H. destruct (op_state c).
  - exact (modem_schedule_op_state_kept _ _ _ _ H).
  - exact (mm_modem_call_kept _ _ _ _ _ H).
  - exact (mm_modem_call_kept _ _ _ _ _ H).
  - exact (mm_modem_call_kept _ _ _ _ _ H).
  - unfold bind in H. rewrite modem_context_cancel_op_eq in H.
    apply put_modem_context_inv in H as (o2 & Ho2 & ->).
    assert (o2 = o1) as ->
      by (change (objects w1 !! modem_object = Some o2) in Ho2; congruence).
    apply (timestamps_kept_insert w1 _ modem_object o1
             (set_modem_context (Some (cancelled_ctx (set_next_id 0%N c))) o1) Ho1);
      reflexivity.
Qed.

Lemma reset_poll_modem_kept modem_object w w' :
  reset_poll_modem false modem_object w = Done tt w' -> timestamps_kept w w'.
Proof.
  intros H.
  assert (exists o c, objects w !! modem_object = Some o /\ modem_context o = Some c)
    as (o & c & Ho & Hc).
  { unfold reset_poll_modem in H. apply bind_Done_inv in H as (c & w0 & Hget & _).
    apply get_modem_context_inv in Hget as (_ & o & Ho & Hc). eauto. }
  destruct (decide (kick_due (monotonic_time w) c)) as [[Hts Hel]|Hno].
  - rewrite (reset_poll_modem_kick w modem_object o c Ho Hc Hts Hel) in H.
    injection H as <-.
    eapply (timestamps_kept_insert w _ modem_object o _ Ho); [|reflexivity].
    simpl. now rewrite Hc.
  - rewrite (reset_poll_modem_wait w modem_object o c Ho Hc Hno) in H.
    injection H as <-. apply timestamps_kept_refl.
Qed.

Lemma for_each_kept {A} (R : World -> World -> Prop) (body : A -> M unit) l :
  (forall w, R w w) ->
  (forall w1 w2 w3, R w1 w2 -> R w2 w3 -> R w1 w3) ->
  (forall x w w', x ∈ l -> body x w = Done tt w' -> R w w') ->
  forall w w', for_each body l w = Done tt w' -> R w w'.
Proof.
  intros Hrefl Htrans. induction l as [|x l IH]; intros Hbody w w' H; simpl in H.
  - unfold ret in H. injection H as <-. apply Hrefl.
  - apply bind_Done_inv in H as ([] & w1 & H1 & H2).
    apply (Htrans w w1 w').
    + apply (Hbody x); [now left | assumption].
    + apply IH; [|assumption]. intros y w0 w0' Hy. apply Hbody. now right.
Qed.

Lemma reset_poll_cb_kept w r w' :
  reset_poll_cb false w = Done r w' -> timestamps_kept w w'.
Proof.
  unfold reset_poll_cb, get. unfold bind at 1. intros H.
  apply bind_Done_inv in H as ([] & w1 & H & Hret).
  unfold ret in Hret. injection Hret as _ <-.
  revert H. apply for_each_kept.
  - apply timestamps_kept_refl.
  - apply timestamps_kept_trans.
  - intros x w0 w0' _. apply reset_poll_modem_kept.
Qed.

(** An idle or denied report leaves a non-zero timestamp alone. *)
Lemma modem_registration_changed_onsets i modem_object w w' :
  idle_or_denied (registration_state i) = true ->
  modem_registration_changed i modem_object w = Done tt w' ->
  onsets_kept w w'.
Proof.
  intros Hs H.
  assert (exists o c, objects w !! modem_object = Some o /\ modem_context o = Some c)
    as (o & c & Ho & Hc).
  { unfold modem_registration_changed in H. apply bind_Done_inv in H as (c & w0 & Hget & _).
    apply get_modem_context_inv in Hget as (_ & o & Ho & Hc). eauto. }
  destruct (modem_registration_changed_Done i modem_object w o c Ho Hc)
    as (w1 & R & _ & _ & _ & _ & _ & Hframe & Ho1).
  rewrite R in H. injection H as <-.
  intros x o' Ho'. destruct (decide (x = modem_object)) as [->|Hne].
  - exists o. split; [assumption|]. intros c0 Hc0 Hts.
    assert (c0 = c) as -> by congruence.
    rewrite Ho1 in Ho'. injection Ho' as <-. simpl. eexists. split; [reflexivity|].
    simpl. unfold stamp. rewrite Hs. now rewrite bool_decide_eq_false_2.
  - rewrite Hframe in Ho' by assumption. exists o'. split; [assumption|]. eauto.
Qed.

Lemma dispatch_onsets_kept ev w w' :
  stays_stuck_event ev ->
  dispatch false ev w = Done tt w' ->
  onsets_kept w w'.
Proof.
  intros Hev H. unfold dispatch, get in H. unfold bind at 1 in H.
  destruct ev as [now| | |modem_object s|id|n ok|]; simpl in Hev; try contradiction.
  - (* the clock *)
    unfold modify in H. injection H as <-.
    apply timestamps_kept_onsets. now apply timestamps_kept_objects.
  - (* an idle or denied report *)
    destruct (objects w !! modem_object) as [o|] eqn:Ho;
      [|unfold ret in H; injection H as <-; apply onsets_kept_refl].
    destruct (modem_3gpp_iface o) as [i|] eqn:Hi;
      [|unfold ret in H; injection H as <-; apply onsets_kept_refl].
    unfold bind at 1, modify at 1 in H.
    set (o1 := set_modem_3gpp_iface _ o) in H.
    set (w1 := set_objects _ w) in H.
    apply (onsets_kept_trans w w1 w').
    + apply timestamps_kept_onsets.
      apply (timestamps_kept_insert w w1 modem_object o o1 Ho); reflexivity.
    + revert H. apply for_each_kept.
      * apply onsets_kept_refl.
      * apply onsets_kept_trans.
      * intros h w0 w0' _. now apply modem_registration_changed_onsets.
  - (* a timer *)
    apply timestamps_kept_onsets.
    destruct (sources w !! id) as [modem_object|];
      [|unfold ret in H; injection H as <-; apply timestamps_kept_refl].
    apply bind_Done_inv in H as (r & w1 & H1 & H2).
    apply (timestamps_kept_trans w w1 w'); [exact (modem_op_state_run_kept _ _ _ _ H1)|].
    destruct r; [unfold ret in H2|unfold g_source_remove, modify in H2];
      injection H2 as <-; now apply timestamps_kept_objects.
  - (* an answer *)
    apply timestamps_kept_onsets.
    destruct (pending_calls w !! n) as [call|];
      [|unfold ret in H; injection H as <-; apply timestamps_kept_refl].
    unfold bind at 1, modify at 1 in H.
    set (w1 := set_pending_calls _ w) in H.
    apply (timestamps_kept_trans w w1 w'); [now apply timestamps_kept_objects|].
    exact (ready_callback_kept _ _ _ _ _ H).
  - (* a sweep *)
    apply timestamps_kept_onsets.
    apply bind_Done_inv in H as (r & w1 & H1 & H2).
    unfold ret in H2. injection H2 as <-.
    exact (reset_poll_cb_kept _ _ _ H1).
Qed.

Lemma run_events_onsets_kept evs w w' :
  Forall stays_stuck_event evs ->
  run_events false evs w = Done tt w' ->
  onsets_kept w w'.
Proof.
  intros Hevs. unfold run_events. apply for_each_kept.
  - apply onsets_kept_refl.
  - apply onsets_kept_trans.
  - intros ev w0 w0' Hin. apply dispatch_onsets_kept.
    rewrite Forall_forall in Hevs. now apply Hevs.
Qed.

(** Without overflow, a modem that is due stays due as time passes. *)
Lemma kick_due_later now now' c c' :
  timestamp c' = timestamp c ->
  0 <= timestamp c <= now ->
  now <= now' < 2 ^ 63 ->
  kick_due now c -> kick_due now' c'.
Proof.
  intros E Hts Hnow [Hnz Hel]. unfold kick_due. rewrite E. split; [assumption|].
  unfold gint64_sub, gint64_wrap in *.
  change (2 ^ 63) with 9223372036854775808 in *.
  change (2 ^ 64) with 18446744073709551616 in *.
  rewrite Z.mod_small in Hel by lia. rewrite Z.mod_small by lia. lia.
Qed.

(** C10.  Whatever returns from the operations of the kick state machine
    (cancelling, scheduling, retrying, the three callbacks, running a
    step) and from the loop body of the sweep in the production build, every
    surviving context has the timestamp it had.  Hence over a run of the main
    loop in which time passes, timers come due, requests are answered, sweeps
    run and modems report idle or denied, a non-zero timestamp stays what it
    was, and a modem that was due for a kick is due again at any later
    time. *)
Theorem kick_machine_keeps_timestamp :
  (forall c w c' w',
      modem_context_cancel_op c w = Done c' w' ->
      timestamp c' = timestamp c /\ timestamps_kept w w') /\
  (forall modem_object st w w',
      modem_schedule_op_state modem_object st w = Done tt w' -> timestamps_kept w w') /\
  (forall modem_object w w',
      modem_schedule_retry_op_state modem_object w = Done tt w' -> timestamps_kept w w') /\
  (forall kind finish_ok modem_object w w',
      ready_callback kind finish_ok modem_object w = Done tt w' -> timestamps_kept w w') /\
  (forall modem_object w r w',
      modem_op_state_run modem_object w = Done r w' -> timestamps_kept w w') /\
  (forall modem_object w w',
      reset_poll_modem false modem_object w = Done tt w' -> timestamps_kept w w') /\
  (forall evs w w' modem_object c,
      Forall stays_stuck_event evs ->
      run_events false evs w = Done tt w' ->
      ctx_of w modem_object = Some c ->
      timestamp c <> 0 ->
      is_Some (objects w' !! modem_object) ->
      exists c',
        ctx_of w' modem_object = Some c' /\
        timestamp c' = timestamp c /\
        (kick_due (monotonic_time w) c ->
         0 <= timestamp c <= monotonic_time w ->
         monotonic_time w <= monotonic_time w' < 2 ^ 63 ->
         kick_due (monotonic_time w') c')).
Proof.
  split; [exact modem_context_cancel_op_kept|].
  split; [exact modem_schedule_op_state_kept|].
  split; [exact modem_schedule_retry_op_state_kept|].
  split; [exact ready_callback_kept|].
  split; [exact modem_op_state_run_kept|].
  split; [exact reset_poll_modem_kept|].
  intros evs w w' modem_object c Hevs Hrun Hc Hts [o' Ho'].
  destruct (run_events_onsets_kept evs w w' Hevs Hrun modem_object o' Ho') as (o & Ho & Hk).
  unfold ctx_of in Hc. rewrite Ho in Hc.
  destruct (Hk c Hc Hts) as (c' & Hc' & E).
  exists c'. unfold ctx_of. rewrite Ho'. split; [assumption|]. split; [assumption|].
  intros Hdue Hrange Hlater. exact (kick_due_later _ _ c c' E Hrange Hlater Hdue).
Qed.

(** ** Removal of a modem *)

Lemma handle_object_removed_absent w modem_object o :
  objects w !! modem_object = Some o ->
  modems w !! object_path o = None ->
  handle_object_removed modem_object w = Done tt w.
Proof.
  intros Ho Hp. unfold handle_object_removed, deref, g_hash_table_remove, get, bind.
  now rewrite Ho, Hp.
Qed.

Lemma handle_object_removed_present w modem_object o :
  objects w !! modem_object = Some o ->
  modems w !! object_path o = Some modem_object ->
  handle_object_removed modem_object w =
    g_object_unref modem_object (set_modems (delete (object_path o) (modems w)) w).
Proof.
  intros Ho Hp. unfold handle_object_removed, deref, g_hash_table_remove, get.
  unfold bind at 1. rewrite Ho. unfold bind at 1. rewrite Hp. reflexivity.
Qed.

(** Removal when the table and the manager hold the only references. *)
Lemma removal_finalizes DEBUG w modem_object o c :
  objects w !! modem_object = Some o ->
  modem_context o = Some c ->
  modems w !! object_path o = Some modem_object ->
  ref_count o = 2%positive ->
  dispatch DEBUG (EV_OBJECT_REMOVED modem_object) w =
    Done tt (set_objects (delete modem_object (objects w))
               (cancel_effect c (set_modems (delete (object_path o) (modems w)) w))).
Proof.
  intros Ho Hc Hp Hrc. unfold dispatch, get. unfold bind at 1. rewrite Ho.
  set (w0 := set_modems (delete (object_path o) (modems w)) w).
  set (o1 := set_ref_count (Pos.pred (ref_count o)) o).
  set (w1 := set_objects (<[modem_object := o1]> (objects w0)) w0).
  assert (handle_object_removed modem_object w = Done tt w1) as R1.
  { rewrite (handle_object_removed_present w modem_object o Ho Hp).
    apply (g_object_unref_shared w0 modem_object o Ho). rewrite Hrc. discriminate. }
  rewrite (bind_Done _ _ _ _ _ R1).
  assert (objects w1 !! modem_object = Some o1) as Ho1 by apply lookup_insert_eq.
  rewrite (g_object_unref_last w1 modem_object o1 Ho1 ltac:(unfold o1; simpl; now rewrite Hrc)).
  unfold o1 at 1. simpl. rewrite Hc. unfold w1. simpl.
  now rewrite delete_insert_eq.
Qed.

(** Removal while a request holds a third reference: the object stays, and
    so does its operation. *)
Lemma removal_deferred DEBUG w modem_object o :
  objects w !! modem_object = Some o ->
  modems w !! object_path o = Some modem_object ->
  ref_count o = 3%positive ->
  dispatch DEBUG (EV_OBJECT_REMOVED modem_object) w =
    Done tt (set_objects (<[modem_object := set_ref_count 1%positive o]> (objects w))
               (set_modems (delete (object_path o) (modems w)) w)).
Proof.
  intros Ho Hp Hrc. unfold dispatch, get. unfold bind at 1. rewrite Ho.
  set (w0 := set_modems (delete (object_path o) (modems w)) w).
  set (o1 := set_ref_count (Pos.pred (ref_count o)) o).
  set (w1 := set_objects (<[modem_object := o1]> (objects w0)) w0).
  assert (handle_object_removed modem_object w = Done tt w1) as R1.
  { rewrite (handle_object_removed_present w modem_object o Ho Hp).
    apply (g_object_unref_shared w0 modem_object o Ho). rewrite Hrc. discriminate. }
  rewrite (bind_Done _ _ _ _ _ R1).
  assert (objects w1 !! modem_object = Some o1) as Ho1 by apply lookup_insert_eq.
  rewrite (g_object_unref_shared w1 modem_object o1 Ho1
             ltac:(unfold o1; simpl; rewrite Hrc; discriminate)).
  unfold w1, o1. simpl. rewrite insert_insert_eq, Hrc. reflexivity.
Qed.

(** The callback of a request whose reference is the last one. *)
Lemma callback_finalizes DEBUG w modem_object o c kind rest ok :
  objects w !! modem_object = Some o ->
  modem_context o = Some c ->
  next_id c = 0%N ->
  ref_count o = 1%positive ->
  pending_calls w = mkCall kind modem_object (cancellable c) :: rest ->
  exists w',
    dispatch DEBUG (EV_CALL_FINISHED 0 ok) w = Done tt w' /\
    objects w' = delete modem_object (objects w) /\
    modems w' = modems w /\
    sources w' = delete (Npos (next_source w)) (sources w) /\
    (forall k, cancellable c = Some k -> k ∈ cancelled w') /\
    pending_calls w' = rest.
Proof.
  intros Ho Hc Hn Hrc Hcalls.
  unfold dispatch, get. unfold bind at 1. rewrite Hcalls. simpl.
  unfold bind at 1, modify at 1.
  set (w0 := set_pending_calls rest w).
  set (fin := finish_result _ ok w).
  rewrite (ready_callback_eq kind fin w0 modem_object o c Ho Hc Hn).
  set (c2 := if fin then _ else _).
  set (w1 := arm modem_object o c2 w0).
  set (o1 := set_modem_context (Some (set_next_id (Npos (next_source w)) c2)) o).
  assert (objects w1 !! modem_object = Some o1) as Ho1 by apply lookup_insert_eq.
  rewrite (g_object_unref_last w1 modem_object o1 Ho1 Hrc).
  eexists. split; [reflexivity|]. simpl.
  split; [now rewrite delete_insert_eq|]. split; [reflexivity|].
  split; [now rewrite delete_insert_eq|]. split; [|reflexivity].
  intros k Hk. assert (cancellable c2 = Some k) as ->
      by (unfold c2; destruct fin; exact Hk).
  apply elem_of_union; left. now apply elem_of_singleton.
Qed.

(** C8 as the specification states it fails when the modem is removed while
    the disable request of its kick is in flight: the request holds a
    reference of its own, the object is not finalized, and the token of the
    kick is not cancelled. *)
Lemma removal_during_request_keeps_kick :
  ~ removal_cancels_kick false w_request 1%positive.
Proof.
  intros H.
  destruct (H modem0_request ctx_request
              (world_after (dispatch false (EV_OBJECT_REMOVED 1%positive) w_request)))
    as (_ & Hcancelled & _ & Hreleased).
  - vm_compute. reflexivity.
  - reflexivity.
  - vm_compute. reflexivity.
  - discriminate.
  - vm_compute. reflexivity.
  - specialize (Hcancelled 1%positive eq_refl).
    apply (bool_decide_eq_true_2 _) in Hcancelled.
    vm_compute in Hcancelled. discriminate.
Qed.

(** C8, amended.  Removing a modem erases its entry (and does nothing for a
    path that has none) and drops the table's reference.  When the table and
    the manager held the only references, the object is finalized: its
    context is freed, the token of its kick is cancelled and its timer is
    removed, so that the timer coming due afterwards changes nothing.  When a
    request of the kick is in flight, the object and its operation stay as
    they were until the callback of that request has run and released the last
    reference; the entry stays erased. *)
Theorem removal_cancels_kick_with_last_reference DEBUG w modem_object o c :
  objects w !! modem_object = Some o ->
  modem_context o = Some c ->
  (modems w !! object_path o = None ->
   handle_object_removed modem_object w = Done tt w) /\
  (modems w !! object_path o = Some modem_object ->
   ref_count o = 2%positive ->
   exists w',
     dispatch DEBUG (EV_OBJECT_REMOVED modem_object) w = Done tt w' /\
     modems w' = delete (object_path o) (modems w) /\
     objects w' = delete modem_object (objects w) /\
     (forall k, cancellable c = Some k -> k ∈ cancelled w') /\
     (next_id c <> 0%N ->
      sources w' = delete (next_id c) (sources w) /\
      dispatch DEBUG (EV_TIMEOUT (next_id c)) w' = Done tt w')) /\
  (modems w !! object_path o = Some modem_object ->
   ref_count o = 3%positive ->
   next_id c = 0%N ->
   forall kind rest ok,
     pending_calls w = mkCall kind modem_object (cancellable c) :: rest ->
     exists w' w'',
       dispatch DEBUG (EV_OBJECT_REMOVED modem_object) w = Done tt w' /\
       modems w' = delete (object_path o) (modems w) /\
       ctx_of w' modem_object = Some c /\
       cancelled w' = cancelled w /\
       sources w' = sources w /\
       pending_calls w' = pending_calls w /\
       dispatch DEBUG (EV_CALL_FINISHED 0 ok) w' = Done tt w'' /\
       objects w'' = delete modem_object (objects w) /\
       modems w'' = delete (object_path o) (modems w) /\
       (forall k, cancellable c = Some k -> k ∈ cancelled w'') /\
       sources w'' = delete (Npos (next_source w)) (sources w)).
Proof.
  intros Ho Hc. split; [|split].
  - apply handle_object_removed_absent. exact Ho.
  - intros Hp Hrc. eexists. split; [exact (removal_finalizes DEBUG w _ o c Ho Hc Hp Hrc)|].
    simpl. split; [reflexivity|]. split; [reflexivity|]. split.
    + intros k ->. apply elem_of_union; left. now apply elem_of_singleton.
    + intros Hn. rewrite bool_decide_eq_true_2 by exact Hn. split; [reflexivity|].
      unfold dispatch, get, bind. simpl.
      rewrite bool_decide_eq_true_2 by exact Hn. now rewrite lookup_delete_eq.
  - intros Hp Hrc Hn kind rest ok Hcalls.
    set (o1 := set_ref_count 1%positive o).
    set (w1 := set_objects (<[modem_object := o1]> (objects w))
                 (set_modems (delete (object_path o) (modems w)) w)).
    assert (objects w1 !! modem_object = Some o1) as Ho1 by apply lookup_insert_eq.
    destruct (callback_finalizes DEBUG w1 modem_object o1 c kind rest ok Ho1 Hc Hn eq_refl Hcalls)
      as (w2 & R2 & Hobjs & Hmods & Hsrcs & Hcan & _).
    exists w1, w2. split; [exact (removal_deferred DEBUG w _ o Ho Hp Hrc)|].
    split; [reflexivity|].
    split; [unfold ctx_of; rewrite Ho1; exact Hc|].
    repeat (split; [reflexivity|]).
    split; [exact R2|].
    split; [rewrite Hobjs; unfold w1; simpl; now rewrite delete_insert_eq|].
    split; [exact Hmods|]. split; [exact Hcan | exact Hsrcs].
Qed.

(** ** Cancelled requests *)

(** C3 at its failing input.  After [restart_trace] the disable request of
    the first kick is in flight with a cancelled token, and a second kick is
    armed.  The callback of that request is no no-op: run at once it stops the
    process on the assertion of [modem_schedule_op_state]; run after the timer
    of the second kick it counts a failure against the second kick and arms a
    timer for it. *)
Theorem cancelled_request_callback_acts :
  run_events false restart_trace w_plugged = Done tt w_restarted /\
  (exists rest,
      pending_calls w_restarted = mkCall CALL_DISABLE 1%positive (Some 1%positive) :: rest /\
      is_cancelled (Some 1%positive) w_restarted = true) /\
  (tries <$> ctx_of w_restarted 1%positive = Some 0%N) /\
  (forall ok, dispatch false (EV_CALL_FINISHED 0 ok) w_restarted = Crash ASSERTION_FAILED) /\
  (forall ok,
      exists w2 w3,
        run_events false [EV_TIME (seconds 1210); EV_TIMEOUT 2%N] w_restarted = Done tt w2 /\
        (pending_calls w2 !! 1%nat = Some (mkCall CALL_DISABLE 1%positive (Some 1%positive))) /\
        (next_id <$> ctx_of w2 1%positive = Some 0%N) /\
        (tries <$> ctx_of w2 1%positive = Some 0%N) /\
        dispatch false (EV_CALL_FINISHED 1 ok) w2 = Done tt w3 /\
        (tries <$> ctx_of w3 1%positive = Some 1%N) /\
        (next_id <$> ctx_of w3 1%positive = Some 3%N) /\
        sources w3 !! 3%N = Some 1%positive).
Proof.
  split; [vm_compute; reflexivity|].
  split; [eexists; split; vm_compute; reflexivity|].
  split; [vm_compute; reflexivity|].
  split; [intros []; vm_compute; reflexivity|].
  intros ok.
  exists (world_after (run_events false [EV_TIME (seconds 1210); EV_TIMEOUT 2%N] w_restarted)).
  exists (world_after
            (run_events false [EV_TIME (seconds 1210); EV_TIMEOUT 2%N; EV_CALL_FINISHED 1 ok]
                        w_restarted)).
  destruct ok; (repeat (split; [vm_compute; reflexivity|])); vm_compute; reflexivity.
Qed.

(** ** One timer at a time *)

(** C7 at its failing input.  In [restart_trace] (production build) and in
    [restart_trace_debug] (debug build) a sweep restarts the kick of a modem
    while the disable request of its previous kick is in flight.  When that
    request finishes, whatever the service answered, its callback reaches
    [modem_schedule_op_state] with the timer of the new kick pending, and the
    assertion [next_id == 0] fails. *)
Theorem one_timer_assertion_fails :
  forall ok,
    run_events false (restart_trace ++ [EV_CALL_FINISHED 0 ok]) w_plugged
      = Crash ASSERTION_FAILED /\
    run_events true (restart_trace_debug ++ [EV_CALL_FINISHED 0 ok]) w_plugged
      = Crash ASSERTION_FAILED /\
    (exists w, run_events false restart_trace w_plugged = Done tt w /\
               next_id <$> ctx_of w 1%positive = Some 2%N /\
               sources w !! 2%N = Some 1%positive) /\
    (exists w, run_events true restart_trace_debug w_plugged = Done tt w /\
               next_id <$> ctx_of w 1%positive = Some 2%N /\
               sources w !! 2%N = Some 1%positive).
Proof.
  intros ok. split; [destruct ok; vm_compute; reflexivity|].
  split; [destruct ok; vm_compute; reflexivity|].
  split.
  - exists w_restarted. (repeat (split; [vm_compute; reflexivity|])); vm_compute; reflexivity.
  - exists (world_after (run_events true restart_trace_debug w_plugged)).
    (repeat (split; [vm_compute; reflexivity|])); vm_compute; reflexivity.
Qed.

(** ** The theorems at the example runs *)

Lemma w_tracked_run :
  run_events false [EV_TIME (seconds 1); EV_OBJECT_ADDED 1%positive] w_plugged
    = Done tt w_tracked.
Proof. vm_compute. reflexivity. Qed.

Lemma w_tracked_modems (t : Z) :
  modems (set_monotonic_time t w_tracked)
    = {[ "/org/freedesktop/ModemManager1/Modem/0" := 1%positive ]}.
Proof. vm_compute. reflexivity. Qed.

Lemma w_tracked_object (t : Z) :
  objects (set_monotonic_time t w_tracked) !! 1%positive = Some modem0_tracked.
Proof. vm_compute. reflexivity. Qed.

Lemma w_tracked_registry_live (t : Z) :
  registry_live (set_monotonic_time t w_tracked).
Proof.
  intros p x Hp. rewrite w_tracked_modems in Hp.
  apply lookup_singleton_Some in Hp as [_ <-].
  exists modem0_tracked, ctx_tracked. split; [apply w_tracked_object | reflexivity].
Qed.

Lemma w_due_eq : w_due = set_monotonic_time (seconds 900) w_tracked.
Proof. vm_compute. reflexivity. Qed.

Lemma w_armed_eq :
  w_armed = kick_started 1%positive modem0_tracked ctx_tracked w_due.
Proof. vm_compute. reflexivity. Qed.

Lemma w_armed_armed :
  armed w_armed 1%positive MODEM_OP_STATE_DISABLE 0%N 1%N.
Proof.
  rewrite w_armed_eq.
  apply (kick_started_armed w_due 1%positive modem0_tracked ctx_tracked).
  - vm_compute. reflexivity.
  - intros id H. vm_compute in H. discriminate.
  - intros H. apply (bool_decide_eq_true_2 _) in H. vm_compute in H. discriminate.
  - intros k H. discriminate H.
Qed.

Lemma retry_budget_is_per_operation_witness :
  armed w_armed 1%positive MODEM_OP_STATE_DISABLE 0%N 1%N /\
  failures [false; true; false; false] = 3%nat /\
  (successes [false; true; false; false] <= 2)%nat /\
  exists w' t' w'',
    run_outcomes false 1%positive ([false; true; false; false] ++ [false]) w_armed
      = Done tt w' /\
    armed w' 1%positive MODEM_OP_STATE_FINISH 4%N t' /\
    dispatch false (EV_TIMEOUT t') w' = Done tt w'' /\
    released w'' 1%positive.
Proof.
  split; [exact w_armed_armed|].
  split; [reflexivity|].
  split; [simpl; lia|].
  apply (proj2 (retry_budget_is_per_operation false w_armed 1%positive 1%N w_armed_armed)
               [false; true; false; false]).
  - reflexivity.
  - simpl. lia.
Defined.

Lemma stuck_timestamp_iff_idle_or_denied_witness :
  tracked w_tracked 1%positive ctx_tracked /\
  seconds 50 <> 0 /\
  exists w1 c1 w' c',
    run_events false
      (notifications 1%positive
         [(seconds 20, MM_MODEM_3GPP_REGISTRATION_STATE_SEARCHING);
          (seconds 30, MM_MODEM_3GPP_REGISTRATION_STATE_HOME)]) w_tracked = Done tt w1 /\
    tracked w1 1%positive c1 /\
    run_events false
      (notifications 1%positive
         ([(seconds 20, MM_MODEM_3GPP_REGISTRATION_STATE_SEARCHING);
           (seconds 30, MM_MODEM_3GPP_REGISTRATION_STATE_HOME)]
            ++ [(seconds 50, MM_MODEM_3GPP_REGISTRATION_STATE_DENIED)])) w_tracked
      = Done tt w' /\
    tracked w' 1%positive c' /\
    (timestamp c' <> 0 <-> idle_or_denied MM_MODEM_3GPP_REGISTRATION_STATE_DENIED = true) /\
    (idle_or_denied MM_MODEM_3GPP_REGISTRATION_STATE_DENIED = true ->
     timestamp c1 <> 0 -> timestamp c' = timestamp c1) /\
    (idle_or_denied MM_MODEM_3GPP_REGISTRATION_STATE_DENIED = false -> timestamp c' = 0).
Proof.
  assert (tracked w_tracked 1%positive ctx_tracked) as Htr.
  { exists modem0_tracked, (mkMMModem3gpp MM_MODEM_3GPP_REGISTRATION_STATE_IDLE [1%N]).
    split; [vm_compute; reflexivity|]. split; [reflexivity|].
    split; [discriminate | reflexivity]. }
  assert (seconds 50 <> 0) as Hnow by (vm_compute; discriminate).
  split; [exact Htr|]. split; [exact Hnow|].
  exact (stuck_timestamp_iff_idle_or_denied false w_tracked 1%positive ctx_tracked
           [(seconds 20, MM_MODEM_3GPP_REGISTRATION_STATE_SEARCHING);
            (seconds 30, MM_MODEM_3GPP_REGISTRATION_STATE_HOME)]
           (seconds 50) MM_MODEM_3GPP_REGISTRATION_STATE_DENIED Htr Hnow).
Defined.

Lemma kick_steps_in_order_witness :
  armed w_armed 1%positive MODEM_OP_STATE_DISABLE 0%N 1%N /\
  exists w1 w2 t2 w3 w4 t4 w5 w6 t6 w7,
    dispatch false (EV_TIMEOUT 1%N) w_armed = Done tt w1 /\
    calling w1 1%positive MODEM_OP_STATE_DISABLE 0%N CALL_DISABLE /\
    dispatch false (EV_CALL_FINISHED 0 true) w1 = Done tt w2 /\
    armed w2 1%positive MODEM_OP_STATE_LOW_POWER 0%N t2 /\
    dispatch false (EV_TIMEOUT t2) w2 = Done tt w3 /\
    calling w3 1%positive MODEM_OP_STATE_LOW_POWER 0%N CALL_SET_POWER_STATE_LOW /\
    dispatch false (EV_CALL_FINISHED 0 true) w3 = Done tt w4 /\
    armed w4 1%positive MODEM_OP_STATE_ENABLE 0%N t4 /\
    dispatch false (EV_TIMEOUT t4) w4 = Done tt w5 /\
    calling w5 1%positive MODEM_OP_STATE_ENABLE 0%N CALL_ENABLE /\
    dispatch false (EV_CALL_FINISHED 0 true) w5 = Done tt w6 /\
    armed w6 1%positive MODEM_OP_STATE_FINISH 0%N t6 /\
    dispatch false (EV_TIMEOUT t6) w6 = Done tt w7 /\
    released w7 1%positive /\
    pending_calls w7 = pending_calls w6 /\
    pending_calls w7 = pending_calls w_armed.
Proof.
  split; [exact w_armed_armed|].
  exact (kick_steps_in_order false w_armed 1%positive 0%N 1%N w_armed_armed).
Defined.

Lemma kick_threshold_is_strict_witness :
  (registry_live w_threshold /\
   modems w_threshold !! "/org/freedesktop/ModemManager1/Modem/0" = Some 1%positive /\
   objects w_threshold !! 1%positive = Some modem0_tracked /\
   modem_context modem0_tracked = Some ctx_tracked /\
   timestamp ctx_tracked <> 0 /\
   gint64_sub (monotonic_time w_threshold) (timestamp ctx_tracked)
     = KICK_INTERVAL_SECONDS false * G_USEC_PER_SEC /\
   reset_poll_modem false 1%positive w_threshold = Done tt w_threshold /\
   exists w', reset_poll_cb false w_threshold = Done G_SOURCE_CONTINUE w' /\
              ctx_of w' 1%positive = Some ctx_tracked) /\
  (registry_live w_past_threshold /\
   modems w_past_threshold !! "/org/freedesktop/ModemManager1/Modem/0" = Some 1%positive /\
   objects w_past_threshold !! 1%positive = Some modem0_tracked /\
   gint64_sub (monotonic_time w_past_threshold) (timestamp ctx_tracked)
     = KICK_INTERVAL_SECONDS false * G_USEC_PER_SEC + 1 /\
   reset_poll_modem false 1%positive w_past_threshold
     = Done tt (kick_started 1%positive modem0_tracked ctx_tracked w_past_threshold) /\
   exists w' k t, reset_poll_cb false w_past_threshold = Done G_SOURCE_CONTINUE w' /\
                  t <> 0%N /\
                  ctx_of w' 1%positive = Some (started_ctx ctx_tracked k t)).
Proof.
  assert (timestamp ctx_tracked <> 0) as Hts by (vm_compute; discriminate).
  assert (forall t, modems (set_monotonic_time t w_tracked)
                      !! "/org/freedesktop/ModemManager1/Modem/0" = Some 1%positive) as Hp
    by (intros t; vm_compute; reflexivity).
  split.
  - assert (gint64_sub (monotonic_time w_threshold) (timestamp ctx_tracked)
            = KICK_INTERVAL_SECONDS false * G_USEC_PER_SEC) as Hel by (vm_compute; reflexivity).
    split; [apply w_tracked_registry_live|]. split; [apply Hp|].
    split; [apply w_tracked_object|]. split; [reflexivity|].
    split; [exact Hts|]. split; [exact Hel|].
    exact (proj1 (kick_threshold_is_strict w_threshold _ 1%positive modem0_tracked ctx_tracked
                    (w_tracked_registry_live _) (Hp _) (w_tracked_object _) eq_refl Hts) Hel).
  - assert (gint64_sub (monotonic_time w_past_threshold) (timestamp ctx_tracked)
            = KICK_INTERVAL_SECONDS false * G_USEC_PER_SEC + 1) as Hel
      by (vm_compute; reflexivity).
    split; [apply w_tracked_registry_live|]. split; [apply Hp|].
    split; [apply w_tracked_object|]. split; [exact Hel|].
    exact (proj2 (kick_threshold_is_strict w_past_threshold _ 1%positive modem0_tracked
                    ctx_tracked (w_tracked_registry_live _) (Hp _) (w_tracked_object _)
                    eq_refl Hts) Hel).
Defined.

Lemma sweep_restarts_kick_witness :
  objects w_due !! 1%positive = Some modem0_tracked /\
  modem_context modem0_tracked = Some ctx_tracked /\
  kick_due (monotonic_time w_due) ctx_tracked /\
  reset_poll_modem false 1%positive w_due = Done tt w_armed /\
  pending_calls w_armed = pending_calls w_due /\
  ctx_of w_armed 1%positive = Some (started_ctx ctx_tracked 1%positive 1%N).
Proof.
  assert (objects w_due !! 1%positive = Some modem0_tracked) as Ho
    by (vm_compute; reflexivity).
  assert (kick_due (monotonic_time w_due) ctx_tracked) as Hdue
    by (split; vm_compute; [discriminate | reflexivity]).
  destruct (sweep_restarts_kick w_due 1%positive modem0_tracked ctx_tracked Ho eq_refl Hdue)
    as (Hrun & Hctx & _ & _ & _ & _ & Hcalls & _).
  rewrite <- w_armed_eq in Hrun, Hctx, Hcalls.
  split; [exact Ho|]. split; [reflexivity|]. split; [exact Hdue|].
  split; [exact Hrun|]. split; [exact Hcalls | exact Hctx].
Defined.

Lemma removal_cancels_kick_with_last_reference_witness :
  (objects w_armed !! 1%positive = Some modem0_armed /\
   modem_context modem0_armed = Some ctx_armed /\
   modems w_armed !! object_path modem0_armed = Some 1%positive /\
   ref_count modem0_armed = 2%positive /\
   next_id ctx_armed <> 0%N /\
   exists w',
     dispatch false (EV_OBJECT_REMOVED 1%positive) w_armed = Done tt w' /\
     modems w' = delete (object_path modem0_armed) (modems w_armed) /\
     objects w' = delete 1%positive (objects w_armed) /\
     (forall k, cancellable ctx_armed = Some k -> k ∈ cancelled w') /\
     sources w' = delete (next_id ctx_armed) (sources w_armed) /\
     dispatch false (EV_TIMEOUT (next_id ctx_armed)) w' = Done tt w') /\
  (objects w_request !! 1%positive = Some modem0_request /\
   modem_context modem0_request = Some ctx_request /\
   modems w_request !! object_path modem0_request = Some 1%positive /\
   ref_count modem0_request = 3%positive /\
   next_id ctx_request = 0%N /\
   pending_calls w_request = [mkCall CALL_DISABLE 1%positive (cancellable ctx_request)] /\
   exists w' w'',
     dispatch false (EV_OBJECT_REMOVED 1%positive) w_request = Done tt w' /\
     ctx_of w' 1%positive = Some ctx_request /\
     cancelled w' = cancelled w_request /\
     dispatch false (EV_CALL_FINISHED 0 false) w' = Done tt w'' /\
     objects w'' = delete 1%positive (objects w_request) /\
     modems w'' = delete (object_path modem0_request) (modems w_request) /\
     (forall k, cancellable ctx_request = Some k -> k ∈ cancelled w'')).
Proof.
  split.
  - assert (objects w_armed !! 1%positive = Some modem0_armed) as Ho
      by (vm_compute; reflexivity).
    assert (modems w_armed !! object_path modem0_armed = Some 1%positive) as Hp
      by (vm_compute; reflexivity).
    assert (next_id ctx_armed <> 0%N) as Hn by discriminate.
    split; [exact Ho|]. split; [reflexivity|]. split; [exact Hp|].
    split; [reflexivity|]. split; [exact Hn|].
    destruct (proj1 (proj2 (removal_cancels_kick_with_last_reference
                              false w_armed 1%positive modem0_armed ctx_armed Ho eq_refl))
                    Hp eq_refl)
      as (w' & R & Hm & Hobj & Hk & Ht).
    destruct (Ht Hn) as [Hs Hfire].
    exists w'. split; [exact R|]. split; [exact Hm|]. split; [exact Hobj|].
    split; [exact Hk|]. split; [exact Hs | exact Hfire].
  - assert (objects w_request !! 1%positive = Some modem0_request) as Ho
      by (vm_compute; reflexivity).
    assert (modems w_request !! object_path modem0_request = Some 1%positive) as Hp
      by (vm_compute; reflexivity).
    assert (pending_calls w_request
            = [mkCall CALL_DISABLE 1%positive (cancellable ctx_request)]) as Hcalls
      by (vm_compute; reflexivity).
    split; [exact Ho|]. split; [reflexivity|]. split; [exact Hp|].
    split; [reflexivity|]. split; [reflexivity|]. split; [exact Hcalls|].
    destruct (proj2 (proj2 (removal_cancels_kick_with_last_reference
                              false w_request 1%positive modem0_request ctx_request
                              Ho eq_refl))
                    Hp eq_refl eq_refl CALL_DISABLE [] false Hcalls)
      as (w' & w'' & R & _ & Hctx & Hcan & _ & _ & R2 & Hobj & Hm & Hk & _).
    exists w', w''. split; [exact R|]. split; [exact Hctx|]. split; [exact Hcan|].
    split; [exact R2|]. split; [exact Hobj|]. split; [exact Hm | exact Hk].
Defined.

Lemma only_eligible_modems_are_tracked_witness :
  (objects w_plugged !! 2%positive = Some modem_no_port /\
   (exists m, modem_iface modem_no_port = Some m /\ primary_port m = None) /\
   handle_object_added 2%positive w_plugged = Done tt w_plugged) /\
  (objects w_plugged !! 1%positive = Some modem0 /\
   modem_iface modem0 = Some (mkMMModem (Some "ttyUSB2")) /\
   primary_port (mkMMModem (Some "ttyUSB2")) = Some "ttyUSB2" /\
   modem_3gpp_iface modem0
     = Some (mkMMModem3gpp MM_MODEM_3GPP_REGISTRATION_STATE_IDLE []) /\
   (forall old, modems w_plugged !! object_path modem0 = Some old ->
                is_Some (objects w_plugged !! old)) /\
   exists w' c',
     handle_object_added 1%positive w_plugged = Done tt w' /\
     modems w' = <[object_path modem0 := 1%positive]> (modems w_plugged) /\
     tracked w' 1%positive c' /\
     path c' = object_path modem0 /\
     op_state c' = MODEM_OP_STATE_NONE).
Proof.
  split.
  - assert (objects w_plugged !! 2%positive = Some modem_no_port) as Ho
      by (vm_compute; reflexivity).
    assert (exists m, modem_iface modem_no_port = Some m /\ primary_port m = None) as Hbad
      by (eexists; split; reflexivity).
    split; [exact Ho|]. split; [exact Hbad|].
    apply (proj1 (only_eligible_modems_are_tracked w_plugged 2%positive modem_no_port Ho)).
    right; left. exact Hbad.
  - assert (objects w_plugged !! 1%positive = Some modem0) as Ho
      by (vm_compute; reflexivity).
    assert (forall old, modems w_plugged !! object_path modem0 = Some old ->
                        is_Some (objects w_plugged !! old)) as Hold
      by (intros old H; vm_compute in H; discriminate).
    split; [exact Ho|]. split; [reflexivity|]. split; [reflexivity|].
    split; [reflexivity|]. split; [exact Hold|].
    destruct (proj2 (only_eligible_modems_are_tracked w_plugged 1%positive modem0 Ho)
                    (mkMMModem (Some "ttyUSB2")) "ttyUSB2"
                    (mkMMModem3gpp MM_MODEM_3GPP_REGISTRATION_STATE_IDLE [])
                    eq_refl eq_refl eq_refl Hold)
      as (w' & c' & R & Hm & Htr & Hpath & _ & Hst).
    exists w', c'. split; [exact R|]. split; [exact Hm|]. split; [exact Htr|].
    split; [exact Hpath | exact Hst].
Defined.

Lemma kick_machine_keeps_timestamp_witness :
  Forall stays_stuck_event stuck_trace /\
  run_events false stuck_trace w_armed = Done tt w_later /\
  ctx_of w_armed 1%positive = Some ctx_armed /\
  timestamp ctx_armed <> 0 /\
  is_Some (objects w_later !! 1%positive) /\
  kick_due (monotonic_time w_armed) ctx_armed /\
  0 <= timestamp ctx_armed <= monotonic_time w_armed /\
  monotonic_time w_armed <= monotonic_time w_later < 2 ^ 63 /\
  exists c',
    ctx_of w_later 1%positive = Some c' /\
    timestamp c' = timestamp ctx_armed /\
    kick_due (monotonic_time w_later) c'.
Proof.
  assert (Forall stays_stuck_event stuck_trace) as Hevs
    by (repeat constructor).
  assert (run_events false stuck_trace w_armed = Done tt w_later) as Hrun
    by (vm_compute; reflexivity).
  assert (ctx_of w_armed 1%positive = Some ctx_armed) as Hc by (vm_compute; reflexivity).
  assert (timestamp ctx_armed <> 0) as Hts by (vm_compute; discriminate).
  assert (is_Some (objects w_later !! 1%positive)) as Hlive
    by (vm_compute; eexists; reflexivity).
  assert (monotonic_time w_armed = 900000000) as Ht by (vm_compute; reflexivity).
  assert (monotonic_time w_later = 1200000000) as Ht' by (vm_compute; reflexivity).
  assert (timestamp ctx_armed = 1000000) as Hts' by (vm_compute; reflexivity).
  assert (kick_due (monotonic_time w_armed) ctx_armed) as Hdue
    by (split; [exact Hts | vm_compute; reflexivity]).
  assert (0 <= timestamp ctx_armed <= monotonic_time w_armed) as Hrange
    by (rewrite Ht, Hts'; lia).
  assert (monotonic_time w_armed <= monotonic_time w_later < 2 ^ 63) as Hlater
    by (rewrite Ht, Ht'; lia).
  split; [exact Hevs|]. split; [exact Hrun|]. split; [exact Hc|]. split; [exact Hts|].
  split; [exact Hlive|]. split; [exact Hdue|]. split; [exact Hrange|].
  split; [exact Hlater|].
  destruct (proj2 (proj2 (proj2 (proj2 (proj2 (proj2 kick_machine_keeps_timestamp)))))
              stuck_trace w_armed w_later 1%positive ctx_armed Hevs Hrun Hc Hts Hlive)
    as (c' & Hc' & E & Hd).
  exists c'. split; [exact Hc'|]. split; [exact E|]. exact (Hd Hdue Hrange Hlater).
Defined.

(** * Further properties of the program *)

(** ** Cancelling *)

(** X1.  [modem_context_cancel_op] always returns; it leaves a context with
    no operation (state none, no token, no timer, a counter of zero) and the
    path, handler id and timestamp it had; cancelling once more changes
    neither the context nor the world, and so does cancelling a context that
    had no operation to begin with. *)
Theorem modem_context_cancel_op_idempotent c w :
  exists c1 w1,
    modem_context_cancel_op c w = Done c1 w1 /\
    op_state c1 = MODEM_OP_STATE_NONE /\ cancellable c1 = None /\
    next_id c1 = 0%N /\ tries c1 = 0%N /\
    path c1 = path c /\ reg_state_changed_id c1 = reg_state_changed_id c /\
    timestamp c1 = timestamp c /\
    modem_context_cancel_op c1 w1 = Done c1 w1 /\
    modem_context_cancel_op c1 w = Done c1 w.
Proof.
  exists (cancelled_ctx c), (cancel_effect c w).
  split; [apply modem_context_cancel_op_eq|].
  do 7 (split; [reflexivity|]).
  split; rewrite modem_context_cancel_op_eq; unfold cancel_effect; simpl.
  - reflexivity.
  - now destruct w.
Qed.

(** ** Registration changes during a kick *)

Lemma set_timestamp_id c : set_timestamp (timestamp c) c = c.
Proof. now destruct c. Qed.

Lemma notify_handlers_frame i modem_object (handlers : list N) :
  forall w o c,
    objects w !! modem_object = Some o ->
    modem_context o = Some c ->
    exists w' ts,
      for_each (fun _ => modem_registration_changed i modem_object) handlers w = Done tt w' /\
      objects w' !! modem_object = Some (set_modem_context (Some (set_timestamp ts c)) o) /\
      (forall x, x <> modem_object -> objects w' !! x = objects w !! x) /\
      sources w' = sources w /\ cancelled w' = cancelled w /\
      pending_calls w' = pending_calls w /\ modems w' = modems w /\
      monotonic_time w' = monotonic_time w /\
      (handlers <> [] -> ts = stamp (monotonic_time w) (registration_state i) (timestamp c)) /\
      (handlers = [] -> ts = timestamp c).
Proof.
  induction handlers as [|h handlers IH]; intros w o c Ho Hc.
  - exists w, (timestamp c). split; [reflexivity|].
    rewrite set_timestamp_id, (set_modem_context_id _ _ Hc).
    split; [exact Ho|]. do 6 (split; [reflexivity|]). split; congruence.
  - destruct (modem_registration_changed_Done i _ _ _ _ Ho Hc)
      as (w1 & R1 & Ht1 & Hm1 & Hs1 & Hc1 & Hp1 & Hf1 & Ho1).
    destruct (IH w1 _ _ Ho1 eq_refl)
      as (w2 & ts & R2 & Ho2 & Hf2 & Hs2 & Hc2 & Hp2 & Hm2 & Ht2 & Hne & Hnil).
    exists w2, ts. simpl for_each. rewrite (bind_Done _ _ _ _ _ R1).
    split; [exact R2|]. split; [exact Ho2|].
    split; [intros x Hx; rewrite Hf2, Hf1 by assumption; reflexivity|].
    split; [congruence|]. split; [congruence|]. split; [congruence|].
    split; [congruence|]. split; [congruence|].
    split; [intros _|discriminate].
    destruct handlers as [|h' handlers].
    + rewrite (Hnil eq_refl). reflexivity.
    + rewrite (Hne ltac:(discriminate)). simpl. rewrite Ht1. apply stamp_idem.
Qed.

Lemma registration_event_frame DEBUG w modem_object o c reg_state :
  objects w !! modem_object = Some o ->
  modem_context o = Some c ->
  exists w' o' ts,
    dispatch DEBUG (EV_REGISTRATION_STATE modem_object reg_state) w = Done tt w' /\
    objects w' !! modem_object = Some o' /\
    modem_context o' = Some (set_timestamp ts c) /\
    ref_count o' = ref_count o /\
    sources w' = sources w /\ cancelled w' = cancelled w /\
    pending_calls w' = pending_calls w /\ modems w' = modems w /\
    (forall i, modem_3gpp_iface o = Some i -> notify_handlers i <> [] ->
               ts = stamp (monotonic_time w) reg_state (timestamp c)).
Proof.
  intros Ho Hc. unfold dispatch, get. unfold bind at 1. rewrite Ho.
  destruct (modem_3gpp_iface o) as [i|] eqn:Hi.
  - unfold bind at 1, modify at 1.
    set (i' := mkMMModem3gpp reg_state (notify_handlers i)).
    set (o1 := set_modem_3gpp_iface (Some i') o).
    set (w1 := set_objects _ w).
    assert (objects w1 !! modem_object = Some o1) as Ho1 by apply lookup_insert_eq.
    destruct (notify_handlers_frame i' modem_object (notify_handlers i) w1 o1 c Ho1 Hc)
      as (w2 & ts & R & Ho2 & _ & Hs & Hcan & Hp & Hm & _ & Hne & _).
    exists w2, (set_modem_context (Some (set_timestamp ts c)) o1), ts.
    split; [exact R|]. split; [exact Ho2|]. do 2 (split; [reflexivity|]).
    do 4 (split; [assumption|]).
    intros i0 Hi0 Hh. assert (i0 = i) as -> by congruence. exact (Hne Hh).
  - exists w, o, (timestamp c). split; [reflexivity|]. split; [exact Ho|].
    split; [now rewrite set_timestamp_id|]. do 5 (split; [reflexivity|]).
    intros i Hi'. discriminate.
Qed.

(** X2.  A change of registration state never touches a kick under way: the
    operation stays armed behind the same timer, or waiting for the same
    request, at the same step and with the same counter, no timer, token or
    request is added or removed, and only the timestamp follows the new
    state; in particular a modem that registers in the middle of a kick has its
    timestamp cleared and is disabled, powered down and enabled all the
    same. *)
Theorem registration_change_keeps_kick DEBUG w modem_object reg_state :
  (forall st n t,
      armed w modem_object st n t ->
      exists w',
        dispatch DEBUG (EV_REGISTRATION_STATE modem_object reg_state) w = Done tt w' /\
        armed w' modem_object st n t /\
        sources w' = sources w /\ cancelled w' = cancelled w /\
        pending_calls w' = pending_calls w /\
        (forall c, tracked w modem_object c ->
                   exists c', ctx_of w' modem_object = Some c' /\
                              timestamp c' = stamp (monotonic_time w) reg_state (timestamp c))) /\
  (forall st n kind,
      calling w modem_object st n kind ->
      exists w',
        dispatch DEBUG (EV_REGISTRATION_STATE modem_object reg_state) w = Done tt w' /\
        calling w' modem_object st n kind /\
        sources w' = sources w /\ cancelled w' = cancelled w /\
        pending_calls w' = pending_calls w).
Proof.
  split.
  - intros st n t (o & c & Ho & Hc & Hst & Hn & Ht & Ht0 & Hsrc & Hcan).
    destruct (registration_event_frame DEBUG w modem_object o c reg_state Ho Hc)
      as (w' & o' & ts & R & Ho' & Hc' & _ & Hs & Hcan' & Hp & _ & Hts).
    exists w'. split; [exact R|]. split; [|split; [exact Hs|split; [exact Hcan'|split; [exact Hp|]]]].
    + exists o', (set_timestamp ts c). rewrite Hs.
      do 7 (split; [assumption || reflexivity|]).
      unfold is_cancelled in *. simpl. now rewrite Hcan'.
    + intros c0 (o0 & i & Ho0 & Hi & Hh & Hc0).
      assert (o0 = o) as -> by congruence. assert (c0 = c) as -> by congruence.
      exists (set_timestamp ts c). unfold ctx_of. rewrite Ho'.
      split; [exact Hc'|]. simpl. exact (Hts i Hi Hh).
  - intros st n kind (o & c & rest & Ho & Hc & Hst & Hn & Ht & Hrc & Hsrc & Hcalls & Hcan).
    destruct (registration_event_frame DEBUG w modem_object o c reg_state Ho Hc)
      as (w' & o' & ts & R & Ho' & Hc' & Hrc' & Hs & Hcan' & Hp & _ & _).
    exists w'. split; [exact R|]. split; [|split; [exact Hs|split; [exact Hcan'|exact Hp]]].
    exists o', (set_timestamp ts c), rest. rewrite Hs, Hp.
    do 5 (split; [assumption || reflexivity|]).
    split; [now rewrite Hrc'|]. split; [exact Hsrc|]. split; [exact Hcalls|].
    unfold is_cancelled in *. simpl. now rewrite Hcan'.
Qed.

(** ** The sweep as a whole *)

(** X3.  In the production build a sweep over a registry whose entries are
    live returns, sends no request and changes no entry.  It restarts the
    kick of every registered modem that is due and leaves every other context
    as it was: that of a modem with a timestamp of zero, of one that has been
    idle or denied for [KICK_INTERVAL_SECONDS] or less, and of an object that
    is not in the registry, due or not.  Over an empty registry it changes
    nothing at all. *)
Theorem sweep_kicks_exactly_the_due_modems w :
  (modems w = ∅ -> reset_poll_cb false w = Done G_SOURCE_CONTINUE w) /\
  (registry_live w ->
   exists w',
     reset_poll_cb false w = Done G_SOURCE_CONTINUE w' /\
     modems w' = modems w /\
     pending_calls w' = pending_calls w /\
     monotonic_time w' = monotonic_time w /\
     forall x o c,
       objects w !! x = Some o -> modem_context o = Some c ->
       ((exists p, modems w !! p = Some x) ->
        kick_due (monotonic_time w) c ->
        exists k t, t <> 0%N /\ ctx_of w' x = Some (started_ctx c k t)) /\
       ((forall p, modems w !! p <> Some x) \/
        timestamp c = 0 \/
        gint64_sub (monotonic_time w) (timestamp c)
          <= KICK_INTERVAL_SECONDS false * G_USEC_PER_SEC ->
        ctx_of w' x = Some c)).
Proof.
  split.
  - intros Hempty. unfold reset_poll_cb, get. unfold bind at 1.
    rewrite Hempty, map_to_list_empty. reflexivity.
  - intros Hlive.
    assert (forall x, x ∈ (map_to_list (modems w)).*2 <-> exists p, modems w !! p = Some x)
      as Hin.
    { intros x. rewrite list_elem_of_fmap. split.
      - intros ([p y] & -> & Hp). exists p. now apply elem_of_map_to_list.
      - intros (p & Hp). exists (p, x). split; [reflexivity|].
        now apply elem_of_map_to_list. }
    destruct (for_each_reset_poll ((map_to_list (modems w)).*2) w)
      as (w' & Hrun & Htime & Hcalls & Hmod & Hctx).
    { intros x Hx. apply Hin in Hx as (p & Hp). exact (Hlive p x Hp). }
    exists w'. split.
    { unfold reset_poll_cb, get. unfold bind at 1.
      now rewrite (bind_Done _ _ _ _ _ Hrun). }
    do 3 (split; [assumption|]).
    intros x o c Ho Hc. destruct (Hctx x o c Ho Hc) as (c' & Ho' & Hk & Hn).
    unfold ctx_of. rewrite Ho'. simpl. split.
    + intros Hp Hdue. destruct (Hk Hdue (proj2 (Hin x) Hp)) as (k & t & Ht & ->).
      now exists k, t.
    + intros Hcase. f_equal. apply Hn. destruct Hcase as [Hno | [Hz | Hle]].
      * right. intros Hx. apply Hin in Hx as (p & Hp). exact (Hno p Hp).
      * left. intros [Hnz _]. contradiction.
      * left. intros [_ Hlt]. exact (Z.lt_irrefl _ (Z.lt_le_trans _ _ _ Hlt Hle)).
Qed.

(** ** The sweep of the debug build *)

(** X4.  In the debug build the loop body of the sweep first overwrites the
    timestamp of the modem with the clock minus 700 s, whatever its
    registration state and whatever the timestamp was (zero included), and
    then kicks it: 700 s exceeds the 60 s of that build.  (The clock is
    between its origin and the end of the [gint64] range, and not at 700 s
    exactly, where the overwritten timestamp would be the zero that means
    "not idle".) *)
Theorem debug_sweep_kicks_every_modem w modem_object o c :
  objects w !! modem_object = Some o ->
  modem_context o = Some c ->
  0 <= monotonic_time w < 2 ^ 63 ->
  monotonic_time w <> 700 * G_USEC_PER_SEC ->
  reset_poll_modem true modem_object w
    = Done tt (kick_started modem_object o
                 (set_timestamp (monotonic_time w - 700 * G_USEC_PER_SEC) c) w).
Proof.
  intros Ho Hc Hrange Hne.
  assert (gint64_sub (monotonic_time w) (700 * G_USEC_PER_SEC)
          = monotonic_time w - 700 * G_USEC_PER_SEC) as E1.
  { unfold gint64_sub, gint64_wrap, G_USEC_PER_SEC in *.
    change (2 ^ 63) with 9223372036854775808 in *.
    change (2 ^ 64) with 18446744073709551616.
    rewrite Z.mod_small by lia. lia. }
  assert (gint64_sub (monotonic_time w) (monotonic_time w - 700 * G_USEC_PER_SEC)
          = 700 * G_USEC_PER_SEC) as E2.
  { unfold gint64_sub, gint64_wrap, G_USEC_PER_SEC.
    replace (monotonic_time w - (monotonic_time w - 700 * 1000000)) with 700000000 by lia.
    reflexivity. }
  unfold reset_poll_modem.
  rewrite (bind_Done _ _ _ _ _ (get_modem_context_Done _ _ _ _ Ho Hc)).
  unfold g_get_monotonic_time. unfold bind at 1. rewrite E1.
  set (c0 := set_timestamp _ c).
  rewrite (bind_Done _ _ _ _ _ (put_modem_context_Done _ _ _ _ Ho)).
  set (o0 := set_modem_context (Some c0) o).
  set (w0 := set_objects _ w).
  assert (objects w0 !! modem_object = Some o0) as Ho0 by apply lookup_insert_eq.
  rewrite bool_decide_eq_false_2 by (unfold c0; simpl; lia).
  change (timestamp c0) with (monotonic_time w - 700 * G_USEC_PER_SEC).
  change (monotonic_time w0) with (monotonic_time w). rewrite E2.
  rewrite bool_decide_eq_true_2 by (vm_compute; reflexivity).
  unfold bind at 1. rewrite modem_context_cancel_op_eq.
  unfold bind at 1. unfold g_cancellable_new at 1.
  set (w2 := set_next_cancellable _ _).
  assert (objects w2 !! modem_object = Some o0) as Ho2 by exact Ho0.
  rewrite (bind_Done _ _ _ _ _ (put_modem_context_Done _ _ _ _ Ho2)).
  set (c3 := set_cancellable _ _).
  set (o3 := set_modem_context (Some c3) o0).
  set (w3 := set_objects _ w2).
  assert (objects w3 !! modem_object = Some o3) as Ho3 by apply lookup_insert_eq.
  rewrite (bind_Done _ _ _ _ _
             (modem_op_state_run_none w3 modem_object o3 c3 Ho3 eq_refl eq_refl)).
  unfold ret, arm, kick_started, started_ctx, w3, o3, c3, w2, w0, o0, c0, cancel_effect. simpl.
  now rewrite !insert_insert_eq.
Qed.

(** ** Adding and removing *)

Lemma World_eq w1 w2 :
  monotonic_time w1 = monotonic_time w2 ->
  objects w1 = objects w2 ->
  modems w1 = modems w2 ->
  sources w1 = sources w2 ->
  next_source w1 = next_source w2 ->
  cancelled w1 = cancelled w2 ->
  next_cancellable w1 = next_cancellable w2 ->
  pending_calls w1 = pending_calls w2 ->
  next_handler w1 = next_handler w2 ->
  w1 = w2.
Proof. destruct w1, w2; simpl; congruence. Qed.

Lemma handle_object_added_steps w modem_object o m port i :
  objects w !! modem_object = Some o ->
  modem_iface o = Some m ->
  primary_port m = Some port ->
  modem_3gpp_iface o = Some i ->
  handle_object_added modem_object w =
    (match modems w !! object_path o with
     | Some old => g_object_unref old
     | None => ret tt
     end) (tracked_world modem_object o i w).
Proof.
  intros Ho Hm Hp Hi.
  unfold handle_object_added, deref. unfold bind at 1. rewrite Ho, Hm, Hp, Hi.
  set (c0 := modem_context_new o).
  set (oA := set_modem_context (Some c0) o).
  set (w1 := set_objects (<[modem_object := oA]> (objects w)) w).
  set (wA := match modem_context o with Some old => cancel_effect old w1 | None => w1 end).
  assert (g_object_set_data_full modem_object c0 w = Done tt wA) as RA.
  { unfold g_object_set_data_full, deref, bind, modify. rewrite Ho. fold oA. fold w1.
    unfold wA. destruct (modem_context o) as [old|]; [|reflexivity].
    unfold modem_context_free, bind. now rewrite modem_context_cancel_op_eq. }
  rewrite (bind_Done _ _ _ _ _ RA).
  assert (objects wA = <[modem_object := oA]> (objects w)) as HoA
    by (unfold wA; destruct (modem_context o); reflexivity).
  assert (next_handler wA = next_handler w /\ monotonic_time wA = monotonic_time w /\
          modems wA = modems w) as (HhA & HtA & HmA)
    by (unfold wA; destruct (modem_context o); repeat split; reflexivity).
  set (id := Npos (next_handler w)).
  set (i' := mkMMModem3gpp (registration_state i) (id :: notify_handlers i)).
  set (oB := set_modem_3gpp_iface (Some i') oA).
  set (wB := set_next_handler (Pos.succ (next_handler w))
               (set_objects (<[modem_object := oB]> (objects wA)) wA)).
  assert (g_signal_connect modem_object wA = Done id wB) as RB.
  { unfold g_signal_connect. rewrite HoA, lookup_insert_eq. simpl. rewrite Hi.
    unfold wB, oB, i', id. now rewrite HoA, HhA. }
  rewrite (bind_Done _ _ _ _ _ RB).
  set (c1 := set_reg_state_changed_id id c0).
  assert (objects wB !! modem_object = Some oB) as HoB by apply lookup_insert_eq.
  rewrite (bind_Done _ _ _ _ _ (put_modem_context_Done wB modem_object oB c1 HoB)).
  set (oC := set_modem_context (Some c1) oB).
  set (wC := set_objects (<[modem_object := oC]> (objects wB)) wB).
  assert (objects wC !! modem_object = Some oC) as HoC by apply lookup_insert_eq.
  set (c2 := set_timestamp (stamp (monotonic_time w) (registration_state i) 0) c1).
  set (oD := set_modem_context (Some c2) oC).
  set (wD := set_objects (<[modem_object := oD]> (objects wC)) wC).
  assert (modem_registration_changed i modem_object wC = Done tt wD) as RD.
  { unfold modem_registration_changed.
    rewrite (bind_Done _ _ _ _ _ (get_modem_context_Done _ _ oC c1 HoC eq_refl)).
    unfold wD, oD, c2, stamp. change (timestamp c1) with 0.
    rewrite (bool_decide_eq_true_2 (0 = 0) eq_refl).
    destruct (idle_or_denied (registration_state i)).
    - unfold bind, g_get_monotonic_time.
      rewrite (put_modem_context_Done _ _ _ _ HoC).
      change (monotonic_time wC) with (monotonic_time wA). now rewrite HtA.
    - rewrite (put_modem_context_Done _ _ _ _ HoC). reflexivity. }
  rewrite (bind_Done _ _ _ _ _ RD).
  assert (objects wD !! modem_object = Some oD) as HoD by apply lookup_insert_eq.
  set (oE := set_ref_count (Pos.succ (ref_count o)) oD).
  set (wE := set_objects (<[modem_object := oE]> (objects wD)) wD).
  assert (g_object_ref modem_object wD = Done tt wE) as RE
    by (unfold g_object_ref, deref, bind, modify; now rewrite HoD).
  rewrite (bind_Done _ _ _ _ _ RE).
  assert (objects wE = <[modem_object := oE]> (objects w)) as HobjE.
  { unfold wE, wD, wC, wB. simpl. rewrite HoA. now rewrite !insert_insert_eq. }
  assert (modems wE = modems w) as HmE by exact HmA.
  set (wF := set_modems (<[object_path o := modem_object]> (modems wE)) wE).
  unfold g_hash_table_insert, get. unfold bind at 1. unfold bind at 1.
  unfold modify at 1. fold wF. rewrite HmE.
  assert (sources wE = sources (match modem_context o with
                                | Some old => cancel_effect old w | None => w end) /\
          cancelled wE = cancelled (match modem_context o with
                                    | Some old => cancel_effect old w | None => w end) /\
          next_source wE = next_source w /\ next_cancellable wE = next_cancellable w /\
          pending_calls wE = pending_calls w /\ monotonic_time wE = monotonic_time w /\
          next_handler wE = Pos.succ (next_handler w))
    as (HsE & HcE & HnsE & HncE & HpE & HtE & HhE)
    by (unfold wE, wD, wC, wB, wA; destruct (modem_context o); repeat split; reflexivity).
  assert (wF = tracked_world modem_object o i w) as ->; [|reflexivity].
  apply World_eq;
    [ exact HtE
    | change (objects wF) with (objects wE); rewrite HobjE; reflexivity
    | change (modems wF) with (<[object_path o := modem_object]> (modems wE));
      rewrite HmE; reflexivity
    | exact HsE | exact HnsE | exact HcE | exact HncE | exact HpE | exact HhE ].
Qed.

Lemma handle_object_added_eq w modem_object o m port i :
  objects w !! modem_object = Some o ->
  modem_iface o = Some m ->
  primary_port m = Some port ->
  modem_3gpp_iface o = Some i ->
  modems w !! object_path o = None \/ modems w !! object_path o = Some modem_object ->
  handle_object_added modem_object w = Done tt (added_world modem_object o i w).
Proof.
  intros Ho Hm Hp Hi Hentry.
  rewrite (handle_object_added_steps w modem_object o m port i Ho Hm Hp Hi).
  unfold added_world, tracked_world.
  destruct Hentry as [Hnone|Hsame].
  - rewrite Hnone. reflexivity.
  - rewrite Hsame.
    erewrite g_object_unref_shared; [|simpl; apply lookup_insert_eq|simpl; lia].
    simpl. rewrite insert_insert_eq. unfold added_object, set_ref_count. simpl.
    now rewrite Pos.pred_succ.
Qed.

(** X5.  An eligible modem that the manager announces and then withdraws,
    with nothing else holding it, leaves no trace: after the announcement it
    is in the registry under its path, and after the withdrawal the registry,
    the timers, the cancelled tokens and the requests in flight are what they
    were before the announcement, and the object is gone. *)
Theorem add_then_remove_leaves_no_trace DEBUG w modem_object o m port i :
  objects w !! modem_object = Some o ->
  modem_iface o = Some m ->
  primary_port m = Some port ->
  modem_3gpp_iface o = Some i ->
  modem_context o = None ->
  ref_count o = 1%positive ->
  modems w !! object_path o = None ->
  exists w1 w2,
    dispatch DEBUG (EV_OBJECT_ADDED modem_object) w = Done tt w1 /\
    modems w1 !! object_path o = Some modem_object /\
    dispatch DEBUG (EV_OBJECT_REMOVED modem_object) w1 = Done tt w2 /\
    modems w2 = modems w /\
    objects w2 = delete modem_object (objects w) /\
    sources w2 = sources w /\
    cancelled w2 = cancelled w /\
    pending_calls w2 = pending_calls w.
Proof.
  intros Ho Hm Hp Hi Hc Hrc Hentry.
  set (w1 := added_world modem_object o i w).
  set (o1 := added_object o i (Npos (next_handler w))
               (stamp (monotonic_time w) (registration_state i) 0) 2%positive).
  assert (objects w1 !! modem_object = Some o1) as Ho1.
  { unfold w1, added_world, o1. simpl. rewrite Hentry, Hrc. apply lookup_insert_eq. }
  assert (modems w1 !! object_path o1 = Some modem_object) as Hp1
    by (unfold w1, added_world; simpl; apply lookup_insert_eq).
  exists w1. eexists. split; [|split; [exact Hp1|split]].
  - unfold dispatch, get. unfold bind at 1. rewrite Ho.
    exact (handle_object_added_eq w modem_object o m port i Ho Hm Hp Hi (or_introl Hentry)).
  - exact (removal_finalizes DEBUG w1 modem_object o1 _ Ho1 eq_refl Hp1 eq_refl).
  - unfold w1, added_world. simpl. rewrite Hc. simpl.
    split; [rewrite delete_insert_eq; now apply delete_id|].
    split; [now rewrite delete_insert_eq|].
    repeat split; reflexivity.
Qed.

(** X6.  Announcing again a modem that is already tracked resets it: the
    context it had is freed, which cancels the token of its kick and removes
    its timer; the new context has no operation and a timestamp seeded from the
    current state at the current time, so the time the modem has already been
    idle is forgotten; one more handler is connected to the same interface
    beside the old one; the registry and the reference count are as before. *)
Theorem readding_a_tracked_modem_resets_it w modem_object o m port i c :
  objects w !! modem_object = Some o ->
  modem_iface o = Some m ->
  primary_port m = Some port ->
  modem_3gpp_iface o = Some i ->
  modem_context o = Some c ->
  modems w !! object_path o = Some modem_object ->
  exists w' o',
    handle_object_added modem_object w = Done tt w' /\
    modems w' = modems w /\
    objects w' !! modem_object = Some o' /\
    modem_context o'
      = Some (mkModemContext (object_path o) (Npos (next_handler w))
                (stamp (monotonic_time w) (registration_state i) 0)
                None MODEM_OP_STATE_NONE 0%N 0%N) /\
    ref_count o' = ref_count o /\
    modem_3gpp_iface o'
      = Some (mkMMModem3gpp (registration_state i)
                (Npos (next_handler w) :: notify_handlers i)) /\
    (forall k, cancellable c = Some k -> k ∈ cancelled w') /\
    (next_id c <> 0%N -> sources w' = delete (next_id c) (sources w)) /\
    pending_calls w' = pending_calls w.
Proof.
  intros Ho Hm Hp Hi Hc Hentry.
  exists (added_world modem_object o i w). eexists.
  split; [exact (handle_object_added_eq w modem_object o m port i Ho Hm Hp Hi
                   (or_intror Hentry))|].
  unfold added_world. rewrite Hc, Hentry. simpl.
  split; [now apply insert_id|].
  split; [apply lookup_insert_eq|].
  do 3 (split; [reflexivity|]).
  split; [intros k ->; apply elem_of_union; left; now apply elem_of_singleton|].
  split; [intros Hn; now rewrite bool_decide_eq_true_2|reflexivity].
Qed.

(** ** Timers *)

(** Soundness survives any change that adds no timer and keeps, for every
    modem that still has one, a context with the same [next_id]. *)
Lemma timers_sound_frame w w' :
  timers_sound w ->
  (forall id x, sources w' !! id = Some x -> sources w !! id = Some x) ->
  (forall id x o c,
      sources w' !! id = Some x ->
      objects w !! x = Some o -> modem_context o = Some c ->
      exists o' c', objects w' !! x = Some o' /\ modem_context o' = Some c' /\
                    next_id c' = next_id c) ->
  timers_sound w'.
Proof.
  intros Hs Hsub Hobj id x Hid.
  destruct (Hs id x (Hsub id x Hid)) as (Hnz & o & c & Ho & Hc & Hn).
  split; [exact Hnz|].
  destruct (Hobj id x o c Hid Ho Hc) as (o' & c' & Ho' & Hc' & Hn').
  exists o', c'. split; [assumption|]. split; [assumption | congruence].
Qed.

(** Updating one object without touching its [next_id] or the timers. *)
Lemma timers_sound_update w w' x o o1 :
  timers_sound w ->
  objects w !! x = Some o ->
  objects w' = <[x := o1]> (objects w) ->
  sources w' = sources w ->
  (forall c, modem_context o = Some c ->
             exists c1, modem_context o1 = Some c1 /\ next_id c1 = next_id c) ->
  timers_sound w'.
Proof.
  intros Hs Ho Hobjs Hsrc Hctx. apply (timers_sound_frame w w' Hs).
  - intros id y. now rewrite Hsrc.
  - intros id y oy cy _ Hoy Hcy. rewrite Hobjs.
    destruct (decide (x = y)) as [<-|Hne].
    + rewrite lookup_insert_eq. assert (oy = o) as -> by congruence.
      destruct (Hctx cy Hcy) as (c1 & Hc1 & Hn). eauto.
    + rewrite lookup_insert_ne by assumption. eauto.
Qed.

Lemma timers_sound_same w w' :
  timers_sound w -> objects w' = objects w -> sources w' = sources w -> timers_sound w'.
Proof.
  intros Hs Ho Hsrc id x. rewrite Hsrc, Ho. apply Hs.
Qed.

(** A modem whose context has no timer recorded has none pending. *)
Lemma timers_sound_quiet w x o c :
  timers_sound w ->
  objects w !! x = Some o -> modem_context o = Some c -> next_id c = 0%N ->
  forall id, sources w !! id <> Some x.
Proof.
  intros Hs Ho Hc Hn id Hid.
  destruct (Hs id x Hid) as (Hnz & o' & c' & Ho' & Hc' & Hn').
  assert (c' = c) as -> by congruence. congruence.
Qed.

Lemma timers_sound_arm w x o c :
  timers_sound w ->
  objects w !! x = Some o ->
  (forall id, sources w !! id <> Some x) ->
  timers_sound (arm x o c w).
Proof.
  intros Hs Ho Hquiet id y Hid. unfold arm in *. simpl in *.
  destruct (decide (id = Npos (next_source w))) as [->|Hne].
  - rewrite lookup_insert_eq in Hid. injection Hid as <-.
    split; [discriminate|]. rewrite lookup_insert_eq. eauto.
  - rewrite lookup_insert_ne in Hid by congruence.
    destruct (decide (y = x)) as [->|Hne']; [now apply Hquiet in Hid|].
    rewrite lookup_insert_ne by congruence. exact (Hs id y Hid).
Qed.

Lemma modem_schedule_op_state_inv x st w w' :
  modem_schedule_op_state x st w = Done tt w' ->
  exists o c, objects w !! x = Some o /\ modem_context o = Some c /\ next_id c = 0%N /\
              w' = arm x o (set_op_state st c) w.
Proof.
  intros H.
  assert (exists o c, objects w !! x = Some o /\ modem_context o = Some c)
    as (o & c & Ho & Hc).
  { unfold modem_schedule_op_state in H. apply bind_Done_inv in H as (c & w0 & Hget & _).
    apply get_modem_context_inv in Hget as (_ & o & Ho & Hc). eauto. }
  destruct (decide (next_id c = 0%N)) as [Hn|Hn].
  - rewrite (modem_schedule_op_state_Done w x o c st Ho Hc Hn) in H.
    injection H as <-. eauto 6.
  - rewrite (modem_schedule_op_state_Crash w x o c st Ho Hc Hn) in H. discriminate.
Qed.

Lemma modem_schedule_retry_op_state_inv x w w' :
  modem_schedule_retry_op_state x w = Done tt w' ->
  exists o c, objects w !! x = Some o /\ modem_context o = Some c /\ next_id c = 0%N /\
              w' = arm x o (retried_ctx c) w.
Proof.
  intros H.
  assert (exists o c, objects w !! x = Some o /\ modem_context o = Some c)
    as (o & c & Ho & Hc).
  { unfold modem_schedule_retry_op_state in H.
    apply bind_Done_inv in H as (c & w0 & Hget & _).
    apply get_modem_context_inv in Hget as (_ & o & Ho & Hc). eauto. }
  destruct (decide (next_id c = 0%N)) as [Hn|Hn].
  - rewrite (modem_schedule_retry_op_state_Done w x o c Ho Hc Hn) in H.
    injection H as <-. eauto 6.
  - exfalso. unfold modem_schedule_retry_op_state in H.
    rewrite (bind_Done _ _ _ _ _ (get_modem_context_Done _ _ _ _ Ho Hc)) in H.
    rewrite (bind_Done _ _ _ _ _ (put_modem_context_Done _ _ _ _ Ho)) in H.
    set (o1 := set_modem_context _ o) in H. set (w1 := set_objects _ w) in H.
    assert (objects w1 !! x = Some o1) as Ho1 by apply lookup_insert_eq.
    destruct (bool_decide _) in H;
      rewrite (modem_schedule_op_state_Crash w1 x o1 _ _ Ho1 eq_refl Hn) in H;
      discriminate.
Qed.

Lemma g_object_unref_inv x w w' :
  g_object_unref x w = Done tt w' ->
  exists o, objects w !! x = Some o /\
    ((ref_count o <> 1%positive /\
      w' = set_objects (<[x := set_ref_count (Pos.pred (ref_count o)) o]> (objects w)) w) \/
     (ref_count o = 1%positive /\
      w' = match modem_context o with
           | Some c => set_objects (delete x (objects w)) (cancel_effect c w)
           | None => set_objects (delete x (objects w)) w
           end)).
Proof.
  intros H.
  destruct (objects w !! x) as [o|] eqn:Ho;
    [|unfold g_object_unref, deref, bind in H; rewrite Ho in H; discriminate].
  exists o. split; [reflexivity|].
  destruct (decide (ref_count o = 1%positive)) as [Hrc|Hrc].
  - rewrite (g_object_unref_last w x o Ho Hrc) in H. injection H as <-. now right.
  - rewrite (g_object_unref_shared w x o Ho Hrc) in H. injection H as <-. now left.
Qed.

Lemma g_object_unref_sound x w w' :
  timers_sound w -> g_object_unref x w = Done tt w' -> timers_sound w'.
Proof.
  intros Hs H. apply g_object_unref_inv in H as (o & Ho & [[Hrc ->] | [Hrc ->]]).
  - apply (timers_sound_update w _ x o (set_ref_count (Pos.pred (ref_count o)) o) Hs Ho);
      [reflexivity | reflexivity |].
    intros c Hc. exists c. now split.
  - apply (timers_sound_frame w _ Hs).
    + intros id y Hid. destruct (modem_context o) as [c|]; simpl in Hid; [|exact Hid].
      case_bool_decide; [|exact Hid].
      destruct (decide (id = next_id c)) as [->|Hne].
      * now rewrite lookup_delete_eq in Hid.
      * now rewrite lookup_delete_ne in Hid by congruence.
    + intros id y oy cy Hid Hoy Hcy.
      assert (y <> x) as Hne.
      { intros ->. assert (oy = o) as -> by congruence.
        rewrite Hcy in Hid. simpl in Hid.
        assert (sources w !! id = Some x) as Hid0.
        { case_bool_decide; [|exact Hid].
          destruct (decide (id = next_id cy)) as [->|Hne].
          - now rewrite lookup_delete_eq in Hid.
          - now rewrite lookup_delete_ne in Hid by congruence. }
        destruct (Hs id x Hid0) as (Hnz & o' & c' & Ho' & Hc' & Hn').
        assert (c' = cy) as -> by congruence. subst id.
        rewrite bool_decide_eq_true_2 in Hid by assumption.
        now rewrite lookup_delete_eq in Hid. }
      exists oy, cy. split; [|now split].
      destruct (modem_context o); simpl; now rewrite lookup_delete_ne by congruence.
Qed.

Lemma modem_schedule_op_state_sound x st w w' :
  timers_sound w -> modem_schedule_op_state x st w = Done tt w' -> timers_sound w'.
Proof.
  intros Hs H. apply modem_schedule_op_state_inv in H as (o & c & Ho & Hc & Hn & ->).
  apply (timers_sound_arm w x o _ Hs Ho). exact (timers_sound_quiet w x o c Hs Ho Hc Hn).
Qed.

Lemma modem_schedule_retry_op_state_sound x w w' :
  timers_sound w -> modem_schedule_retry_op_state x w = Done tt w' -> timers_sound w'.
Proof.
  intros Hs H. apply modem_schedule_retry_op_state_inv in H as (o & c & Ho & Hc & Hn & ->).
  apply (timers_sound_arm w x o _ Hs Ho). exact (timers_sound_quiet w x o c Hs Ho Hc Hn).
Qed.

Lemma ready_callback_sound kind finish_ok x w w' :
  timers_sound w -> ready_callback kind finish_ok x w = Done tt w' -> timers_sound w'.
Proof.
  intros Hs H.
  assert (exists w1,
             (if negb finish_ok
              then modem_schedule_retry_op_state x
              else modem_schedule_op_state x (ready_next_state kind)) w
             = Done tt w1 /\ g_object_unref x w1 = Done tt w') as (w1 & H1 & H2).
  { destruct kind; simpl in H;
      unfold modem_disable_ready, set_power_state_low_ready, modem_enable_ready in H;
      apply bind_Done_inv in H as (y & w0 & Hget & H);
      [ apply get_modem_context_inv in Hget as (-> & _)
      | apply get_modem_context_inv in Hget as (-> & _)
      | unfold deref in Hget; destruct (objects w !! x); [|discriminate];
        injection Hget as _ <- ];
      apply bind_Done_inv in H as ([] & w1 & H1 & H2); exists w1; now split. }
  apply (g_object_unref_sound x w1 w'); [|exact H2].
  destruct finish_ok; simpl in H1.
  - exact (modem_schedule_op_state_sound _ _ _ _ Hs H1).
  - exact (modem_schedule_retry_op_state_sound _ _ _ Hs H1).
Qed.

(** A timer that comes due: the callback returns, and the timers are sound
    again once the source is removed. *)
Lemma timeout_sound DEBUG w id x :
  timers_sound w ->
  sources w !! id = Some x ->
  exists w', dispatch DEBUG (EV_TIMEOUT id) w = Done tt w' /\ timers_sound w'.
Proof.
  intros Hs Hid. destruct (Hs id x Hid) as (Hnz & o & c & Ho & Hc & Hn).
  assert (forall id' y, id' <> id -> sources w !! id' = Some y -> y <> x) as Hother.
  { intros id' y Hne Hid' ->. destruct (Hs id' x Hid') as (_ & o' & c' & Ho' & Hc' & Hn').
    assert (c' = c) as -> by congruence. congruence. }
  unfold dispatch, modem_op_state_run, get. unfold bind at 1. rewrite Hid.
  unfold bind at 1.
  rewrite (bind_Done _ _ _ _ _ (get_modem_context_Done _ _ _ _ Ho Hc)).
  rewrite (bind_Done _ _ _ _ _ (put_modem_context_Done _ _ _ _ Ho)).
  set (c1 := set_next_id 0%N c).
  set (o1 := set_modem_context (Some c1) o).
  set (w1 := set_objects (<[x := o1]> (objects w)) w).
  assert (objects w1 !! x = Some o1) as Ho1 by apply lookup_insert_eq.
  change (op_state c1) with (op_state c).
  assert (forall w2 o2 c2,
             objects w2 = <[x := o2]> (objects w) ->
             modem_context o2 = Some c2 ->
             (sources w2 = sources w /\ next_id c2 = 0%N) \/
             (exists t, t <> 0%N /\ sources w2 = <[t := x]> (sources w) /\ next_id c2 = t) ->
             timers_sound (set_sources (delete id (sources w2)) w2)) as Hfinal.
  { intros w2 o2 c2 Hobjs Hc2 Hcase id' y Hid'. simpl in *.
    destruct (decide (id' = id)) as [->|Hne]; [now rewrite lookup_delete_eq in Hid'|].
    rewrite lookup_delete_ne in Hid' by congruence. rewrite Hobjs.
    destruct Hcase as [[Hsrc Hn2] | (t & Ht & Hsrc & Hn2)]; rewrite Hsrc in Hid'.
    - pose proof (Hother id' y Hne Hid') as Hy.
      rewrite lookup_insert_ne by congruence. exact (Hs id' y Hid').
    - destruct (decide (id' = t)) as [->|Hne'].
      + rewrite lookup_insert_eq in Hid'. injection Hid' as <-.
        split; [exact Ht|]. rewrite lookup_insert_eq. eauto.
      + rewrite lookup_insert_ne in Hid' by congruence.
        pose proof (Hother id' y Hne Hid') as Hy.
        rewrite lookup_insert_ne by congruence. exact (Hs id' y Hid'). }
  destruct (op_state c) eqn:Hst.
  - (* none: the disable step is scheduled *)
    rewrite (bind_Done _ _ _ _ _
               (modem_schedule_op_state_Done w1 x o1 c1 _ Ho1 eq_refl eq_refl)).
    eexists. split; [reflexivity|].
    eapply (Hfinal (arm x o1 (set_op_state MODEM_OP_STATE_DISABLE c1) w1)).
    + unfold arm, w1. simpl. now rewrite insert_insert_eq.
    + reflexivity.
    + right. exists (Npos (next_source w)). split; [discriminate|]. split; reflexivity.
  - unfold mm_modem_call, g_object_ref, deref, bind, modify, ret, g_source_remove.
    rewrite Ho1. eexists. split; [reflexivity|].
    eapply (Hfinal _ (set_ref_count (Pos.succ (ref_count o1)) o1) c1).
    + unfold w1. simpl. now rewrite insert_insert_eq.
    + reflexivity.
    + left. split; reflexivity.
  - unfold mm_modem_call, g_object_ref, deref, bind, modify, ret, g_source_remove.
    rewrite Ho1. eexists. split; [reflexivity|].
    eapply (Hfinal _ (set_ref_count (Pos.succ (ref_count o1)) o1) c1).
    + unfold w1. simpl. now rewrite insert_insert_eq.
    + reflexivity.
    + left. split; reflexivity.
  - unfold mm_modem_call, g_object_ref, deref, bind, modify, ret, g_source_remove.
    rewrite Ho1. eexists. split; [reflexivity|].
    eapply (Hfinal _ (set_ref_count (Pos.succ (ref_count o1)) o1) c1).
    + unfold w1. simpl. now rewrite insert_insert_eq.
    + reflexivity.
    + left. split; reflexivity.
  - unfold bind at 1. unfold bind at 1. rewrite modem_context_cancel_op_eq.
    assert (objects (cancel_effect c1 w1) !! x = Some o1) as Ho1' by exact Ho1.
    rewrite (put_modem_context_Done _ _ _ _ Ho1').
    unfold ret, g_source_remove, modify. eexists. split; [reflexivity|].
    eapply (Hfinal _ (set_modem_context (Some (cancelled_ctx c1)) o1) (cancelled_ctx c1)).
    + unfold w1. simpl. now rewrite insert_insert_eq.
    + reflexivity.
    + left. split; reflexivity.
Qed.

Lemma kick_started_sound w x o ca c :
  timers_sound w ->
  objects w !! x = Some o ->
  modem_context o = Some ca ->
  next_id c = next_id ca ->
  timers_sound (kick_started x o c w).
Proof.
  intros Hs Ho Hca Hn id y Hid. unfold kick_started in *. simpl in *.
  destruct (decide (id = Npos (next_source w))) as [->|Hne].
  - rewrite lookup_insert_eq in Hid. injection Hid as <-.
    split; [discriminate|]. rewrite lookup_insert_eq. eauto.
  - rewrite lookup_insert_ne in Hid by congruence.
    assert (sources w !! id = Some y /\ (next_id c <> 0%N -> id <> next_id c)) as [Hid0 Hdel].
    { case_bool_decide as Hz.
      - destruct (decide (id = next_id c)) as [->|Hne'].
        + now rewrite lookup_delete_eq in Hid.
        + rewrite lookup_delete_ne in Hid by congruence. now split.
      - split; [exact Hid | contradiction]. }
    destruct (Hs id y Hid0) as (Hnz & o' & c' & Ho' & Hc' & Hn').
    split; [exact Hnz|].
    destruct (decide (y = x)) as [->|Hne'].
    + exfalso. assert (c' = ca) as -> by congruence.
      apply Hdel; congruence.
    + rewrite lookup_insert_ne by congruence. eauto.
Qed.

Lemma reset_poll_modem_debug_eq w x o c :
  objects w !! x = Some o ->
  modem_context o = Some c ->
  reset_poll_modem true x w =
    Done tt
      (if bool_decide (gint64_sub (monotonic_time w) (700 * G_USEC_PER_SEC) = 0)
       then set_objects
              (<[x := set_modem_context
                        (Some (set_timestamp
                                 (gint64_sub (monotonic_time w) (700 * G_USEC_PER_SEC)) c)) o]>
                 (objects w)) w
       else if bool_decide
                 (KICK_INTERVAL_SECONDS true * G_USEC_PER_SEC
                  < gint64_sub (monotonic_time w)
                      (gint64_sub (monotonic_time w) (700 * G_USEC_PER_SEC)))
            then kick_started x o
                   (set_timestamp (gint64_sub (monotonic_time w) (700 * G_USEC_PER_SEC)) c) w
            else set_objects
                   (<[x := set_modem_context
                             (Some (set_timestamp
                                      (gint64_sub (monotonic_time w) (700 * G_USEC_PER_SEC)) c))
                             o]>
                      (objects w)) w).
Proof.
  intros Ho Hc. unfold reset_poll_modem.
  rewrite (bind_Done _ _ _ _ _ (get_modem_context_Done _ _ _ _ Ho Hc)).
  unfold g_get_monotonic_time. unfold bind at 1.
  set (c0 := set_timestamp _ c).
  rewrite (bind_Done _ _ _ _ _ (put_modem_context_Done _ _ _ _ Ho)).
  set (o0 := set_modem_context (Some c0) o).
  set (w0 := set_objects _ w).
  assert (objects w0 !! x = Some o0) as Ho0 by apply lookup_insert_eq.
  change (timestamp c0) with (gint64_sub (monotonic_time w) (700 * G_USEC_PER_SEC)).
  change (monotonic_time w0) with (monotonic_time w).
  case_bool_decide as Hz; [reflexivity|].
  case_bool_decide as Hdue; [|reflexivity].
  unfold bind at 1. rewrite modem_context_cancel_op_eq.
  unfold bind at 1. unfold g_cancellable_new at 1.
  set (w2 := set_next_cancellable _ _).
  assert (objects w2 !! x = Some o0) as Ho2 by exact Ho0.
  rewrite (bind_Done _ _ _ _ _ (put_modem_context_Done _ _ _ _ Ho2)).
  set (c3 := set_cancellable _ _).
  set (o3 := set_modem_context (Some c3) o0).
  set (w3 := set_objects _ w2).
  assert (objects w3 !! x = Some o3) as Ho3 by apply lookup_insert_eq.
  rewrite (bind_Done _ _ _ _ _
             (modem_op_state_run_none w3 x o3 c3 Ho3 eq_refl eq_refl)).
  unfold ret, arm, kick_started, started_ctx, w3, o3, c3, w2, w0, o0, c0, cancel_effect. simpl.
  now rewrite !insert_insert_eq.
Qed.

Lemma reset_poll_modem_sound DEBUG x w w' :
  timers_sound w -> reset_poll_modem DEBUG x w = Done tt w' -> timers_sound w'.
Proof.
  intros Hs H.
  assert (exists o c, objects w !! x = Some o /\ modem_context o = Some c)
    as (o & c & Ho & Hc).
  { unfold reset_poll_modem in H. apply bind_Done_inv in H as (c & w0 & Hget & _).
    apply get_modem_context_inv in Hget as (_ & o & Ho & Hc). eauto. }
  destruct DEBUG.
  - rewrite (reset_poll_modem_debug_eq w x o c Ho Hc) in H. injection H as <-.
    assert (timers_sound
              (set_objects
                 (<[x := set_modem_context
                           (Some (set_timestamp
                                    (gint64_sub (monotonic_time w) (700 * G_USEC_PER_SEC)) c))
                           o]> (objects w)) w)) as Hput.
    { eapply (timers_sound_update w _ x o _ Hs Ho); [reflexivity | reflexivity |].
      intros c0 Hc0. assert (c0 = c) as -> by congruence. eexists. split; reflexivity. }
    case_bool_decide; [exact Hput|]. case_bool_decide; [|exact Hput].
    now apply (kick_started_sound w x o c).
  - destruct (decide (kick_due (monotonic_time w) c)) as [[Hts Hel]|Hno].
    + rewrite (reset_poll_modem_kick w x o c Ho Hc Hts Hel) in H. injection H as <-.
      now apply (kick_started_sound w x o c).
    + rewrite (reset_poll_modem_wait w x o c Ho Hc Hno) in H. now injection H as <-.
Qed.

Lemma for_each_sound {A} (body : A -> M unit) l :
  (forall a w w', timers_sound w -> body a w = Done tt w' -> timers_sound w') ->
  forall w w', timers_sound w -> for_each body l w = Done tt w' -> timers_sound w'.
Proof.
  intros Hbody. induction l as [|a l IH]; intros w w' Hs H; simpl in H.
  - unfold ret in H. now injection H as <-.
  - apply bind_Done_inv in H as ([] & w1 & H1 & H2).
    exact (IH w1 w' (Hbody a w w1 Hs H1) H2).
Qed.

Lemma modem_registration_changed_sound i x w w' :
  timers_sound w -> modem_registration_changed i x w = Done tt w' -> timers_sound w'.
Proof.
  intros Hs H.
  assert (exists o c, objects w !! x = Some o /\ modem_context o = Some c)
    as (o & c & Ho & Hc).
  { unfold modem_registration_changed in H. apply bind_Done_inv in H as (c & w0 & Hget & _).
    apply get_modem_context_inv in Hget as (_ & o & Ho & Hc). eauto. }
  destruct (modem_registration_changed_Done i x w o c Ho Hc)
    as (w1 & R & _ & _ & Hsrc & _ & _ & Hframe & Ho1).
  rewrite R in H. injection H as <-.
  apply (timers_sound_frame w w1 Hs).
  - intros id y. now rewrite Hsrc.
  - intros id y oy cy _ Hoy Hcy. destruct (decide (y = x)) as [->|Hne].
    + rewrite Ho1. assert (oy = o) as -> by congruence.
      assert (cy = c) as -> by congruence. eexists _, _. repeat split.
    + rewrite Hframe by assumption. eauto.
Qed.

Lemma tracked_world_sound w x o i :
  timers_sound w -> objects w !! x = Some o -> timers_sound (tracked_world x o i w).
Proof.
  intros Hs Ho. apply (timers_sound_frame w _ Hs).
  - intros id y Hid. unfold tracked_world in Hid. simpl in Hid.
    destruct (modem_context o) as [c|]; simpl in Hid; [|exact Hid].
    case_bool_decide; [|exact Hid].
    destruct (decide (id = next_id c)) as [->|Hne].
    + now rewrite lookup_delete_eq in Hid.
    + now rewrite lookup_delete_ne in Hid by congruence.
  - intros id y oy cy Hid Hoy Hcy. unfold tracked_world in *. simpl in *.
    assert (y <> x) as Hne.
    { intros ->. assert (oy = o) as -> by congruence. rewrite Hcy in Hid. simpl in Hid.
      assert (sources w !! id = Some x) as Hid0.
      { case_bool_decide; [|exact Hid].
        destruct (decide (id = next_id cy)) as [->|Hne].
        - now rewrite lookup_delete_eq in Hid.
        - now rewrite lookup_delete_ne in Hid by congruence. }
      destruct (Hs id x Hid0) as (Hnz & o' & c' & Ho' & Hc' & Hn').
      assert (c' = cy) as -> by congruence. subst id.
      rewrite bool_decide_eq_true_2 in Hid by assumption.
      now rewrite lookup_delete_eq in Hid. }
    rewrite lookup_insert_ne by congruence. eauto.
Qed.

Lemma handle_object_added_sound x w w' :
  timers_sound w -> handle_object_added x w = Done tt w' -> timers_sound w'.
Proof.
  intros Hs H.
  destruct (objects w !! x) as [o|] eqn:Ho;
    [|unfold handle_object_added, deref, bind in H; rewrite Ho in H; discriminate].
  destruct (modem_iface o) as [m|] eqn:Hm;
    [|rewrite (handle_object_added_ignored w x o Ho (or_introl Hm)) in H;
      now injection H as <-].
  destruct (primary_port m) as [port|] eqn:Hp;
    [|rewrite (handle_object_added_ignored w x o Ho
                 (or_intror (or_introl (ex_intro _ m (conj Hm Hp))))) in H;
      now injection H as <-].
  destruct (modem_3gpp_iface o) as [i|] eqn:Hi;
    [|rewrite (handle_object_added_ignored w x o Ho (or_intror (or_intror Hi))) in H;
      now injection H as <-].
  rewrite (handle_object_added_steps w x o m port i Ho Hm Hp Hi) in H.
  pose proof (tracked_world_sound w x o i Hs Ho) as Hs1.
  destruct (modems w !! object_path o) as [old|].
  - exact (g_object_unref_sound old _ _ Hs1 H).
  - unfold ret in H. now injection H as <-.
Qed.

(** X7.  The timers are sound before the first event and stay so over every
    event of every run that has not aborted, in both builds: each pending
    timer belongs to a live modem whose context records it, so a modem never
    has two timers and a timer never outlives its modem.  A timer that comes
    due therefore always finds its modem, and its callback returns. *)
Theorem timers_stay_sound DEBUG :
  (forall objs, timers_sound (initial_world objs)) /\
  (forall ev w w',
      timers_sound w -> dispatch DEBUG ev w = Done tt w' -> timers_sound w') /\
  (forall evs w w',
      timers_sound w -> run_events DEBUG evs w = Done tt w' -> timers_sound w') /\
  (forall w id1 id2 x,
      timers_sound w ->
      sources w !! id1 = Some x -> sources w !! id2 = Some x -> id1 = id2) /\
  (forall w id x,
      timers_sound w -> sources w !! id = Some x ->
      exists w', dispatch DEBUG (EV_TIMEOUT id) w = Done tt w' /\ timers_sound w').
Proof.
  assert (forall ev w w',
             timers_sound w -> dispatch DEBUG ev w = Done tt w' -> timers_sound w') as Hstep.
  { intros ev w w' Hs H.
    destruct ev as [now|x|x|x s|id|n ok|].
    - unfold dispatch, get, bind, modify in H. injection H as <-.
      now apply (timers_sound_same w).
    - unfold dispatch, get in H. unfold bind at 1 in H.
      destruct (objects w !! x); [|unfold ret in H; now injection H as <-].
      exact (handle_object_added_sound x w w' Hs H).
    - unfold dispatch, get in H. unfold bind at 1 in H.
      destruct (objects w !! x) as [o|] eqn:Ho; [|unfold ret in H; now injection H as <-].
      apply bind_Done_inv in H as ([] & w1 & H1 & H2).
      apply (g_object_unref_sound x w1 w'); [|exact H2].
      unfold handle_object_removed in H1.
      apply bind_Done_inv in H1 as (o1 & w0 & Hd & H1).
      unfold deref in Hd. rewrite Ho in Hd. injection Hd as <- <-.
      unfold g_hash_table_remove, get in H1. unfold bind at 1 in H1.
      destruct (modems w !! object_path o) as [old|];
        [|unfold ret in H1; now injection H1 as <-].
      unfold bind at 1, modify at 1 in H1.
      apply (g_object_unref_sound old
               (set_modems (delete (object_path o) (modems w)) w) w1); [|exact H1].
      now apply (timers_sound_same w).
    - unfold dispatch, get in H. unfold bind at 1 in H.
      destruct (objects w !! x) as [o|] eqn:Ho; [|unfold ret in H; now injection H as <-].
      destruct (modem_3gpp_iface o) as [i|] eqn:Hi;
        [|unfold ret in H; now injection H as <-].
      unfold bind at 1, modify at 1 in H.
      revert H. apply for_each_sound.
      + intros h w0 w0'. apply modem_registration_changed_sound.
      + eapply (timers_sound_update w _ x o _ Hs Ho); [reflexivity | reflexivity |].
        intros c Hc. exists c. now split.
    - destruct (sources w !! id) as [x|] eqn:Hid.
      + destruct (timeout_sound DEBUG w id x Hs Hid) as (w1 & R & Hs1).
        rewrite R in H. now injection H as <-.
      + unfold dispatch, get, bind in H. rewrite Hid in H. unfold ret in H.
        now injection H as <-.
    - unfold dispatch, get in H. unfold bind at 1 in H.
      destruct (pending_calls w !! n) as [call|]; [|unfold ret in H; now injection H as <-].
      unfold bind at 1, modify at 1 in H.
      refine (ready_callback_sound _ _ _ _ _ _ H).
      now apply (timers_sound_same w).
    - unfold dispatch, get in H. unfold bind at 1 in H.
      apply bind_Done_inv in H as (r & w1 & H1 & H2). unfold ret in H2. injection H2 as <-.
      unfold reset_poll_cb, get in H1. unfold bind at 1 in H1.
      apply bind_Done_inv in H1 as ([] & w2 & H1 & H2). unfold ret in H2.
      injection H2 as _ <-.
      revert H1. apply for_each_sound; [|exact Hs].
      intros x w0 w0'. apply reset_poll_modem_sound. }
  split; [|split; [exact Hstep|split; [|split]]].
  - intros objs id x Hid. unfold initial_world in Hid. simpl in Hid.
    now rewrite lookup_empty in Hid.
  - intros evs w w'. unfold run_events. apply for_each_sound.
    intros ev w0 w0'. apply Hstep.
  - intros w id1 id2 x Hs H1 H2.
    destruct (Hs id1 x H1) as (_ & o1 & c1 & Ho1 & Hc1 & Hn1).
    destruct (Hs id2 x H2) as (_ & o2 & c2 & Ho2 & Hc2 & Hn2).
    assert (c2 = c1) as -> by congruence. congruence.
  - exact (timeout_sound DEBUG).
Qed.

(** ** Every kick ends *)

Lemma run_outcomes_finishes DEBUG x (outcomes : list bool) :
  forall w k n t,
    armed w x (nth_step k) (N.of_nat n) t ->
    (k <= 2)%nat -> (n <= 3)%nat ->
    ((3 - k) + (4 - n) - 1 <= length outcomes)%nat ->
    exists l1 l2 w' t',
      outcomes = l1 ++ l2 /\
      (length l1 <= (3 - k) + (4 - n) - 1)%nat /\
      run_outcomes DEBUG x l1 w = Done tt w' /\
      armed w' x MODEM_OP_STATE_FINISH (N.of_nat (n + failures l1)) t' /\
      (successes l1 = 3 - k \/ failures l1 = 4 - n)%nat.
Proof.
  induction outcomes as [|ok outcomes IH]; intros w k n t Ha Hk Hn Hlen; simpl in Hlen.
  - lia.
  - destruct (step_request_nth_step k Hk) as [kind Hkind].
    destruct (step_outcome_armed DEBUG w x _ _ t kind ok Hkind Ha) as (w1 & t1 & R1 & A1).
    destruct ok.
    + change (step_successor (nth_step k)) with (nth_step (S k)) in A1.
      destruct (decide (k = 2%nat)) as [->|Hk2].
      * exists [true], outcomes, w1, t1. split; [reflexivity|]. split; [simpl; lia|].
        split; [unfold run_outcomes; simpl; now rewrite (bind_Done _ _ _ _ _ R1)|].
        split; [simpl; now rewrite Nat.add_0_r | left; reflexivity].
      * destruct (IH w1 (S k) n t1 A1 ltac:(lia) Hn ltac:(lia))
          as (l1 & l2 & w2 & t2 & -> & Hl & R2 & A2 & Hc).
        exists (true :: l1), l2, w2, t2. split; [reflexivity|]. split; [simpl; lia|].
        split; [unfold run_outcomes in *; simpl; now rewrite (bind_Done _ _ _ _ _ R1)|].
        split; [exact A2 | simpl; lia].
    + rewrite guint_incr_small in A1 by lia.
      destruct (decide (n = 3%nat)) as [->|Hn3].
      * rewrite bool_decide_eq_true_2 in A1 by (simpl; lia).
        exists [false], outcomes, w1, t1. split; [reflexivity|]. split; [simpl; lia|].
        split; [unfold run_outcomes; simpl; now rewrite (bind_Done _ _ _ _ _ R1)|].
        split; [exact A1 | right; reflexivity].
      * rewrite bool_decide_eq_false_2 in A1 by lia.
        destruct (IH w1 k (S n) t1 A1 Hk ltac:(lia) ltac:(lia))
          as (l1 & l2 & w2 & t2 & -> & Hl & R2 & A2 & Hc).
        exists (false :: l1), l2, w2, t2. split; [reflexivity|]. split; [simpl; lia|].
        split; [unfold run_outcomes in *; simpl; now rewrite (bind_Done _ _ _ _ _ R1)|].
        split; [|simpl; lia].
        now replace (n + failures (false :: l1))%nat with (S n + failures l1)%nat
          by (simpl; lia).
Qed.

(** X8.  Whatever the service answers, a kick that starts at the disable step
    sends at most six requests: of any six answers, a prefix takes the
    operation to the finish step, either by the third success or by the fourth
    failure, and the timer of the finish step then releases it. *)
Theorem kick_ends_within_six_requests DEBUG w modem_object t (answers : list bool) :
  armed w modem_object MODEM_OP_STATE_DISABLE 0%N t ->
  length answers = 6%nat ->
  exists used unused w' t' w'',
    answers = used ++ unused /\
    (length used <= 6)%nat /\
    (successes used = 3 \/ failures used = 4)%nat /\
    run_outcomes DEBUG modem_object used w = Done tt w' /\
    armed w' modem_object MODEM_OP_STATE_FINISH (N.of_nat (failures used)) t' /\
    dispatch DEBUG (EV_TIMEOUT t') w' = Done tt w'' /\
    released w'' modem_object.
Proof.
  intros Ha Hlen.
  destruct (run_outcomes_finishes DEBUG modem_object answers w 0 0 t Ha
              ltac:(lia) ltac:(lia) ltac:(simpl; lia))
    as (l1 & l2 & w1 & t1 & -> & Hl & R1 & A1 & Hc).
  destruct (finish_releases DEBUG w1 modem_object _ t1 A1) as (w2 & R2 & Rel & _).
  exists l1, l2, w1, t1, w2. split; [reflexivity|]. split; [simpl in Hl; lia|].
  split; [simpl in Hc; lia|]. repeat (split; [assumption|]). exact Rel.
Qed.

(** ** Clearing the registry *)

Lemma for_each_unref (l : list positive) :
  forall w,
    NoDup l ->
    (forall x, x ∈ l -> is_Some (objects w !! x)) ->
    exists w',
      for_each g_object_unref l w = Done tt w' /\
      modems w' = modems w /\ pending_calls w' = pending_calls w /\
      monotonic_time w' = monotonic_time w /\
      next_handler w' = next_handler w /\
      (forall y, y ∉ l -> objects w' !! y = objects w !! y) /\
      (forall x o, x ∈ l -> objects w !! x = Some o ->
                   objects w' !! x
                   = if last_reference o then None
                     else Some (set_ref_count (Pos.pred (ref_count o)) o)) /\
      (forall k, k ∈ cancelled w -> k ∈ cancelled w') /\
      (forall id y, sources w' !! id = Some y -> sources w !! id = Some y) /\
      (forall x o c, x ∈ l -> objects w !! x = Some o -> last_reference o = true ->
                     modem_context o = Some c ->
                     (forall k, cancellable c = Some k -> k ∈ cancelled w') /\
                     (next_id c <> 0%N -> sources w' !! next_id c = None)) /\
      ((forall x o, x ∈ l -> objects w !! x = Some o -> last_reference o = false) ->
       sources w' = sources w /\ cancelled w' = cancelled w).
Proof.
  induction l as [|x l IH]; intros w Hnd Hlive.
  - exists w. split; [reflexivity|]. do 4 (split; [reflexivity|]).
    split; [reflexivity|]. split; [intros x o Hx; now apply elem_of_nil in Hx|].
    split; [auto|]. split; [auto|].
    split; [intros x o c Hx; now apply elem_of_nil in Hx|]. auto.
  - apply NoDup_cons in Hnd as [Hx Hnd].
    destruct (Hlive x ltac:(left)) as [o Ho].
    assert (exists w1,
               g_object_unref x w = Done tt w1 /\
               modems w1 = modems w /\ pending_calls w1 = pending_calls w /\
               monotonic_time w1 = monotonic_time w /\ next_handler w1 = next_handler w /\
               (forall y, y <> x -> objects w1 !! y = objects w !! y) /\
               objects w1 !! x = (if last_reference o then None
                                  else Some (set_ref_count (Pos.pred (ref_count o)) o)) /\
               (forall k, k ∈ cancelled w -> k ∈ cancelled w1) /\
               (forall id y, sources w1 !! id = Some y -> sources w !! id = Some y) /\
               (forall c, last_reference o = true -> modem_context o = Some c ->
                          (forall k, cancellable c = Some k -> k ∈ cancelled w1) /\
                          (next_id c <> 0%N -> sources w1 !! next_id c = None)) /\
               (last_reference o = false ->
                sources w1 = sources w /\ cancelled w1 = cancelled w))
      as (w1 & R1 & Hm1 & Hp1 & Ht1 & Hh1 & Hf1 & Hx1 & Hcan1 & Hsrc1 & Hfin1 & Hkeep1).
    { unfold last_reference. destruct (decide (ref_count o = 1%positive)) as [Hrc|Hrc].
      - rewrite (g_object_unref_last w x o Ho Hrc). eexists. split; [reflexivity|].
        rewrite bool_decide_eq_true_2 by exact Hrc.
        destruct (modem_context o) as [c|] eqn:Hc; simpl.
        + do 4 (split; [reflexivity|]).
          split; [intros y Hy; now rewrite lookup_delete_ne by congruence|].
          split; [apply lookup_delete_eq|].
          split; [intros k Hk; destruct (cancellable c); [apply elem_of_union; now right|exact Hk]|].
          split.
          { intros id y Hid. case_bool_decide; [|exact Hid].
            destruct (decide (id = next_id c)) as [->|Hne];
              [now rewrite lookup_delete_eq in Hid
              |now rewrite lookup_delete_ne in Hid by congruence]. }
          split; [|discriminate].
          intros c0 _ Hc0. injection Hc0 as <-. split.
          * intros k ->. apply elem_of_union; left. now apply elem_of_singleton.
          * intros Hn. rewrite bool_decide_eq_true_2 by exact Hn. apply lookup_delete_eq.
        + do 4 (split; [reflexivity|]).
          split; [intros y Hy; now rewrite lookup_delete_ne by congruence|].
          split; [apply lookup_delete_eq|]. split; [auto|]. split; [auto|].
          split; [intros c0 _ Hc0; discriminate | discriminate].
      - rewrite (g_object_unref_shared w x o Ho Hrc). eexists. split; [reflexivity|].
        rewrite bool_decide_eq_false_2 by exact Hrc. simpl.
        do 4 (split; [reflexivity|]).
        split; [intros y Hy; now rewrite lookup_insert_ne by congruence|].
        split; [apply lookup_insert_eq|]. split; [auto|]. split; [auto|].
        split; [intros c0 Hl; discriminate | auto]. }
    destruct (IH w1 Hnd) as (w2 & R2 & Hm2 & Hp2 & Ht2 & Hh2 & Hf2 & Hx2 & Hcan2 & Hsrc2 & Hfin2 & Hkeep2).
    { intros y Hy. rewrite Hf1 by (intros ->; contradiction). apply Hlive. now right. }
    exists w2. simpl for_each. rewrite (bind_Done _ _ _ _ _ R1).
    split; [exact R2|]. split; [congruence|]. split; [congruence|].
    split; [congruence|]. split; [congruence|].
    split.
    { intros y Hy. rewrite Hf2 by (intros Hin; apply Hy; now right).
      apply Hf1. intros ->. apply Hy. now left. }
    split.
    { intros y oy Hy Hoy. apply elem_of_cons in Hy as [->|Hy].
      - assert (oy = o) as -> by congruence. rewrite Hf2 by assumption. exact Hx1.
      - apply Hx2; [exact Hy|]. rewrite Hf1 by (intros ->; contradiction). exact Hoy. }
    split; [auto|]. split; [auto|].
    split.
    { intros y oy cy Hy Hoy Hl Hcy. apply elem_of_cons in Hy as [->|Hy].
      - assert (oy = o) as -> by congruence.
        destruct (Hfin1 cy Hl Hcy) as [Hk Hn]. split; [auto|].
        intros Hnz. specialize (Hn Hnz).
        destruct (sources w2 !! next_id cy) as [z|] eqn:E; [|reflexivity].
        apply Hsrc2 in E. congruence.
      - apply (Hfin2 y oy cy Hy); [|exact Hl|exact Hcy].
        rewrite Hf1 by (intros ->; contradiction). exact Hoy. }
    intros Hall.
    destruct (Hkeep1 (Hall x o ltac:(left) Ho)) as [E1 E2].
    destruct Hkeep2 as [E3 E4].
    { intros y oy Hy Hoy. rewrite Hf1 in Hoy by (intros ->; contradiction).
      apply (Hall y oy); [now right | exact Hoy]. }
    split; congruence.
Qed.

Lemma registry_values_NoDup (w : World) :
  (forall p q x, modems w !! p = Some x -> modems w !! q = Some x -> p = q) ->
  NoDup (snd <$> map_to_list (modems w)).
Proof.
  intros Hinj. apply NoDup_fmap_2_strong; [|apply NoDup_map_to_list].
  intros [p x] [q y] Hp Hq Heq. simpl in Heq. subst y.
  apply elem_of_map_to_list in Hp, Hq. now rewrite (Hinj p q x Hp Hq).
Qed.

Lemma registry_values_elem (w : World) x :
  x ∈ snd <$> map_to_list (modems w) <-> exists p, modems w !! p = Some x.
Proof.
  rewrite list_elem_of_fmap. split.
  - intros ([p y] & -> & H). exists p. now apply elem_of_map_to_list in H.
  - intros (p & H). exists (p, x). split; [reflexivity|]. now apply elem_of_map_to_list.
Qed.

Lemma clearing_the_registry_aux w :
  registry_live w ->
  (forall p q x, modems w !! p = Some x -> modems w !! q = Some x -> p = q) ->
  exists w',
    context_clear_modems w = Done tt w' /\
    modems w' = ∅ /\
    pending_calls w' = pending_calls w /\
    (forall p x o, modems w !! p = Some x -> objects w !! x = Some o ->
                   objects w' !! x
                   = if last_reference o then None
                     else Some (set_ref_count (Pos.pred (ref_count o)) o)) /\
    (forall p x o c, modems w !! p = Some x -> objects w !! x = Some o ->
                     last_reference o = true -> modem_context o = Some c ->
                     (forall k, cancellable c = Some k -> k ∈ cancelled w') /\
                     (next_id c <> 0%N -> sources w' !! next_id c = None)) /\
    (forall y, (forall p, modems w !! p <> Some y) -> objects w' !! y = objects w !! y) /\
    (timers_sound w -> timers_sound w').
Proof.
  intros Hlive Hinj.
  destruct (for_each_unref (snd <$> map_to_list (modems w)) (set_modems ∅ w)
              (registry_values_NoDup w Hinj))
    as (w' & R & Hm & Hp & _ & _ & Hout & Hin & _ & _ & Hfin & _).
  { intros x Hx. apply registry_values_elem in Hx as (p & Hx).
    destruct (Hlive p x Hx) as (o & c & Ho & _). simpl. now rewrite Ho. }
  exists w'. split; [exact R|]. split; [exact Hm|]. split; [exact Hp|].
  split.
  { intros p x o Hx Ho. apply Hin; [|exact Ho]. apply registry_values_elem. now exists p. }
  split.
  { intros p x o c Hx Ho. apply (Hfin x o c); [|exact Ho]. apply registry_values_elem. now exists p. }
  split.
  { intros y Hy. apply Hout. intros Hin'. apply registry_values_elem in Hin' as (p & Hp').
    exact (Hy p Hp'). }
  intros Hs.
  apply (for_each_sound g_object_unref (snd <$> map_to_list (modems w))
           g_object_unref_sound (set_modems ∅ w) w'); [|exact R].
  intros id x Hid. exact (Hs id x Hid).
Qed.

(** X9.  [context_clear_modems] on a registry whose entries are live and
    distinct: it returns with the table empty; an entry whose last reference
    the table held is finalized, its kick cancelled and its timer removed;
    any other entry only loses the table's reference; objects outside the
    table, requests in flight and the soundness of the timers are untouched. *)
Theorem clearing_the_registry_releases_every_entry w :
  registry_live w ->
  (forall p q x, modems w !! p = Some x -> modems w !! q = Some x -> p = q) ->
  exists w',
    context_clear_modems w = Done tt w' /\
    modems w' = ∅ /\
    pending_calls w' = pending_calls w /\
    (forall p x o, modems w !! p = Some x -> objects w !! x = Some o ->
                   objects w' !! x
                   = if last_reference o then None
                     else Some (set_ref_count (Pos.pred (ref_count o)) o)) /\
    (forall p x o c, modems w !! p = Some x -> objects w !! x = Some o ->
                     last_reference o = true -> modem_context o = Some c ->
                     (forall k, cancellable c = Some k -> k ∈ cancelled w') /\
                     (next_id c <> 0%N -> sources w' !! next_id c = None)) /\
    (forall y, (forall p, modems w !! p <> Some y) -> objects w' !! y = objects w !! y) /\
    (timers_sound w -> timers_sound w').
Proof. exact (clearing_the_registry_aux w). Qed.

Lemma context_clear_modems_empty w :
  modems w = ∅ -> context_clear_modems w = Done tt w.
Proof.
  intros He. unfold context_clear_modems, bind, get, modify. rewrite He.
  rewrite map_to_list_empty. simpl. unfold ret. f_equal.
  destruct w; simpl in *. now subst.
Qed.

(** ** Taking the inventory *)

Lemma g_object_ref_Done w x o :
  objects w !! x = Some o ->
  g_object_ref x w
  = Done tt (set_objects (<[x := set_ref_count (Pos.succ (ref_count o)) o]> (objects w)) w).
Proof.
  intros Ho. unfold g_object_ref, deref, bind, modify. now rewrite Ho.
Qed.

Lemma for_each_ref (l : list positive) :
  forall w,
    NoDup l ->
    (forall x, x ∈ l -> is_Some (objects w !! x)) ->
    exists objs,
      for_each g_object_ref l w = Done tt (set_objects objs w) /\
      (forall y, y ∉ l -> objs !! y = objects w !! y) /\
      (forall x o, x ∈ l -> objects w !! x = Some o ->
                   objs !! x = Some (set_ref_count (Pos.succ (ref_count o)) o)).
Proof.
  induction l as [|x l IH]; intros w Hnd Hlive.
  - exists (objects w). split; [destruct w; reflexivity|]. split; [reflexivity|].
    intros x o Hx. now apply elem_of_nil in Hx.
  - apply NoDup_cons in Hnd as [Hx Hnd].
    destruct (Hlive x ltac:(left)) as [o Ho].
    set (w1 := set_objects (<[x := set_ref_count (Pos.succ (ref_count o)) o]> (objects w)) w).
    destruct (IH w1 Hnd) as (objs & R & Hout & Hin).
    { intros y Hy. simpl. rewrite lookup_insert_ne by (intros ->; contradiction).
      apply Hlive. now right. }
    exists objs. simpl for_each. rewrite (bind_Done _ _ _ _ _ (g_object_ref_Done w x o Ho)).
    fold w1. split; [exact R|]. split.
    + intros y Hy. rewrite Hout by (intros Hin'; apply Hy; now right).
      simpl. apply lookup_insert_ne. intros ->. apply Hy. now left.
    + intros y oy Hy Hoy. apply elem_of_cons in Hy as [->|Hy].
      * assert (oy = o) as -> by congruence. rewrite Hout by assumption.
        simpl. apply lookup_insert_eq.
      * apply Hin; [exact Hy|]. simpl.
        rewrite lookup_insert_ne by (intros ->; contradiction). exact Hoy.
Qed.

Lemma eligible_inv o :
  eligible o = true ->
  exists m port i, modem_iface o = Some m /\ primary_port m = Some port /\
                   modem_3gpp_iface o = Some i.
Proof.
  unfold eligible. destruct (modem_iface o) as [m|]; [|discriminate].
  destruct (modem_3gpp_iface o) as [i|]; [|discriminate].
  intros H. apply bool_decide_eq_true_1 in H.
  destruct (primary_port m) as [port|] eqn:Hp; [|contradiction].
  exists m, port, i. split; [reflexivity|]. split; [exact Hp|reflexivity].
Qed.

Lemma not_eligible_inv o :
  eligible o = false ->
  modem_iface o = None \/
  (exists m, modem_iface o = Some m /\ primary_port m = None) \/
  modem_3gpp_iface o = None.
Proof.
  unfold eligible. destruct (modem_iface o) as [m|]; [|now left].
  destruct (modem_3gpp_iface o) as [i|]; [|now right; right].
  intros H. apply bool_decide_eq_false_1 in H. right; left. exists m. split; [reflexivity|].
  destruct (primary_port m) eqn:Hp; [|reflexivity]. exfalso. apply H. discriminate.
Qed.

Lemma for_each_add (l : list positive) :
  forall w,
    NoDup l ->
    (forall x, x ∈ l -> exists o, objects w !! x = Some o /\ modem_context o = None /\
                                  modems w !! object_path o = None) ->
    (forall x y ox oy, x ∈ l -> y ∈ l -> objects w !! x = Some ox ->
                       objects w !! y = Some oy -> object_path ox = object_path oy -> x = y) ->
    exists w', for_each handle_object_added l w = Done tt w' /\ inventoried l w w'.
Proof.
  induction l as [|x l IH]; intros w Hnd Hnew Hdist.
  - exists w. split; [reflexivity|]. unfold inventoried. do 4 (split; [reflexivity|]).
    split; [reflexivity|].
    split; [intros x o Hx; now apply elem_of_nil in Hx|].
    split; [intros x o Hx; now apply elem_of_nil in Hx|].
    intros p y. split; [now left|]. intros [H|[H _]]; [exact H|now apply elem_of_nil in H].
  - apply NoDup_cons in Hnd as [Hx Hnd].
    destruct (Hnew x ltac:(left)) as (o & Ho & Hc & Hreg).
    assert (exists w1,
               handle_object_added x w = Done tt w1 /\
               monotonic_time w1 = monotonic_time w /\
               sources w1 = sources w /\ cancelled w1 = cancelled w /\
               pending_calls w1 = pending_calls w /\
               (forall y, y <> x -> objects w1 !! y = objects w !! y) /\
               (if eligible o
                then exists i, modem_3gpp_iface o = Some i /\
                               objects w1 !! x
                               = Some (added_object o i (Npos (next_handler w))
                                         (stamp (monotonic_time w) (registration_state i) 0)
                                         (Pos.succ (ref_count o))) /\
                               modems w1 = <[object_path o := x]> (modems w)
                else objects w1 !! x = Some o /\ modems w1 = modems w))
      as (w1 & R1 & Ht1 & Hs1 & Hk1 & Hp1 & Hf1 & He1).
    { destruct (eligible o) eqn:He.
      - destruct (eligible_inv o He) as (m & port & i & Hm & Hport & Hi).
        exists (added_world x o i w).
        split; [exact (handle_object_added_eq w x o m port i Ho Hm Hport Hi (or_introl Hreg))|].
        unfold added_world. rewrite Hc, Hreg. simpl.
        do 4 (split; [reflexivity|]).
        split; [intros y Hy; now rewrite lookup_insert_ne by congruence|].
        exists i. split; [exact Hi|]. split; [apply lookup_insert_eq|reflexivity].
      - exists w. split; [exact (handle_object_added_ignored w x o Ho (not_eligible_inv o He))|].
        do 4 (split; [reflexivity|]). split; [reflexivity|]. now split. }
    assert (forall y, y ∈ l -> y <> x) as Hne by (intros y Hy ->; contradiction).
    assert (forall y oy, y ∈ l -> objects w !! y = Some oy -> object_path oy <> object_path o)
      as Hpath.
    { intros y oy Hy Hoy Heq. apply (Hne y Hy).
      apply (Hdist y x oy o); [now right|now left|exact Hoy|exact Ho|exact Heq]. }
    destruct (IH w1 Hnd) as (w2 & R2 & Ht2 & Hs2 & Hk2 & Hp2 & Hf2 & Hel2 & Hin2 & Hm2).
    { intros y Hy. destruct (Hnew y ltac:(now right)) as (oy & Hoy & Hcy & Hry).
      exists oy. rewrite (Hf1 y (Hne y Hy)). split; [exact Hoy|]. split; [exact Hcy|].
      destruct (eligible o).
      - destruct He1 as (i & _ & _ & ->).
        rewrite lookup_insert_ne by (intros E; exact (Hpath y oy Hy Hoy (eq_sym E))).
        exact Hry.
      - destruct He1 as [_ ->]. exact Hry. }
    { intros y z oy oz Hy Hz Hoy Hoz. rewrite (Hf1 y (Hne y Hy)) in Hoy.
      rewrite (Hf1 z (Hne z Hz)) in Hoz.
      apply (Hdist y z oy oz); [now right|now right|exact Hoy|exact Hoz]. }
    exists w2. simpl for_each. rewrite (bind_Done _ _ _ _ _ R1). split; [exact R2|].
    unfold inventoried.
    split; [congruence|]. split; [congruence|]. split; [congruence|]. split; [congruence|].
    split.
    { intros y Hy. rewrite Hf2 by (intros Hin; apply Hy; now right).
      apply Hf1. intros ->. apply Hy. now left. }
    split.
    { intros y oy Hy Hoy Hey. apply elem_of_cons in Hy as [->|Hy].
      - assert (oy = o) as -> by congruence. rewrite Hey in He1.
        destruct He1 as (i & Hi & Hox & _). exists i, (Npos (next_handler w)).
        split; [exact Hi|]. rewrite Hf2 by assumption. exact Hox.
      - rewrite <- (Hf1 y (Hne y Hy)) in Hoy.
        destruct (Hel2 y oy Hy Hoy Hey) as (i & id & Hi & Hres).
        exists i, id. split; [exact Hi|]. rewrite Hres. now rewrite Ht1. }
    split.
    { intros y oy Hy Hoy Hey. apply elem_of_cons in Hy as [->|Hy].
      - assert (oy = o) as -> by congruence. rewrite Hey in He1.
        rewrite Hf2 by assumption. exact (proj1 He1).
      - rewrite <- (Hf1 y (Hne y Hy)) in Hoy. exact (Hin2 y oy Hy Hoy Hey). }
    intros p y. rewrite Hm2. split.
    + intros [H|(Hy & oy & Hoy & Hey & Hpy)].
      * destruct (eligible o) eqn:He.
        -- destruct He1 as (i & _ & _ & Hmod). rewrite Hmod in H.
           destruct (decide (object_path o = p)) as [Hop|Hop].
           ++ subst p. rewrite lookup_insert_eq in H. injection H as <-.
              right. split; [now left|]. now exists o.
           ++ rewrite lookup_insert_ne in H by exact Hop. now left.
        -- destruct He1 as [_ Hmod]. rewrite Hmod in H. now left.
      * right. split; [now right|]. exists oy.
        rewrite (Hf1 y (Hne y Hy)) in Hoy. now split.
    + intros [H|(Hy & oy & Hoy & Hey & Hpy)].
      * left. destruct (eligible o).
        -- destruct He1 as (i & _ & _ & ->).
           rewrite lookup_insert_ne; [exact H|]. intros E. congruence.
        -- destruct He1 as [_ ->]. exact H.
      * apply elem_of_cons in Hy as [->|Hy].
        -- assert (oy = o) as -> by congruence. rewrite Hey in He1.
           destruct He1 as (i & _ & _ & ->). left. subst p. apply lookup_insert_eq.
        -- right. split; [exact Hy|]. exists oy.
           rewrite (Hf1 y (Hne y Hy)). now split.
Qed.

Lemma eligible_set_ref_count rc o : eligible (set_ref_count rc o) = eligible o.
Proof. reflexivity. Qed.

Lemma last_reference_succ o rc : ref_count o = Pos.succ rc -> last_reference o = false.
Proof.
  intros H. unfold last_reference. apply bool_decide_eq_false_2. rewrite H.
  apply Pos.succ_not_1.
Qed.

Lemma inventory_tracks_exactly_the_eligible_modems_aux ctx m :
  mm ctx = Some m ->
  NoDup (manager_objects m) ->
  (forall x, x ∈ manager_objects m ->
             exists o, objects (world ctx) !! x = Some o /\ modem_context o = None /\
                       modems (world ctx) !! object_path o = None) ->
  (forall x y ox oy, x ∈ manager_objects m -> y ∈ manager_objects m ->
                     objects (world ctx) !! x = Some ox ->
                     objects (world ctx) !! y = Some oy ->
                     object_path ox = object_path oy -> x = y) ->
  exists w',
    mm_available ctx = Returned tt (set_world w' ctx) /\
    inventoried (manager_objects m) (world ctx) w'.
Proof.
  intros Hmm Hnd Hnew Hdist.
  set (l := manager_objects m) in *. set (w := world ctx) in *.
  assert (forall x, x ∈ l -> is_Some (objects w !! x)) as Hlive.
  { intros x Hx. destruct (Hnew x Hx) as (o & Ho & _). now rewrite Ho. }
  destruct (for_each_ref l w Hnd Hlive) as (objs1 & R1 & Hout1 & Hin1).
  set (w1 := set_objects objs1 w) in *.
  destruct (for_each_add l w1 Hnd) as (w2 & R2 & Ht2 & Hs2 & Hk2 & Hp2 & Hout2 & Hel2 & Hin2 & Hm2).
  { intros x Hx. destruct (Hnew x Hx) as (o & Ho & Hc & Hreg).
    exists (set_ref_count (Pos.succ (ref_count o)) o).
    split; [exact (Hin1 x o Hx Ho)|]. split; [exact Hc|exact Hreg]. }
  { intros x y ox oy Hx Hy Hox Hoy.
    destruct (Hnew x Hx) as (ox0 & Hox0 & _). destruct (Hnew y Hy) as (oy0 & Hoy0 & _).
    change (objects w1) with objs1 in Hox, Hoy.
    rewrite (Hin1 x ox0 Hx Hox0) in Hox. rewrite (Hin1 y oy0 Hy Hoy0) in Hoy.
    injection Hox as <-. injection Hoy as <-.
    exact (Hdist x y ox0 oy0 Hx Hy Hox0 Hoy0). }
  assert (forall x o, x ∈ l -> objects w !! x = Some o ->
            exists o2, objects w2 !! x = Some o2 /\ last_reference o2 = false /\
                       set_ref_count (Pos.pred (ref_count o2)) o2
                       = if eligible o
                         then match modem_3gpp_iface o with
                              | Some i =>
                                  added_object o i (reg_state_changed_id
                                                      (default (modem_context_new o)
                                                               (modem_context o2)))
                                    (stamp (monotonic_time w) (registration_state i) 0)
                                    (Pos.succ (ref_count o))
                              | None => o
                              end
                         else o) as Hmid.
  { intros x o Hx Ho. pose proof (Hin1 x o Hx Ho) as Ho1.
    destruct (eligible o) eqn:He.
    - destruct (Hel2 x _ Hx Ho1 He) as (i & id & Hi & Hres).
      eexists. split; [exact Hres|]. split; [eapply last_reference_succ; reflexivity|].
      change (modem_3gpp_iface (set_ref_count (Pos.succ (ref_count o)) o))
        with (modem_3gpp_iface o) in Hi. rewrite Hi.
      unfold added_object, set_ref_count. simpl. now rewrite Pos.pred_succ.
    - rewrite (Hin2 x _ Hx Ho1 He). eexists. split; [reflexivity|].
      split; [eapply last_reference_succ; reflexivity|].
      destruct o. unfold set_ref_count. simpl. now rewrite Pos.pred_succ. }
  destruct (for_each_unref l w2 Hnd)
    as (w3 & R3 & Hm3 & Hp3 & Ht3 & _ & Hout3 & Hin3 & _ & _ & _ & Hkeep3).
  { intros x Hx. destruct (Hnew x Hx) as (o & Ho & _).
    destruct (Hmid x o Hx Ho) as (o2 & Ho2 & _). now rewrite Ho2. }
  destruct Hkeep3 as [Hs3 Hk3].
  { intros x o2 Hx Ho2. destruct (Hnew x Hx) as (o & Ho & _).
    destruct (Hmid x o Hx Ho) as (o2' & Ho2' & Hl & _). congruence. }
  exists w3. split.
  { unfold mm_available, bindC, getC, lift. rewrite Hmm. fold l. fold w. rewrite R1.
    simpl world. fold w1. rewrite R2. simpl world. rewrite R3. reflexivity. }
  unfold inventoried.
  split; [rewrite Ht3, Ht2; reflexivity|].
  split; [rewrite Hs3, Hs2; reflexivity|].
  split; [rewrite Hk3, Hk2; reflexivity|].
  split; [rewrite Hp3, Hp2; reflexivity|].
  split.
  { intros y Hy. rewrite (Hout3 y Hy), (Hout2 y Hy). exact (Hout1 y Hy). }
  split.
  { intros x o Hx Ho He. destruct (Hmid x o Hx Ho) as (o2 & Ho2 & Hl & Heq).
    rewrite He in Heq. destruct (eligible_inv o He) as (m0 & port & i & _ & _ & Hi).
    rewrite Hi in Heq. exists i. eexists. split; [exact Hi|].
    rewrite (Hin3 x o2 Hx Ho2), Hl, Heq. reflexivity. }
  split.
  { intros x o Hx Ho He. destruct (Hmid x o Hx Ho) as (o2 & Ho2 & Hl & Heq).
    rewrite He in Heq. now rewrite (Hin3 x o2 Hx Ho2), Hl, Heq. }
  intros p y. rewrite Hm3, Hm2. change (modems w1) with (modems w). split.
  - intros [H|(Hy & o1 & Ho1 & He & Hpath)]; [now left|]. right. split; [exact Hy|].
    destruct (Hnew y Hy) as (o & Ho & _). exists o. split; [exact Ho|].
    change (objects w1) with objs1 in Ho1. rewrite (Hin1 y o Hy Ho) in Ho1.
    injection Ho1 as <-. now split.
  - intros [H|(Hy & o & Ho & He & Hpath)]; [now left|]. right. split; [exact Hy|].
    exists (set_ref_count (Pos.succ (ref_count o)) o). split; [exact (Hin1 y o Hy Ho)|].
    now split.
Qed.

(** X10.  [mm_available] over the proxies of a manager, none of them known
    yet: it returns; exactly the proxies that pass the three checks of
    [handle_object_added] are entered in the registry, each under its own
    path, with a fresh context, one more handler and the table's reference;
    the others are as before; the references of the listing are all given
    back, and no timer, token or request is touched. *)
Theorem inventory_tracks_exactly_the_eligible_modems ctx m :
  mm ctx = Some m ->
  NoDup (manager_objects m) ->
  (forall x, x ∈ manager_objects m ->
             exists o, objects (world ctx) !! x = Some o /\ modem_context o = None /\
                       modems (world ctx) !! object_path o = None) ->
  (forall x y ox oy, x ∈ manager_objects m -> y ∈ manager_objects m ->
                     objects (world ctx) !! x = Some ox ->
                     objects (world ctx) !! y = Some oy ->
                     object_path ox = object_path oy -> x = y) ->
  exists w',
    mm_available ctx = Returned tt (set_world w' ctx) /\
    inventoried (manager_objects m) (world ctx) w'.
Proof. exact (inventory_tracks_exactly_the_eligible_modems_aux ctx m). Qed.

(** ** The manager *)

Lemma modem_manager_new_cb_connected m ctx :
  modem_manager_new_cb (Some m) ctx
  = match name_owner m with
    | Some _ => mm_available (connected m ctx)
    | None => Returned tt (connected m ctx)
    end.
Proof.
  change (modem_manager_new_cb (Some m) ctx) with (check_name_owner (connected m ctx)).
  unfold check_name_owner, bindC, getC. unfold connected at 1. unfold mm at 1.
  unfold name_owner at 1. destruct (name_owner m); reflexivity.
Qed.

Lemma context_clear_manager_eq ctx :
  context_clear_manager ctx
  = match context_clear_modems (world ctx) with
    | Done _ w => Returned tt (cleared w ctx)
    | Crash f => Aborted f
    end.
Proof.
  destruct ctx as [w conn m a b c run req].
  unfold context_clear_manager, bindC, getC, modifyC, g_signal_handler_disconnect, retC, lift,
    cleared.
  generalize context_clear_modems as clr; intros clr.
  destruct m; cbn; repeat (case_bool_decide; cbn);
    destruct (clr w) as [[] w'|f]; subst; reflexivity.
Qed.

Lemma modem_manager_new_cb_inventory ctx m owner :
  name_owner m = Some owner ->
  NoDup (manager_objects m) ->
  (forall x, x ∈ manager_objects m ->
             exists o, objects (world ctx) !! x = Some o /\ modem_context o = None /\
                       modems (world ctx) !! object_path o = None) ->
  (forall x y ox oy, x ∈ manager_objects m -> y ∈ manager_objects m ->
                     objects (world ctx) !! x = Some ox ->
                     objects (world ctx) !! y = Some oy ->
                     object_path ox = object_path oy -> x = y) ->
  exists w',
    modem_manager_new_cb (Some m) ctx = Returned tt (set_world w' (connected m ctx)) /\
    inventoried (manager_objects m) (world ctx) w' /\
    (forall p y, modems (world ctx) = ∅ ->
                 (modems w' !! p = Some y <->
                  y ∈ manager_objects m /\
                  exists o, objects (world ctx) !! y = Some o /\ eligible o = true /\
                            object_path o = p)).
Proof.
  intros Hown Hnd Hnew Hdist.
  destruct (inventory_tracks_exactly_the_eligible_modems_aux (connected m ctx)
              (mkMMManager (name_owner m) (manager_objects m)
                 (Npos (Pos.succ (Pos.succ (next_handler (world ctx))))
                  :: Npos (Pos.succ (next_handler (world ctx)))
                  :: Npos (next_handler (world ctx)) :: manager_handlers m))
              eq_refl Hnd Hnew Hdist) as (w' & R & Hinv).
  exists w'. split.
  { rewrite modem_manager_new_cb_connected, Hown. exact R. }
  split; [exact Hinv|].
  intros p y Hempty. destruct Hinv as (_ & _ & _ & _ & _ & _ & _ & Hm).
  rewrite (Hm p y). simpl. rewrite Hempty, lookup_empty. split.
  - intros [H|H]; [discriminate H|exact H].
  - intros H. now right.
Qed.

(** X11.  [modem_manager_new_cb] with a manager of a running service whose
    proxies are not known yet: the manager is stored, its three handlers are
    connected under three fresh ids, and the inventory enters exactly the
    eligible proxies in the registry. *)
Theorem new_manager_is_watched_and_inventoried ctx m owner :
  name_owner m = Some owner ->
  NoDup (manager_objects m) ->
  (forall x, x ∈ manager_objects m ->
             exists o, objects (world ctx) !! x = Some o /\ modem_context o = None /\
                       modems (world ctx) !! object_path o = None) ->
  (forall x y ox oy, x ∈ manager_objects m -> y ∈ manager_objects m ->
                     objects (world ctx) !! x = Some ox ->
                     objects (world ctx) !! y = Some oy ->
                     object_path ox = object_path oy -> x = y) ->
  exists w',
    modem_manager_new_cb (Some m) ctx = Returned tt (set_world w' (connected m ctx)) /\
    inventoried (manager_objects m) (world ctx) w' /\
    (forall p y, modems (world ctx) = ∅ ->
                 (modems w' !! p = Some y <->
                  y ∈ manager_objects m /\
                  exists o, objects (world ctx) !! y = Some o /\ eligible o = true /\
                            object_path o = p)).
Proof. exact (modem_manager_new_cb_inventory ctx m owner). Qed.

(** X12.  [modem_manager_new_cb] without a running service, that is with an
    error or with a manager that has no name owner: no modem is entered or
    touched and no new manager is requested; a manager is stored with three
    handlers under fresh, distinct ids. *)
Theorem manager_without_service_tracks_nothing ctx res :
  (forall m, res = Some m -> name_owner m = None) ->
  exists ctx',
    modem_manager_new_cb res ctx = Returned tt ctx' /\
    manager_requests ctx' = manager_requests ctx /\
    loop_running ctx' = loop_running ctx /\
    modems (world ctx') = modems (world ctx) /\
    objects (world ctx') = objects (world ctx) /\
    sources (world ctx') = sources (world ctx) /\
    cancelled (world ctx') = cancelled (world ctx) /\
    pending_calls (world ctx') = pending_calls (world ctx) /\
    (res = None -> ctx' = set_mm None ctx) /\
    (forall m, res = Some m ->
               exists m', mm ctx' = Some m' /\
                          manager_handlers m'
                          = [object_removed_id ctx'; object_added_id ctx';
                             name_owner_changed_id ctx'] ++ manager_handlers m /\
                          NoDup [0%N; object_removed_id ctx'; object_added_id ctx';
                                 name_owner_changed_id ctx']).
Proof.
  intros Hres. destruct res as [m|].
  - exists (connected m ctx). split.
    { now rewrite modem_manager_new_cb_connected, (Hres m eq_refl). }
    do 7 (split; [reflexivity|]). split; [discriminate|].
    intros m0 Hm0. injection Hm0 as <-. eexists. split; [reflexivity|]. split; [reflexivity|].
    simpl. set (h := next_handler (world ctx)).
    assert (Pos.succ h <> h) as H1 by lia.
    assert (Pos.succ (Pos.succ h) <> h) as H2 by lia.
    assert (Pos.succ (Pos.succ h) <> Pos.succ h) as H3 by lia.
    repeat (apply NoDup_cons; split);
      [| | | |apply NoDup_nil_2];
      rewrite ?elem_of_cons, ?elem_of_nil; intros Hin;
      repeat (destruct Hin as [Hin|Hin]); try discriminate Hin; try contradiction;
      injection Hin; intros; congruence.
  - exists (set_mm None ctx). split; [reflexivity|].
    do 7 (split; [reflexivity|]). split; [reflexivity|]. discriminate.
Qed.

(** X13.  [handle_name_owner_changed] over a registry whose entries are live
    and distinct: it returns with the registry empty, the world being the one
    [context_clear_modems] leaves; when the service is gone the manager and
    its handlers stay and nothing is requested; when the service is there the
    manager is given up, the three handler ids are zero, and exactly one new
    manager is requested. *)
Theorem name_owner_change_empties_the_registry ctx :
  registry_live (world ctx) ->
  (forall p q x, modems (world ctx) !! p = Some x -> modems (world ctx) !! q = Some x ->
                 p = q) ->
  exists ctx',
    handle_name_owner_changed ctx = Returned tt ctx' /\
    context_clear_modems (world ctx) = Done tt (world ctx') /\
    modems (world ctx') = ∅ /\
    connection ctx' = connection ctx /\
    loop_running ctx' = loop_running ctx /\
    ((forall m, mm ctx = Some m -> name_owner m = None) ->
     ctx' = set_world (world ctx') ctx) /\
    (forall m owner, mm ctx = Some m -> name_owner m = Some owner ->
                     mm ctx' = None /\
                     name_owner_changed_id ctx' = 0%N /\
                     object_added_id ctx' = 0%N /\
                     object_removed_id ctx' = 0%N /\
                     manager_requests ctx' = S (manager_requests ctx)).
Proof.
  intros Hlive Hinj.
  destruct (clearing_the_registry_aux (world ctx) Hlive Hinj) as (w' & R & Hm & _).
  unfold handle_name_owner_changed, bindC, getC.
  destruct (mm ctx) as [m|] eqn:Hmm; [destruct (name_owner m) as [owner|] eqn:Hown|].
  - exists (set_manager_requests (S (manager_requests ctx)) (cleared w' ctx)). split.
    { rewrite context_clear_manager_eq, R. reflexivity. }
    split; [exact R|]. split; [exact Hm|]. split; [reflexivity|]. split; [reflexivity|].
    split.
    { intros Hno. specialize (Hno m eq_refl). congruence. }
    intros m0 owner0 _ _. do 4 (split; [reflexivity|]). reflexivity.
  - exists (set_world w' ctx). split; [unfold lift; now rewrite R|].
    split; [exact R|]. split; [exact Hm|]. split; [reflexivity|]. split; [reflexivity|].
    split; [reflexivity|].
    intros m0 owner0 Hm0 Hown0. injection Hm0 as <-. congruence.
  - exists (set_world w' ctx). split; [unfold lift; now rewrite R|].
    split; [exact R|]. split; [exact Hm|]. split; [reflexivity|]. split; [reflexivity|].
    split; [reflexivity|]. intros m0 owner0 Hm0. discriminate Hm0.
Qed.

(** X14.  Start-up: from the context [context_new] leaves, [bus_get_ready]
    with a connection requests one manager, and [modem_manager_new_cb] with
    the manager of a running service enters exactly its eligible proxies in
    the registry, with no timer pending; without a connection the loop is
    quit and no manager is requested. *)
Theorem startup_tracks_exactly_the_eligible_modems objs m owner :
  name_owner m = Some owner ->
  NoDup (manager_objects m) ->
  (forall x, x ∈ manager_objects m ->
             exists o, objs !! x = Some o /\ modem_context o = None) ->
  (forall x y ox oy, x ∈ manager_objects m -> y ∈ manager_objects m ->
                     objs !! x = Some ox -> objs !! y = Some oy ->
                     object_path ox = object_path oy -> x = y) ->
  exists ctx1 w',
    bus_get_ready true (context_new objs) = Returned tt ctx1 /\
    manager_requests ctx1 = 1%nat /\ loop_running ctx1 = true /\
    modem_manager_new_cb (Some m) ctx1 = Returned tt (set_world w' (connected m ctx1)) /\
    (forall p y, modems w' !! p = Some y <->
                 y ∈ manager_objects m /\
                 exists o, objs !! y = Some o /\ eligible o = true /\ object_path o = p) /\
    sources w' = ∅ /\
    (exists ctx0, bus_get_ready false (context_new objs) = Returned tt ctx0 /\
                  loop_running ctx0 = false /\ manager_requests ctx0 = 0%nat).
Proof.
  intros Hown Hnd Hnew Hdist.
  set (ctx1 := set_manager_requests 1 (set_connection true (context_new objs))).
  destruct (modem_manager_new_cb_inventory ctx1 m owner Hown Hnd) as (w' & R & Hinv & Hreg).
  { intros x Hx. destruct (Hnew x Hx) as (o & Ho & Hc). exists o.
    split; [exact Ho|]. split; [exact Hc|]. apply lookup_empty. }
  { exact Hdist. }
  exists ctx1, w'. split; [reflexivity|]. split; [reflexivity|]. split; [reflexivity|].
  split; [exact R|]. split; [intros p y; exact (Hreg p y eq_refl)|].
  split; [destruct Hinv as (_ & Hs & _); exact Hs|].
  eexists. split; [reflexivity|]. split; reflexivity.
Qed.

(** ** Instances *)

Lemma registration_change_keeps_kick_witness :
  armed w_armed 1%positive MODEM_OP_STATE_DISABLE 0%N 1%N /\
  exists w',
    dispatch false (EV_REGISTRATION_STATE 1%positive MM_MODEM_3GPP_REGISTRATION_STATE_HOME)
      w_armed = Done tt w' /\
    armed w' 1%positive MODEM_OP_STATE_DISABLE 0%N 1%N /\
    sources w' = sources w_armed /\ cancelled w' = cancelled w_armed /\
    pending_calls w' = pending_calls w_armed.
Proof.
  split; [exact w_armed_armed|].
  destruct (proj1 (registration_change_keeps_kick false w_armed 1%positive
                     MM_MODEM_3GPP_REGISTRATION_STATE_HOME)
              MODEM_OP_STATE_DISABLE 0%N 1%N w_armed_armed)
    as (w' & R & Ha & Hs & Hc & Hp & _).
  exists w'. split; [exact R|]. split; [exact Ha|]. split; [exact Hs|].
  split; [exact Hc|exact Hp].
Defined.

Lemma sweep_kicks_exactly_the_due_modems_witness :
  registry_live w_idle /\
  exists w',
    reset_poll_cb false w_idle = Done G_SOURCE_CONTINUE w' /\
    modems w' = modems w_idle /\
    pending_calls w' = pending_calls w_idle.
Proof.
  split; [exact (w_tracked_registry_live (seconds 900))|].
  destruct (proj2 (sweep_kicks_exactly_the_due_modems w_idle)
              (w_tracked_registry_live (seconds 900)))
    as (w' & R & Hm & Hp & _).
  exists w'. split; [exact R|]. split; [exact Hm|exact Hp].
Defined.

Lemma debug_sweep_kicks_every_modem_witness :
  objects w_idle !! 1%positive = Some modem0_tracked /\
  modem_context modem0_tracked = Some ctx_tracked /\
  0 <= monotonic_time w_idle < 2 ^ 63 /\
  monotonic_time w_idle <> 700 * G_USEC_PER_SEC /\
  reset_poll_modem true 1%positive w_idle
    = Done tt (kick_started 1%positive modem0_tracked
                 (set_timestamp (monotonic_time w_idle - 700 * G_USEC_PER_SEC) ctx_tracked)
                 w_idle).
Proof.
  assert (objects w_idle !! 1%positive = Some modem0_tracked) as Ho
    by exact (w_tracked_object (seconds 900)).
  assert (0 <= monotonic_time w_idle < 2 ^ 63) as Hr
    by (vm_compute; split; [intros H; discriminate H | reflexivity]).
  assert (monotonic_time w_idle <> 700 * G_USEC_PER_SEC) as Hne
    by (vm_compute; intros H; discriminate H).
  split; [exact Ho|]. split; [reflexivity|]. split; [exact Hr|]. split; [exact Hne|].
  exact (debug_sweep_kicks_every_modem w_idle 1%positive modem0_tracked ctx_tracked
           Ho eq_refl Hr Hne).
Defined.

Lemma add_then_remove_leaves_no_trace_witness :
  objects w_plugged !! 1%positive = Some modem0 /\
  modems w_plugged !! object_path modem0 = None /\
  exists w1 w2,
    dispatch false (EV_OBJECT_ADDED 1%positive) w_plugged = Done tt w1 /\
    modems w1 !! object_path modem0 = Some 1%positive /\
    dispatch false (EV_OBJECT_REMOVED 1%positive) w1 = Done tt w2 /\
    modems w2 = modems w_plugged /\
    objects w2 = delete 1%positive (objects w_plugged) /\
    sources w2 = sources w_plugged /\
    cancelled w2 = cancelled w_plugged /\
    pending_calls w2 = pending_calls w_plugged.
Proof.
  assert (objects w_plugged !! 1%positive = Some modem0) as Ho by (vm_compute; reflexivity).
  assert (modems w_plugged !! object_path modem0 = None) as Hreg
    by (vm_compute; reflexivity).
  split; [exact Ho|]. split; [exact Hreg|].
  exact (add_then_remove_leaves_no_trace false w_plugged 1%positive modem0
           (mkMMModem (Some "ttyUSB2")) "ttyUSB2"
           (mkMMModem3gpp MM_MODEM_3GPP_REGISTRATION_STATE_IDLE [])
           Ho eq_refl eq_refl eq_refl eq_refl eq_refl Hreg).
Defined.

Lemma readding_a_tracked_modem_resets_it_witness :
  objects w_armed !! 1%positive = Some modem0_armed /\
  modem_context modem0_armed = Some ctx_armed /\
  modems w_armed !! object_path modem0_armed = Some 1%positive /\
  exists w' o',
    handle_object_added 1%positive w_armed = Done tt w' /\
    modems w' = modems w_armed /\
    objects w' !! 1%positive = Some o' /\
    modem_context o'
      = Some (mkModemContext (object_path modem0_armed) (Npos (next_handler w_armed))
                (stamp (monotonic_time w_armed) MM_MODEM_3GPP_REGISTRATION_STATE_IDLE 0)
                None MODEM_OP_STATE_NONE 0%N 0%N) /\
    ref_count o' = ref_count modem0_armed.
Proof.
  assert (objects w_armed !! 1%positive = Some modem0_armed) as Ho
    by (vm_compute; reflexivity).
  assert (modems w_armed !! object_path modem0_armed = Some 1%positive) as Hreg
    by (vm_compute; reflexivity).
  split; [exact Ho|]. split; [reflexivity|]. split; [exact Hreg|].
  destruct (readding_a_tracked_modem_resets_it w_armed 1%positive modem0_armed
              (mkMMModem (Some "ttyUSB2")) "ttyUSB2"
              (mkMMModem3gpp MM_MODEM_3GPP_REGISTRATION_STATE_IDLE [1%N]) ctx_armed
              Ho eq_refl eq_refl eq_refl eq_refl Hreg)
    as (w' & o' & R & Hm & Ho' & Hc & Hrc & _).
  exists w', o'. split; [exact R|]. split; [exact Hm|]. split; [exact Ho'|].
  split; [exact Hc|exact Hrc].
Defined.

Lemma timers_stay_sound_witness :
  timers_sound w_plugged /\
  timers_sound w_armed /\
  sources w_armed !! 1%N = Some 1%positive /\
  exists w', dispatch false (EV_TIMEOUT 1%N) w_armed = Done tt w' /\ timers_sound w'.
Proof.
  destruct (timers_stay_sound false) as (Hinit & _ & Hrun & _ & Hdue).
  assert (timers_sound w_plugged) as H0 by exact (Hinit _).
  assert (run_events false [EV_TIME (seconds 1); EV_OBJECT_ADDED 1%positive;
                            EV_TIME (seconds 300); EV_RESET_POLL;
                            EV_TIME (seconds 600); EV_RESET_POLL;
                            EV_TIME (seconds 900); EV_RESET_POLL] w_plugged
          = Done tt w_armed) as R by (vm_compute; reflexivity).
  assert (timers_sound w_armed) as H1 by exact (Hrun _ w_plugged w_armed H0 R).
  assert (sources w_armed !! 1%N = Some 1%positive) as Hs by (vm_compute; reflexivity).
  split; [exact H0|]. split; [exact H1|]. split; [exact Hs|].
  exact (Hdue w_armed 1%N 1%positive H1 Hs).
Defined.

Lemma kick_ends_within_six_requests_witness :
  armed w_armed 1%positive MODEM_OP_STATE_DISABLE 0%N 1%N /\
  exists used unused w' t' w'',
    [true; false; true; false; false; true] = used ++ unused /\
    (length used <= 6)%nat /\
    (successes used = 3 \/ failures used = 4)%nat /\
    run_outcomes false 1%positive used w_armed = Done tt w' /\
    armed w' 1%positive MODEM_OP_STATE_FINISH (N.of_nat (failures used)) t' /\
    dispatch false (EV_TIMEOUT t') w' = Done tt w'' /\
    released w'' 1%positive.
Proof.
  split; [exact w_armed_armed|].
  exact (kick_ends_within_six_requests false w_armed 1%positive 1%N
           [true; false; true; false; false; true] w_armed_armed eq_refl).
Defined.

Lemma w_idle_registry_distinct :
  forall p q x, modems w_idle !! p = Some x -> modems w_idle !! q = Some x -> p = q.
Proof.
  intros p q x Hp Hq. unfold w_idle in Hp, Hq. rewrite w_tracked_modems in Hp, Hq.
  apply lookup_singleton_Some in Hp as [<- _].
  now apply lookup_singleton_Some in Hq as [<- _].
Qed.

Lemma clearing_the_registry_releases_every_entry_witness :
  registry_live w_idle /\
  exists w',
    context_clear_modems w_idle = Done tt w' /\
    modems w' = ∅ /\
    pending_calls w' = pending_calls w_idle.
Proof.
  split; [exact (w_tracked_registry_live (seconds 900))|].
  destruct (clearing_the_registry_releases_every_entry w_idle
              (w_tracked_registry_live (seconds 900)) w_idle_registry_distinct)
    as (w' & R & Hm & Hp & _).
  exists w'. split; [exact R|]. split; [exact Hm|exact Hp].
Defined.

Lemma plugged_object (objs : gmap positive MMObject) x :
  objs = {[ 1%positive := modem0; 2%positive := modem_no_port ]} ->
  x ∈ [1%positive; 2%positive] ->
  (x = 1%positive /\ objs !! x = Some modem0) \/
  (x = 2%positive /\ objs !! x = Some modem_no_port).
Proof.
  intros -> Hx. apply elem_of_cons in Hx as [->|Hx].
  - left. split; [reflexivity|]. vm_compute. reflexivity.
  - apply elem_of_cons in Hx as [->|Hx]; [|now apply elem_of_nil in Hx].
    right. split; [reflexivity|]. vm_compute. reflexivity.
Qed.

Lemma plugged_new (objs : gmap positive MMObject) x :
  objs = {[ 1%positive := modem0; 2%positive := modem_no_port ]} ->
  x ∈ [1%positive; 2%positive] ->
  exists o, objs !! x = Some o /\ modem_context o = None.
Proof.
  intros E Hx. destruct (plugged_object objs x E Hx) as [[_ H]|[_ H]].
  - exists modem0. split; [exact H|reflexivity].
  - exists modem_no_port. split; [exact H|reflexivity].
Qed.

Lemma plugged_distinct (objs : gmap positive MMObject) x y ox oy :
  objs = {[ 1%positive := modem0; 2%positive := modem_no_port ]} ->
  x ∈ [1%positive; 2%positive] -> y ∈ [1%positive; 2%positive] ->
  objs !! x = Some ox -> objs !! y = Some oy ->
  object_path ox = object_path oy -> x = y.
Proof.
  intros E Hx Hy Hox Hoy Hpath.
  destruct (plugged_object objs x E Hx) as [[-> H1]|[-> H1]];
    destruct (plugged_object objs y E Hy) as [[-> H2]|[-> H2]];
    try reflexivity;
    rewrite H1 in Hox; rewrite H2 in Hoy; injection Hox as <-; injection Hoy as <-;
    vm_compute in Hpath; discriminate Hpath.
Qed.

Lemma plugged_NoDup : NoDup [1%positive; 2%positive].
Proof.
  apply NoDup_cons. split.
  - intros H. apply elem_of_cons in H as [H|H]; [discriminate H|now apply elem_of_nil in H].
  - apply NoDup_cons. split; [intros H; now apply elem_of_nil in H|apply NoDup_nil_2].
Qed.

Lemma supervisor_plugged_new x :
  x ∈ [1%positive; 2%positive] ->
  exists o, objects w_plugged !! x = Some o /\ modem_context o = None /\
            modems w_plugged !! object_path o = None.
Proof.
  intros Hx. destruct (plugged_object (objects w_plugged) x eq_refl Hx) as [[_ H]|[_ H]].
  - exists modem0. split; [exact H|]. split; [reflexivity|]. vm_compute. reflexivity.
  - exists modem_no_port. split; [exact H|]. split; [reflexivity|]. vm_compute. reflexivity.
Qed.

Lemma inventory_tracks_exactly_the_eligible_modems_witness :
  NoDup (manager_objects manager_up) /\
  exists w',
    mm_available (set_mm (Some manager_up) supervisor_plugged)
    = Returned tt (set_world w' (set_mm (Some manager_up) supervisor_plugged)) /\
    inventoried (manager_objects manager_up) w_plugged w'.
Proof.
  split; [exact plugged_NoDup|].
  exact (inventory_tracks_exactly_the_eligible_modems
           (set_mm (Some manager_up) supervisor_plugged) manager_up eq_refl plugged_NoDup
           supervisor_plugged_new
           (fun x y ox oy => plugged_distinct (objects w_plugged) x y ox oy eq_refl)).
Defined.

Lemma new_manager_is_watched_and_inventoried_witness :
  name_owner manager_up = Some ":1.42" /\
  exists w',
    modem_manager_new_cb (Some manager_up) supervisor_plugged
    = Returned tt (set_world w' (connected manager_up supervisor_plugged)) /\
    inventoried (manager_objects manager_up) w_plugged w'.
Proof.
  split; [reflexivity|].
  destruct (new_manager_is_watched_and_inventoried supervisor_plugged manager_up ":1.42"
              eq_refl plugged_NoDup supervisor_plugged_new
              (fun x y ox oy => plugged_distinct (objects w_plugged) x y ox oy eq_refl))
    as (w' & R & Hinv & _).
  exists w'. split; [exact R|exact Hinv].
Defined.

Lemma manager_without_service_tracks_nothing_witness :
  name_owner manager_down = None /\
  exists ctx',
    modem_manager_new_cb (Some manager_down) supervisor_plugged = Returned tt ctx' /\
    manager_requests ctx' = manager_requests supervisor_plugged /\
    modems (world ctx') = modems (world supervisor_plugged).
Proof.
  split; [reflexivity|].
  destruct (manager_without_service_tracks_nothing supervisor_plugged (Some manager_down))
    as (ctx' & R & Hreq & _ & Hm & _).
  { intros m H. injection H as <-. reflexivity. }
  exists ctx'. split; [exact R|]. split; [exact Hreq|exact Hm].
Defined.

Lemma name_owner_change_empties_the_registry_witness :
  registry_live (world supervisor_tracked) /\
  exists ctx',
    handle_name_owner_changed supervisor_tracked = Returned tt ctx' /\
    modems (world ctx') = ∅ /\
    mm ctx' = None /\
    manager_requests ctx' = S (manager_requests supervisor_tracked).
Proof.
  split; [exact (w_tracked_registry_live (seconds 900))|].
  destruct (name_owner_change_empties_the_registry supervisor_tracked
              (w_tracked_registry_live (seconds 900)) w_idle_registry_distinct)
    as (ctx' & R & _ & Hm & _ & _ & _ & Hup).
  destruct (Hup manager_up ":1.42" eq_refl eq_refl) as (Hmm & _ & _ & _ & Hreq).
  exists ctx'. split; [exact R|]. split; [exact Hm|]. split; [exact Hmm|exact Hreq].
Defined.

Lemma startup_tracks_exactly_the_eligible_modems_witness :
  name_owner manager_up = Some ":1.42" /\
  exists ctx1 w',
    bus_get_ready true (context_new {[ 1%positive := modem0; 2%positive := modem_no_port ]})
    = Returned tt ctx1 /\
    manager_requests ctx1 = 1%nat /\
    modem_manager_new_cb (Some manager_up) ctx1
    = Returned tt (set_world w' (connected manager_up ctx1)) /\
    sources w' = ∅.
Proof.
  split; [reflexivity|].
  destruct (startup_tracks_exactly_the_eligible_modems
              {[ 1%positive := modem0; 2%positive := modem_no_port ]} manager_up ":1.42"
              eq_refl plugged_NoDup
              (fun x => plugged_new _ x eq_refl)
              (fun x y ox oy => plugged_distinct _ x y ox oy eq_refl))
    as (ctx1 & w' & R1 & Hreq & _ & R2 & _ & Hs & _).
  exists ctx1, w'. split; [exact R1|]. split; [exact Hreq|]. split; [exact R2|exact Hs].
Defined.
